(** * sevenpercent-app: the multimodal emotion core

    A shallow embedding of the emotion-inference core of the application:
    - [combineEmotions], the fusion of the facial and the vocal estimate, and
      the transcription handler and control functions of the
      [useMultimodalAI] hook;
    - the [VoiceAnalysisService]: feature extraction, rolling histories,
      [calculateStdDev], [detectEmotion], the analysis loop and the
      transcription lifecycle;
    - the parts of the [FaceEmotionService] the hook drives.

    JavaScript numbers are IEEE 754 binary64 values.  They are modelled by
    [spec_float] at precision 53 and maximal exponent 1024, with the rounding
    operations of the Standard Library's [SpecFloat], so that every
    arithmetic step of the source rounds here as it rounds there. *)

From Stdlib Require Import ZArith List Bool Lia.
From Stdlib Require String Ascii.
From Stdlib Require Import SpecFloat.
Import ListNotations.

(* ================================================================== *)
(** ** JavaScript numbers *)
(* ================================================================== *)

Module Num.

Definition number : Type := spec_float.

Definition prec : Z := 53.
Definition emax : Z := 1024.

Definition add : number -> number -> number := SFadd prec emax.
Definition sub : number -> number -> number := SFsub prec emax.
Definition mul : number -> number -> number := SFmul prec emax.
Definition div : number -> number -> number := SFdiv prec emax.
Definition sqrt : number -> number := SFsqrt prec emax.

(** The comparison operators of the language; every one of them is false
    as soon as an operand is NaN. *)
Definition lt (a b : number) : bool := SFltb a b.
Definition le (a b : number) : bool := SFleb a b.
Definition gt (a b : number) : bool := SFltb b a.
Definition ge (a b : number) : bool := SFleb b a.
Definition eq (a b : number) : bool := SFeqb a b.

(** An integer as a number, and a decimal literal [n/d]: division is
    correctly rounded, so [dec 55 100] is the binary64 value the literal
    [0.55] denotes. *)
Definition of_Z (z : Z) : number := binary_normalize prec emax z 0 false.
Definition dec (n d : Z) : number := div (of_Z n) (of_Z d).

Definition zero : number := S754_zero false.
Definition one : number := of_Z 1.

Definition is_nan (a : number) : bool :=
  match a with S754_nan => true | _ => false end.

Definition is_neg_zero (a : number) : bool :=
  match a with S754_zero true => true | _ => false end.

(** [Math.min] on two arguments: NaN if either is NaN, the smaller one
    otherwise, and -0 rather than +0. *)
Definition Math_min (a b : number) : number :=
  match SFcompare a b with
  | None => S754_nan
  | Some Lt => a
  | Some Gt => b
  | Some Eq => if is_neg_zero a then a else b
  end.

(** [Math.floor] of a finite number, as an integer. *)
Definition floor (a : number) : Z :=
  match a with
  | S754_finite s m e => Z.shiftl (cond_Zopp s (Zpos m)) e
  | _ => 0
  end.

(** [x || d] on numbers: 0, -0 and NaN are falsy. *)
Definition or_default (x d : number) : number :=
  match x with
  | S754_zero _ | S754_nan => d
  | _ => x
  end.

(** A number that is neither NaN nor infinite, in canonical form. *)
Definition finite (a : number) : bool :=
  match a with
  | S754_zero _ => true
  | S754_finite _ _ _ => valid_binary prec emax a
  | _ => false
  end.

(** Membership in the closed interval [0,1]. *)
Definition in01 (a : number) : bool := le zero a && le a one.

(** Zero of either sign, a positive finite number or +infinity. *)
Definition nonneg (a : number) : bool :=
  match a with
  | S754_zero _ | S754_finite false _ _ | S754_infinity false => true
  | _ => false
  end.

(** A number that is not NaN and carries the sign [s]. *)
Inductive signed (s : bool) : number -> Prop :=
  | signed_zero : signed s (S754_zero s)
  | signed_finite m e : signed s (S754_finite s m e)
  | signed_infinity : signed s (S754_infinity s).

End Num.

Declare Scope num_scope.
Delimit Scope num_scope with num.
Bind Scope num_scope with Num.number.
Infix "+" := Num.add : num_scope.
Infix "-" := Num.sub : num_scope.
Infix "*" := Num.mul : num_scope.
Infix "/" := Num.div : num_scope.
Infix "<?" := Num.lt : num_scope.
Infix "<=?" := Num.le : num_scope.
Infix ">?" := Num.gt : num_scope.
Infix ">=?" := Num.ge : num_scope.
Notation "n # d" := (Num.dec n d) (at level 9, no associativity) : num_scope.

(* ================================================================== *)
(** ** Emotion labels and estimates *)
(* ================================================================== *)

(** [Emotion] of the face service; the first five are the [VoiceEmotion]s. *)
Inductive Emotion : Type :=
  | happy | sad | angry | fearful | neutral | surprised | disgusted.

Inductive VoiceEmotion : Type :=
  | v_happy | v_sad | v_angry | v_fearful | v_neutral.

(** Both label types are string literal types of the source; a voice label
    is the facial label spelt the same. *)
Definition label_of (v : VoiceEmotion) : Emotion :=
  match v with
  | v_happy => happy
  | v_sad => sad
  | v_angry => angry
  | v_fearful => fearful
  | v_neutral => neutral
  end.

Definition Emotion_eqb (a b : Emotion) : bool :=
  match a, b with
  | happy, happy | sad, sad | angry, angry | fearful, fearful
  | neutral, neutral | surprised, surprised | disgusted, disgusted => true
  | _, _ => false
  end.

Record VoiceMetrics : Type := {
  pitch : Num.number;
  pitchVariation : Num.number;
  volume : Num.number;
  volumeVariation : Num.number;
  speechRate : Num.number;
  energy : Num.number
}.

Record VoiceEmotionResult : Type := {
  emotion : VoiceEmotion;
  confidence : Num.number;
  metrics : VoiceMetrics;
  timestamp : Z
}.

(** [EmotionResult] of the face service; [all] lists the seven scores in
    the key order of the source object. *)
Record EmotionResult : Type := {
  dominant : Emotion;
  f_confidence : Num.number;
  all : list (Emotion * Num.number);
  f_timestamp : Z
}.

Record TranscriptionResult : Type := {
  text : list N;
  isFinal : bool;
  t_confidence : Num.number;
  t_timestamp : Z
}.

(* ================================================================== *)
(** ** Strings *)
(* ================================================================== *)

(** A string is its sequence of UTF-16 code units. *)
Module Str.

Definition jsstring : Type := list N.

(** White space and line terminators, the characters [trim] strips. *)
Definition isWhiteSpace (c : N) : bool :=
  ((9 <=? c) && (c <=? 13) || (c =? 32) || (c =? 160) || (c =? 5760)
   || (8192 <=? c) && (c <=? 8202) || (c =? 8232) || (c =? 8233)
   || (c =? 8239) || (c =? 8287) || (c =? 12288) || (c =? 65279))%N.

Fixpoint trimStart (s : jsstring) : jsstring :=
  match s with
  | [] => []
  | c :: r => if isWhiteSpace c then trimStart r else s
  end.

Fixpoint trimEnd (s : jsstring) : jsstring :=
  match s with
  | [] => []
  | c :: r =>
      match trimEnd r with
      | [] => if isWhiteSpace c then [] else [c]
      | r' => c :: r'
      end
  end.

Definition trim (s : jsstring) : jsstring := trimEnd (trimStart s).

(** Truthiness of a string: the empty string is the only falsy one. *)
Definition truthy (s : jsstring) : bool :=
  match s with [] => false | _ => true end.

Definition of_string (s : String.string) : jsstring :=
  map Ascii.N_of_ascii (String.list_ascii_of_string s).

End Str.

(* ================================================================== *)
(** ** VoiceAnalysisService *)
(* ================================================================== *)

Module Voice.
Import Num.
Local Open Scope num_scope.

(** *** Feature extraction *)

(** One read of the analyser node: the two byte buffers it fills. *)
Record AudioFrame : Type := {
  frequencyData : list Z;
  timeData : list Z
}.

Definition sum (l : list number) : number := fold_left add l zero.

Definition len {A : Type} (l : list A) : number := of_Z (Z.of_nat (length l)).

(** [(timeData[i] - 128) / 128] *)
Definition centred (b : Z) : number := (of_Z b - of_Z 128) / of_Z 128.

Definition calculateRMS (timeData : list Z) : number :=
  let squares := map (fun b => centred b * centred b) timeData in
  sqrt (sum squares / len timeData).

Definition calculateEnergy (frequencyData : list Z) : number :=
  sum (map of_Z frequencyData) / (len frequencyData * of_Z 255).

(** The dot product of the buffer with itself shifted by [lag]. *)
Definition correlation (floatData : list number) (lag : nat) : number :=
  sum (map (fun p => fst p * snd p) (combine floatData (skipn lag floatData))).

(** The lags the loop visits: from [minLag], while below [maxLag] and
    below half the buffer length. *)
Definition lags (minLag maxLag : Z) (n : nat) : list Z :=
  let stop := Z.min maxLag ((Z.of_nat n + 1) / 2) in
  map (fun i => (minLag + Z.of_nat i)%Z) (seq 0 (Z.to_nat (stop - minLag))).

Definition detectPitch (sampleRate : number) (timeData : list Z) : number :=
  let floatData := map centred timeData in
  let minLag := floor (sampleRate / of_Z 500) in
  let maxLag := floor (sampleRate / of_Z 50) in
  let step (acc : number * Z) (lag : Z) :=
    let c := correlation floatData (Z.to_nat lag) in
    if c >? fst acc then (c, lag) else acc in
  let bestLag := snd (fold_left step (lags minLag maxLag (length timeData)) (zero, 0%Z)) in
  if (bestLag =? 0)%Z then zero else sampleRate / of_Z bestLag.

(** *** The rolling histories and their deviation *)

(** [h.push(x); if (h.length > 20) h.shift()] *)
Definition push_capped (x : number) (h : list number) : list number :=
  let h' := h ++ [x] in
  if (20 <? length h')%nat then tl h' else h'.

(** [Math.pow(d, 2)] is taken to be the correctly rounded square. *)
Definition calculateStdDev (values : list number) : number :=
  match values with
  | [] => zero
  | _ =>
      let mean := sum values / len values in
      let squareDiffs := map (fun value => (value - mean) * (value - mean)) values in
      sqrt (sum squareDiffs / len values)
  end.

(** The population standard deviation in the words of the design: the
    square root of the mean of the squared deviations from the mean. *)
Definition mean (l : list number) : number := sum l / len l.

Definition population_stddev (l : list number) : number :=
  sqrt (mean (map (fun x => (x - mean l) * (x - mean l)) l)).

(** *** The rule-based classifier *)

Record Scores : Type := {
  s_happy : number; s_sad : number; s_angry : number;
  s_fearful : number; s_neutral : number
}.

Definition add_happy (d : number) (s : Scores) : Scores :=
  {| s_happy := s_happy s + d; s_sad := s_sad s; s_angry := s_angry s;
     s_fearful := s_fearful s; s_neutral := s_neutral s |}.
Definition add_sad (d : number) (s : Scores) : Scores :=
  {| s_happy := s_happy s; s_sad := s_sad s + d; s_angry := s_angry s;
     s_fearful := s_fearful s; s_neutral := s_neutral s |}.
Definition add_angry (d : number) (s : Scores) : Scores :=
  {| s_happy := s_happy s; s_sad := s_sad s; s_angry := s_angry s + d;
     s_fearful := s_fearful s; s_neutral := s_neutral s |}.
Definition add_fearful (d : number) (s : Scores) : Scores :=
  {| s_happy := s_happy s; s_sad := s_sad s; s_angry := s_angry s;
     s_fearful := s_fearful s + d; s_neutral := s_neutral s |}.
Definition add_neutral (d : number) (s : Scores) : Scores :=
  {| s_happy := s_happy s; s_sad := s_sad s; s_angry := s_angry s;
     s_fearful := s_fearful s; s_neutral := s_neutral s + d |}.

(** [Object.entries(scores)], in the insertion order of the keys. *)
Definition entries (s : Scores) : list (VoiceEmotion * number) :=
  [(v_happy, s_happy s); (v_sad, s_sad s); (v_angry, s_angry s);
   (v_fearful, s_fearful s); (v_neutral, s_neutral s)].

(** The four rule groups, in source order. *)
Definition pitchRules (m : VoiceMetrics) (s : Scores) : Scores :=
  let s := if (pitch m >=? of_Z 200) && (pitch m <=? of_Z 400)
           then add_happy 3#10 s else s in
  let s := if (pitch m >=? of_Z 150) && (pitch m <=? of_Z 350) && (volume m >? 7#10)
           then add_angry 3#10 s else s in
  let s := if (pitch m >=? of_Z 100) && (pitch m <=? of_Z 200)
           then add_sad 3#10 s else s in
  if (pitch m >=? of_Z 180) && (pitch m <=? of_Z 350)
  then add_fearful 2#10 s else s.

Definition volumeRules (m : VoiceMetrics) (s : Scores) : Scores :=
  if volume m >? 7#10 then add_happy 1#10 (add_angry 2#10 s)
  else if volume m <? 3#10 then add_fearful 1#10 (add_sad 3#10 s)
  else s.

Definition variationRules (m : VoiceMetrics) (s : Scores) : Scores :=
  if pitchVariation m >? of_Z 40 then add_fearful 2#10 (add_angry 2#10 s)
  else if pitchVariation m >? of_Z 25 then add_happy 2#10 s
  else if pitchVariation m <? of_Z 15 then add_neutral 1#10 (add_sad 2#10 s)
  else s.

Definition energyRules (m : VoiceMetrics) (s : Scores) : Scores :=
  if energy m >? 6#10 then add_happy 1#10 (add_angry 2#10 s)
  else if energy m <? 3#10 then add_sad 2#10 s
  else s.

Definition score (m : VoiceMetrics) : Scores :=
  let s := {| s_happy := zero; s_sad := zero; s_angry := zero;
              s_fearful := zero; s_neutral := 3#10 |} in
  energyRules m (variationRules m (volumeRules m (pitchRules m s))).

(** The scan for the maximum: a strictly larger score replaces the
    current one. *)
Definition scan (acc : number * VoiceEmotion) (e : VoiceEmotion * number)
  : number * VoiceEmotion :=
  if snd e >? fst acc then (snd e, fst e) else acc.

Record Detected : Type := {
  d_emotion : VoiceEmotion;
  d_confidence : number
}.

Definition detectEmotion (m : VoiceMetrics) : Detected :=
  let best := fold_left scan (entries (score m)) (zero, v_neutral) in
  {| d_emotion := snd best; d_confidence := Math_min one (fst best) |}.

(** *** The service object and its host

    The service is one mutable object.  Its calls act on a [World]: the
    object's fields, the timers it has pending with the host, and the
    trace of what it did to the outside (callbacks, calls on the
    recognition object, console output). *)

Inductive Task : Type := AnalysisTick | RestartRecognition.

Record Timer : Type := { timer_id : positive; delay : Z; task : Task }.

Inductive Exn : Type := DOMException (code : Z).

Inductive Completion : Type := Returned | Threw (e : Exn).

Inductive Level : Type := log | warn | error.

Inductive Msg : Type :=
  | MsgRecognitionReady | MsgNotSupported | MsgInitialized | MsgTranscript
  | MsgEnded | MsgAutoRestarting | MsgCouldNotRestart | MsgStartedAnalysis
  | MsgAlreadyTranscribing | MsgNoRecognition | MsgStartingTranscription
  | MsgStartCalled | MsgCouldNotStart | MsgStoppedAnalysis
  | MsgStoppedTranscription | MsgDisposed.

Inductive Effect : Type :=
  | VoiceEmotionCb (r : VoiceEmotionResult)
  | TranscriptionCb (r : TranscriptionResult)
  | RecognitionStart (outcome : option Exn)
  | RecognitionStop (outcome : option Exn)
  | Console (l : Level) (m : Msg).

Record Config : Type := {
  sampleRate : number;
  fftSize : Z;
  language : String.string
}.

Record Service : Type := {
  audioContext : option number;          (* the context, by its sample rate *)
  analyser : option Z;                   (* the analyser node, by its fftSize *)
  mediaStreamSource : bool;
  recognition : option String.string;    (* the recognition object, by its lang *)
  isListening : bool;
  isTranscribing : bool;
  analysisInterval : option positive;
  config : Config;
  onVoiceEmotionCallback : bool;         (* a callback is registered *)
  onTranscriptionCallback : bool;
  pitchHistory : list number;
  volumeHistory : list number
}.

Record World : Type := {
  this : Service;
  pending : list Timer;
  fresh : positive;
  trace : list Effect
}.

(** What a call reads from outside the object. *)
Record Env : Type := {
  frame : AudioFrame;            (* the analyser's buffers *)
  now : Z;                       (* Date.now() *)
  start_outcome : option Exn;    (* recognition.start() throws this, if any *)
  stop_outcome : option Exn      (* recognition.stop() throws this, if any *)
}.

Definition new (c : Config) : Service :=
  {| audioContext := None; analyser := None; mediaStreamSource := false;
     recognition := None; isListening := false; isTranscribing := false;
     analysisInterval := None; config := c;
     onVoiceEmotionCallback := false; onTranscriptionCallback := false;
     pitchHistory := []; volumeHistory := [] |}.

Definition boot (c : Config) : World :=
  {| this := new c; pending := []; fresh := 1%positive; trace := [] |}.

(** Field assignments. *)
Definition assign (f : Service -> Service) (w : World) : World :=
  {| this := f (this w); pending := pending w; fresh := fresh w; trace := trace w |}.

Definition set_isListening (b : bool) (s : Service) : Service :=
  {| audioContext := audioContext s; analyser := analyser s;
     mediaStreamSource := mediaStreamSource s; recognition := recognition s;
     isListening := b; isTranscribing := isTranscribing s;
     analysisInterval := analysisInterval s; config := config s;
     onVoiceEmotionCallback := onVoiceEmotionCallback s;
     onTranscriptionCallback := onTranscriptionCallback s;
     pitchHistory := pitchHistory s; volumeHistory := volumeHistory s |}.

Definition set_isTranscribing (b : bool) (s : Service) : Service :=
  {| audioContext := audioContext s; analyser := analyser s;
     mediaStreamSource := mediaStreamSource s; recognition := recognition s;
     isListening := isListening s; isTranscribing := b;
     analysisInterval := analysisInterval s; config := config s;
     onVoiceEmotionCallback := onVoiceEmotionCallback s;
     onTranscriptionCallback := onTranscriptionCallback s;
     pitchHistory := pitchHistory s; volumeHistory := volumeHistory s |}.

Definition set_analysisInterval (i : option positive) (s : Service) : Service :=
  {| audioContext := audioContext s; analyser := analyser s;
     mediaStreamSource := mediaStreamSource s; recognition := recognition s;
     isListening := isListening s; isTranscribing := isTranscribing s;
     analysisInterval := i; config := config s;
     onVoiceEmotionCallback := onVoiceEmotionCallback s;
     onTranscriptionCallback := onTranscriptionCallback s;
     pitchHistory := pitchHistory s; volumeHistory := volumeHistory s |}.

Definition set_histories (p v : list number) (s : Service) : Service :=
  {| audioContext := audioContext s; analyser := analyser s;
     mediaStreamSource := mediaStreamSource s; recognition := recognition s;
     isListening := isListening s; isTranscribing := isTranscribing s;
     analysisInterval := analysisInterval s; config := config s;
     onVoiceEmotionCallback := onVoiceEmotionCallback s;
     onTranscriptionCallback := onTranscriptionCallback s;
     pitchHistory := p; volumeHistory := v |}.

Definition set_callbacks (e t : bool) (s : Service) : Service :=
  {| audioContext := audioContext s; analyser := analyser s;
     mediaStreamSource := mediaStreamSource s; recognition := recognition s;
     isListening := isListening s; isTranscribing := isTranscribing s;
     analysisInterval := analysisInterval s; config := config s;
     onVoiceEmotionCallback := e; onTranscriptionCallback := t;
     pitchHistory := pitchHistory s; volumeHistory := volumeHistory s |}.

Definition set_language (l : String.string) (s : Service) : Service :=
  {| audioContext := audioContext s; analyser := analyser s;
     mediaStreamSource := mediaStreamSource s;
     recognition := option_map (fun _ => l) (recognition s);
     isListening := isListening s; isTranscribing := isTranscribing s;
     analysisInterval := analysisInterval s;
     config := {| sampleRate := sampleRate (config s);
                  fftSize := fftSize (config s); language := l |};
     onVoiceEmotionCallback := onVoiceEmotionCallback s;
     onTranscriptionCallback := onTranscriptionCallback s;
     pitchHistory := pitchHistory s; volumeHistory := volumeHistory s |}.

(** The audio graph and the recognition object, as [initialize] and
    [dispose] set them. *)
Definition set_devices (ctx : option number) (an : option Z) (src : bool)
    (rec : option String.string) (s : Service) : Service :=
  {| audioContext := ctx; analyser := an; mediaStreamSource := src;
     recognition := rec;
     isListening := isListening s; isTranscribing := isTranscribing s;
     analysisInterval := analysisInterval s; config := config s;
     onVoiceEmotionCallback := onVoiceEmotionCallback s;
     onTranscriptionCallback := onTranscriptionCallback s;
     pitchHistory := pitchHistory s; volumeHistory := volumeHistory s |}.

Definition say (e : Effect) (w : World) : World :=
  {| this := this w; pending := pending w; fresh := fresh w;
     trace := trace w ++ [e] |}.

(** [window.setTimeout]: the host hands out a fresh handle. *)
Definition setTimeout (t : Task) (d : Z) (w : World) : positive * World :=
  (fresh w,
   {| this := this w;
      pending := pending w ++ [{| timer_id := fresh w; delay := d; task := t |}];
      fresh := Pos.succ (fresh w); trace := trace w |}).

Definition clearTimeout (id : positive) (w : World) : World :=
  {| this := this w;
     pending := filter (fun t => negb (Pos.eqb (timer_id t) id)) (pending w);
     fresh := fresh w; trace := trace w |}.

(** *** Methods *)

Definition initialize (speechSupported : bool) (w : World) : World :=
  let c := config (this w) in
  let w := assign (fun s =>
             set_devices (Some (sampleRate c)) (Some (fftSize c)) true
                         (recognition s) s) w in
  let w :=
    if speechSupported then
      say (Console log MsgRecognitionReady)
          (assign (fun s => set_devices (audioContext s) (analyser s)
                              (mediaStreamSource s) (Some (language c)) s) w)
    else say (Console warn MsgNotSupported) w in
  say (Console log MsgInitialized) w.

Definition setLanguage (lang : String.string) (w : World) : World :=
  assign (set_language lang) w.

Definition onVoiceEmotion (w : World) : World :=
  assign (fun s => set_callbacks true (onTranscriptionCallback s) s) w.

Definition onTranscription (w : World) : World :=
  assign (fun s => set_callbacks (onVoiceEmotionCallback s) true s) w.

Definition zeroMetrics : VoiceMetrics :=
  {| pitch := zero; pitchVariation := zero; volume := zero;
     volumeVariation := zero; speechRate := zero; energy := zero |}.

Definition analyzeAudio (s : Service) (f : AudioFrame) : VoiceMetrics :=
  match analyser s with
  | None => zeroMetrics
  | Some _ =>
      let rate := match audioContext s with
                  | Some r => or_default r (of_Z 44100)
                  | None => of_Z 44100
                  end in
      {| pitch := detectPitch rate (timeData f); pitchVariation := zero;
         volume := calculateRMS (timeData f); volumeVariation := zero;
         speechRate := zero; energy := calculateEnergy (frequencyData f) |}
  end.

Definition with_variations (m : VoiceMetrics) (pv vv : number) : VoiceMetrics :=
  {| pitch := pitch m; pitchVariation := pv; volume := volume m;
     volumeVariation := vv; speechRate := speechRate m; energy := energy m |}.

(** One tick of the analysis loop. *)
Definition runAnalysisLoop (env : Env) (w : World) : World :=
  let s := this w in
  if negb (isListening s) || negb (match analyser s with Some _ => true | None => false end)
  then w
  else
    let m := analyzeAudio s (frame env) in
    let w :=
      if energy m >? 1#10 then
        let ph := push_capped (pitch m) (pitchHistory s) in
        let vh := push_capped (volume m) (volumeHistory s) in
        let w := assign (set_histories ph vh) w in
        let m := with_variations m (calculateStdDev ph) (calculateStdDev vh) in
        let d := detectEmotion m in
        if onVoiceEmotionCallback s then
          say (VoiceEmotionCb {| emotion := d_emotion d; confidence := d_confidence d;
                                 metrics := m; timestamp := now env |}) w
        else w
      else w in
    let (id, w) := setTimeout AnalysisTick 100 w in
    assign (set_analysisInterval (Some id)) w.

Definition startListening (env : Env) (w : World) : World :=
  if isListening (this w) then w
  else
    let w := assign (set_isListening true) w in
    let w := assign (set_histories [] []) w in
    let w := runAnalysisLoop env w in
    say (Console log MsgStartedAnalysis) w.

Definition startTranscription (env : Env) (w : World) : Completion * World :=
  if isTranscribing (this w) then
    (Returned, say (Console log MsgAlreadyTranscribing) w)
  else
    match recognition (this w) with
    | None => (Returned, say (Console error MsgNoRecognition) w)
    | Some _ =>
        let w := assign (set_isTranscribing true) w in
        let w := say (Console log MsgStartingTranscription) w in
        let w := say (RecognitionStart (start_outcome env)) w in
        match start_outcome env with
        | None => (Returned, say (Console log MsgStartCalled) w)
        | Some _ =>
            let w := say (Console error MsgCouldNotStart) w in
            (Returned, assign (set_isTranscribing false) w)
        end
    end.

Definition stopListening (w : World) : World :=
  let w := assign (set_isListening false) w in
  let w :=
    match analysisInterval (this w) with
    | Some id => assign (set_analysisInterval None) (clearTimeout id w)
    | None => w
    end in
  say (Console log MsgStoppedAnalysis) w.

Definition stopTranscription (env : Env) (w : World) : World :=
  let w := assign (set_isTranscribing false) w in
  let w :=
    match recognition (this w) with
    | Some _ => say (RecognitionStop (stop_outcome env)) w
    | None => w
    end in
  say (Console log MsgStoppedTranscription) w.

(** The handlers installed on the recognition object. *)

Definition onresult (transcript : Str.jsstring) (conf : number) (final : bool)
    (env : Env) (w : World) : World :=
  let w := say (Console log MsgTranscript) w in
  if onTranscriptionCallback (this w) then
    say (TranscriptionCb {| text := transcript; isFinal := final;
                            t_confidence := or_default conf 9#10;
                            t_timestamp := now env |}) w
  else w.

Definition onend (w : World) : World :=
  let w := say (Console log MsgEnded) w in
  if isTranscribing (this w)
     && (match recognition (this w) with Some _ => true | None => false end)
  then
    let w := say (Console log MsgAutoRestarting) w in
    snd (setTimeout RestartRecognition 100 w)
  else w.

(** The callback [onend] hands to [setTimeout]. *)
Definition restart (env : Env) (w : World) : World :=
  if isTranscribing (this w) then
    match recognition (this w) with
    | None => w
    | Some _ =>
        let w := say (RecognitionStart (start_outcome env)) w in
        match start_outcome env with
        | None => w
        | Some _ => say (Console warn MsgCouldNotRestart) w
        end
    end
  else w.

Definition dispose (env : Env) (w : World) : World :=
  let w := stopListening w in
  let w := stopTranscription env w in
  let w := assign (set_devices None None false None) w in
  say (Console log MsgDisposed) w.

(** The host runs a pending timer: it leaves the table and its task runs. *)
Definition run (t : Task) (env : Env) (w : World) : World :=
  match t with
  | AnalysisTick => runAnalysisLoop env w
  | RestartRecognition => restart env w
  end.

Definition fire (id : positive) (env : Env) (w : World) : World :=
  match find (fun t => Pos.eqb (timer_id t) id) (pending w) with
  | Some t => run (task t) env (clearTimeout id w)
  | None => w
  end.

(** *** Runs of the service *)

(** Everything that can happen to the object: a method call, an event of
    the recognition object, or a timer of the host. *)
Inductive Call : Type :=
  | CallInitialize (speechSupported : bool)
  | CallSetLanguage (lang : String.string)
  | CallOnVoiceEmotion
  | CallOnTranscription
  | CallStartListening
  | CallStartTranscription
  | CallStopListening
  | CallStopTranscription
  | CallDispose
  | EventResult (transcript : Str.jsstring) (conf : number) (final : bool)
  | EventEnd
  | TimerFires (id : positive).

Definition step (c : Call) (env : Env) (w : World) : World :=
  match c with
  | CallInitialize b => initialize b w
  | CallSetLanguage l => setLanguage l w
  | CallOnVoiceEmotion => onVoiceEmotion w
  | CallOnTranscription => onTranscription w
  | CallStartListening => startListening env w
  | CallStartTranscription => snd (startTranscription env w)
  | CallStopListening => stopListening w
  | CallStopTranscription => stopTranscription env w
  | CallDispose => dispose env w
  | EventResult t c f => onresult t c f env w
  | EventEnd => onend w
  | TimerFires id => fire id env w
  end.

Inductive reachable : World -> Prop :=
  | reachable_boot c : reachable (boot c)
  | reachable_step c env w : reachable w -> reachable (step c env w).

(** The calls of [recognition.start()] and the vocal estimates handed to
    the callback, read off a trace. *)
Definition starts (t : list Effect) : list (option Exn) :=
  flat_map (fun e => match e with RecognitionStart o => [o] | _ => [] end) t.

Definition emitted (t : list Effect) : list VoiceEmotionResult :=
  flat_map (fun e => match e with VoiceEmotionCb r => [r] | _ => [] end) t.

(** What every run preserves: the transcribing flag is only ever set on a
    service that holds a recognition object, and the two histories stay
    within their cap. *)
Definition invariant (w : World) : Prop :=
  (isTranscribing (this w) = true -> recognition (this w) <> None)
  /\ (length (pitchHistory (this w)) <= 20)%nat
  /\ (length (volumeHistory (this w)) <= 20)%nat.

End Voice.

(* ================================================================== *)
(** ** FaceEmotionService *)
(* ================================================================== *)

Module Face.
Import Num.
Local Open Scope num_scope.

(** The expression scores the detector returns for one face. *)
Record Expressions : Type := {
  x_happy : number; x_sad : number; x_angry : number; x_fearful : number;
  x_neutral : number; x_surprised : number; x_disgusted : number
}.

Inductive Detection : Type :=
  | Face (x : Expressions)     (* a face, with its expressions *)
  | NoFace                     (* the detector resolved with nothing *)
  | Failed.                    (* the detector rejected *)

Inductive Completion : Type := Returned | Threw.

Inductive Effect : Type :=
  | EmotionCb (r : EmotionResult)
  | DetectRequest
  | Console (isError : bool).

Record Service : Type := {
  isInitialized : bool;
  isDetecting : bool;
  videoElement : bool;
  detectionInterval : option positive;
  cfg_detectionInterval : Z;
  cfg_minConfidence : number;
  onEmotionCallback : bool
}.

Record World : Type := {
  this : Service;
  pending : list positive;
  fresh : positive;
  trace : list Effect
}.

(** The singleton as [getFaceEmotionService()] builds it. *)
Definition new : Service :=
  {| isInitialized := false; isDetecting := false; videoElement := false;
     detectionInterval := None; cfg_detectionInterval := 500;
     cfg_minConfidence := 5#10; onEmotionCallback := false |}.

Definition boot : World :=
  {| this := new; pending := []; fresh := 1%positive; trace := [] |}.

Definition assign (f : Service -> Service) (w : World) : World :=
  {| this := f (this w); pending := pending w; fresh := fresh w; trace := trace w |}.

Definition say (e : Effect) (w : World) : World :=
  {| this := this w; pending := pending w; fresh := fresh w;
     trace := trace w ++ [e] |}.

Definition set_isInitialized (b : bool) (s : Service) : Service :=
  {| isInitialized := b; isDetecting := isDetecting s;
     videoElement := videoElement s; detectionInterval := detectionInterval s;
     cfg_detectionInterval := cfg_detectionInterval s;
     cfg_minConfidence := cfg_minConfidence s;
     onEmotionCallback := onEmotionCallback s |}.

Definition set_isDetecting (b : bool) (s : Service) : Service :=
  {| isInitialized := isInitialized s; isDetecting := b;
     videoElement := videoElement s; detectionInterval := detectionInterval s;
     cfg_detectionInterval := cfg_detectionInterval s;
     cfg_minConfidence := cfg_minConfidence s;
     onEmotionCallback := onEmotionCallback s |}.

Definition set_detectionInterval (i : option positive) (s : Service) : Service :=
  {| isInitialized := isInitialized s; isDetecting := isDetecting s;
     videoElement := videoElement s; detectionInterval := i;
     cfg_detectionInterval := cfg_detectionInterval s;
     cfg_minConfidence := cfg_minConfidence s;
     onEmotionCallback := onEmotionCallback s |}.

Definition set_wiring (video cb : bool) (s : Service) : Service :=
  {| isInitialized := isInitialized s; isDetecting := isDetecting s;
     videoElement := video; detectionInterval := detectionInterval s;
     cfg_detectionInterval := cfg_detectionInterval s;
     cfg_minConfidence := cfg_minConfidence s;
     onEmotionCallback := cb |}.

(** [initialize]: the models load or the call throws. *)
Definition initialize (modelsLoad : bool) (w : World) : Completion * World :=
  if isInitialized (this w) then (Returned, w)
  else if modelsLoad then
    (Returned, say (Console false) (assign (set_isInitialized true) w))
  else (Threw, say (Console true) w).

Definition setVideoElement (w : World) : World :=
  assign (fun s => set_wiring true (onEmotionCallback s) s) w.

Definition onEmotion (w : World) : World :=
  assign (fun s => set_wiring (videoElement s) true s) w.

Definition scan (acc : number * Emotion) (e : Emotion * number)
  : number * Emotion :=
  if snd e >? fst acc then (snd e, fst e) else acc.

Definition processExpressions (x : Expressions) (now : Z) : EmotionResult :=
  let emotionScores :=
    [(happy, x_happy x); (sad, x_sad x); (angry, x_angry x);
     (fearful, x_fearful x); (neutral, x_neutral x);
     (surprised, x_surprised x); (disgusted, x_disgusted x)] in
  let best := fold_left scan emotionScores (zero, neutral) in
  {| dominant := snd best; f_confidence := fst best;
     all := emotionScores; f_timestamp := now |}.

(** [runDetectionLoop] up to its await: the request for one detection. *)
Definition runDetectionLoop (w : World) : World :=
  if negb (isDetecting (this w)) || negb (videoElement (this w)) then w
  else say DetectRequest w.

(** [runDetectionLoop] from its await on: the detection has settled. *)
Definition resumeDetectionLoop (d : Detection) (now : Z) (w : World) : World :=
  let w :=
    match d with
    | Face x =>
        let result := processExpressions x now in
        if (f_confidence result >=? cfg_minConfidence (this w))
           && onEmotionCallback (this w)
        then say (EmotionCb result) w else w
    | NoFace => w
    | Failed => say (Console true) w
    end in
  let id := fresh w in
  assign (set_detectionInterval (Some id))
    {| this := this w; pending := pending w ++ [id];
       fresh := Pos.succ id; trace := trace w |}.

Definition startDetection (modelsLoad : bool) (w : World) : Completion * World :=
  let (c, w) := if isInitialized (this w) then (Returned, w)
                else initialize modelsLoad w in
  match c with
  | Threw => (Threw, w)
  | Returned =>
      if negb (videoElement (this w)) then (Threw, w)
      else if isDetecting (this w) then (Returned, w)
      else
        let w := assign (set_isDetecting true) w in
        let w := runDetectionLoop w in
        (Returned, say (Console false) w)
  end.

Definition stopDetection (w : World) : World :=
  let w := assign (set_isDetecting false) w in
  let w :=
    match detectionInterval (this w) with
    | Some id =>
        assign (set_detectionInterval None)
          {| this := this w;
             pending := filter (fun t => negb (Pos.eqb t id)) (pending w);
             fresh := fresh w; trace := trace w |}
    | None => w
    end in
  say (Console false) w.

Definition dispose (w : World) : World :=
  assign (set_wiring false false) (stopDetection w).

End Face.

(* ================================================================== *)
(** ** useMultimodalAI *)
(* ================================================================== *)

Module Hook.
Import Num.
Local Open Scope num_scope.

Inductive AIProvider : Type := claude | openai.

Inductive Role : Type := user | assistant.

Record EmotionContext : Type := {
  ctx_facial : option EmotionResult;
  ctx_voice : option VoiceEmotionResult
}.

(** [generateId]: the time and the random suffix the id is built from. *)
Record MessageId : Type := { id_time : Z; id_suffix : Str.jsstring }.

Record Message : Type := {
  id : MessageId;
  role : Role;
  content : Str.jsstring;
  m_timestamp : Z;
  emotionContext : option EmotionContext
}.

Record Combined : Type := { c_emotion : Emotion; c_confidence : number }.

Record EmotionState : Type := {
  facial : option EmotionResult;
  voice : option VoiceEmotionResult;
  combined : option Combined
}.

(** *** Fusion *)

Definition facialWeight : number := 55#100.
Definition voiceWeight : number := 38#100.

Definition combineEmotions (facial : option EmotionResult)
    (voice : option VoiceEmotionResult) : option Combined :=
  match facial, voice with
  | None, None => None
  | None, Some v =>
      Some {| c_emotion := label_of (emotion v); c_confidence := confidence v |}
  | Some f, None =>
      Some {| c_emotion := dominant f; c_confidence := f_confidence f |}
  | Some f, Some v =>
      if Emotion_eqb (dominant f) (label_of (emotion v)) then
        Some {| c_emotion := dominant f;
                c_confidence :=
                  Math_min one
                    ((f_confidence f * facialWeight + confidence v * voiceWeight)
                     * 12#10) |}
      else
        let facialScore := f_confidence f * facialWeight in
        let voiceScore := confidence v * voiceWeight in
        if facialScore >=? voiceScore then
          Some {| c_emotion := dominant f; c_confidence := facialScore |}
        else
          Some {| c_emotion := label_of (emotion v); c_confidence := voiceScore |}
  end.

(** *** State *)

Inductive ErrorText : Type :=
  | NotInitialized                 (* 'Services not initialized. ...' *)
  | ModelsUnavailable              (* the message of the face service's Error *)
  | FailedToSend                   (* 'Failed to send message' *)
  | ErrorMessage (m : Str.jsstring).

Record State : Type := {
  messages : list Message;
  currentTranscript : Str.jsstring;
  isListening : bool;
  isProcessing : bool;
  emotionState : EmotionState;
  error : option ErrorText;
  provider : AIProvider;
  isInitialized : bool;
  isCameraActive : bool;
  isMicActive : bool;
  isFaceDetectionActive : bool;
  faceServiceRef : bool;           (* the ref holds the face service *)
  voiceServiceRef : bool;          (* the ref holds the voice service *)
  latestEmotionRef : EmotionState
}.

(** The body of a call to the chat function. *)
Record ChatRequest : Type := {
  message : Str.jsstring;
  req_facial : option (Emotion * number);
  req_voice : option (VoiceEmotion * number * VoiceMetrics);
  conversationHistory : list (Role * Str.jsstring);
  req_provider : AIProvider;
  req_systemPrompt : option Str.jsstring
}.

Inductive Reply : Type :=
  | Data (response : Str.jsstring)
  | FnError (m : Str.jsstring)
  | Rejected (m : option Str.jsstring).

(** What the hook does to the outside. *)
Inductive Effect : Type :=
  | Invoke (r : ChatRequest)                           (* the chat function *)
  | EmotionChange (e : EmotionState)                   (* options.onEmotionChange *)
  | Transcription (t : Str.jsstring) (final : bool).   (* options.onTranscription *)

Record Options : Type := {
  systemPrompt : option Str.jsstring;
  language : String.string;
  onEmotionChange : bool;
  onTranscription : bool
}.

(** The hook, the two singleton services its refs point to, and the
    trace of its effects. *)
Record System : Type := {
  hook : State;
  faceService : Face.World;
  voiceService : Voice.World;
  trace : list Effect
}.

Record Env : Type := {
  v_env : Voice.Env;
  modelsLoad : bool;
  speechSupported : bool;
  rand : Str.jsstring        (* the suffix [Math.random] yields *)
}.

Definition initialEmotionState : EmotionState :=
  {| facial := None; voice := None; combined := None |}.

Definition initial (p : AIProvider) : State :=
  {| messages := []; currentTranscript := []; isListening := false;
     isProcessing := false; emotionState := initialEmotionState;
     error := None; provider := p; isInitialized := false;
     isCameraActive := false; isMicActive := false;
     isFaceDetectionActive := false; faceServiceRef := false;
     voiceServiceRef := false; latestEmotionRef := initialEmotionState |}.

Definition mount (p : AIProvider) (c : Voice.Config) : System :=
  {| hook := initial p; faceService := Face.boot; voiceService := Voice.boot c; trace := [] |}.

(** State setters. *)
Definition update (f : State -> State) (y : System) : System :=
  {| hook := f (hook y); faceService := faceService y; voiceService := voiceService y; trace := trace y |}.

Definition on_face (f : Face.World -> Face.World) (y : System) : System :=
  {| hook := hook y; faceService := f (faceService y); voiceService := voiceService y; trace := trace y |}.

Definition on_voice (f : Voice.World -> Voice.World) (y : System) : System :=
  {| hook := hook y; faceService := faceService y; voiceService := f (voiceService y); trace := trace y |}.

Definition say (e : Effect) (y : System) : System :=
  {| hook := hook y; faceService := faceService y; voiceService := voiceService y; trace := trace y ++ [e] |}.

Definition setMessages (f : list Message -> list Message) (s : State) : State :=
  {| messages := f (messages s); currentTranscript := currentTranscript s;
     isListening := isListening s; isProcessing := isProcessing s;
     emotionState := emotionState s; error := error s; provider := provider s;
     isInitialized := isInitialized s; isCameraActive := isCameraActive s;
     isMicActive := isMicActive s;
     isFaceDetectionActive := isFaceDetectionActive s;
     faceServiceRef := faceServiceRef s; voiceServiceRef := voiceServiceRef s;
     latestEmotionRef := latestEmotionRef s |}.

Definition setCurrentTranscript (t : Str.jsstring) (s : State) : State :=
  {| messages := messages s; currentTranscript := t;
     isListening := isListening s; isProcessing := isProcessing s;
     emotionState := emotionState s; error := error s; provider := provider s;
     isInitialized := isInitialized s; isCameraActive := isCameraActive s;
     isMicActive := isMicActive s;
     isFaceDetectionActive := isFaceDetectionActive s;
     faceServiceRef := faceServiceRef s; voiceServiceRef := voiceServiceRef s;
     latestEmotionRef := latestEmotionRef s |}.

Definition setIsListening (b : bool) (s : State) : State :=
  {| messages := messages s; currentTranscript := currentTranscript s;
     isListening := b; isProcessing := isProcessing s;
     emotionState := emotionState s; error := error s; provider := provider s;
     isInitialized := isInitialized s; isCameraActive := isCameraActive s;
     isMicActive := isMicActive s;
     isFaceDetectionActive := isFaceDetectionActive s;
     faceServiceRef := faceServiceRef s; voiceServiceRef := voiceServiceRef s;
     latestEmotionRef := latestEmotionRef s |}.

Definition setIsProcessing (b : bool) (s : State) : State :=
  {| messages := messages s; currentTranscript := currentTranscript s;
     isListening := isListening s; isProcessing := b;
     emotionState := emotionState s; error := error s; provider := provider s;
     isInitialized := isInitialized s; isCameraActive := isCameraActive s;
     isMicActive := isMicActive s;
     isFaceDetectionActive := isFaceDetectionActive s;
     faceServiceRef := faceServiceRef s; voiceServiceRef := voiceServiceRef s;
     latestEmotionRef := latestEmotionRef s |}.

Definition setEmotionState (f : EmotionState -> EmotionState) (s : State) : State :=
  {| messages := messages s; currentTranscript := currentTranscript s;
     isListening := isListening s; isProcessing := isProcessing s;
     emotionState := f (emotionState s); error := error s; provider := provider s;
     isInitialized := isInitialized s; isCameraActive := isCameraActive s;
     isMicActive := isMicActive s;
     isFaceDetectionActive := isFaceDetectionActive s;
     faceServiceRef := faceServiceRef s; voiceServiceRef := voiceServiceRef s;
     latestEmotionRef := latestEmotionRef s |}.

Definition setError (e : option ErrorText) (s : State) : State :=
  {| messages := messages s; currentTranscript := currentTranscript s;
     isListening := isListening s; isProcessing := isProcessing s;
     emotionState := emotionState s; error := e; provider := provider s;
     isInitialized := isInitialized s; isCameraActive := isCameraActive s;
     isMicActive := isMicActive s;
     isFaceDetectionActive := isFaceDetectionActive s;
     faceServiceRef := faceServiceRef s; voiceServiceRef := voiceServiceRef s;
     latestEmotionRef := latestEmotionRef s |}.

Definition setProviderState (p : AIProvider) (s : State) : State :=
  {| messages := messages s; currentTranscript := currentTranscript s;
     isListening := isListening s; isProcessing := isProcessing s;
     emotionState := emotionState s; error := error s; provider := p;
     isInitialized := isInitialized s; isCameraActive := isCameraActive s;
     isMicActive := isMicActive s;
     isFaceDetectionActive := isFaceDetectionActive s;
     faceServiceRef := faceServiceRef s; voiceServiceRef := voiceServiceRef s;
     latestEmotionRef := latestEmotionRef s |}.

Definition setIsInitialized (b : bool) (s : State) : State :=
  {| messages := messages s; currentTranscript := currentTranscript s;
     isListening := isListening s; isProcessing := isProcessing s;
     emotionState := emotionState s; error := error s; provider := provider s;
     isInitialized := b; isCameraActive := isCameraActive s;
     isMicActive := isMicActive s;
     isFaceDetectionActive := isFaceDetectionActive s;
     faceServiceRef := faceServiceRef s; voiceServiceRef := voiceServiceRef s;
     latestEmotionRef := latestEmotionRef s |}.

Definition setIsCameraActive (b : bool) (s : State) : State :=
  {| messages := messages s; currentTranscript := currentTranscript s;
     isListening := isListening s; isProcessing := isProcessing s;
     emotionState := emotionState s; error := error s; provider := provider s;
     isInitialized := isInitialized s; isCameraActive := b;
     isMicActive := isMicActive s;
     isFaceDetectionActive := isFaceDetectionActive s;
     faceServiceRef := faceServiceRef s; voiceServiceRef := voiceServiceRef s;
     latestEmotionRef := latestEmotionRef s |}.

Definition setIsMicActive (b : bool) (s : State) : State :=
  {| messages := messages s; currentTranscript := currentTranscript s;
     isListening := isListening s; isProcessing := isProcessing s;
     emotionState := emotionState s; error := error s; provider := provider s;
     isInitialized := isInitialized s; isCameraActive := isCameraActive s;
     isMicActive := b;
     isFaceDetectionActive := isFaceDetectionActive s;
     faceServiceRef := faceServiceRef s; voiceServiceRef := voiceServiceRef s;
     latestEmotionRef := latestEmotionRef s |}.

Definition setIsFaceDetectionActive (b : bool) (s : State) : State :=
  {| messages := messages s; currentTranscript := currentTranscript s;
     isListening := isListening s; isProcessing := isProcessing s;
     emotionState := emotionState s; error := error s; provider := provider s;
     isInitialized := isInitialized s; isCameraActive := isCameraActive s;
     isMicActive := isMicActive s;
     isFaceDetectionActive := b;
     faceServiceRef := faceServiceRef s; voiceServiceRef := voiceServiceRef s;
     latestEmotionRef := latestEmotionRef s |}.

Definition set_refs (f v : bool) (s : State) : State :=
  {| messages := messages s; currentTranscript := currentTranscript s;
     isListening := isListening s; isProcessing := isProcessing s;
     emotionState := emotionState s; error := error s; provider := provider s;
     isInitialized := isInitialized s; isCameraActive := isCameraActive s;
     isMicActive := isMicActive s;
     isFaceDetectionActive := isFaceDetectionActive s;
     faceServiceRef := f; voiceServiceRef := v;
     latestEmotionRef := latestEmotionRef s |}.

(** The effect that copies [emotionState] into [latestEmotionRef] after a
    render. *)
Definition commit (s : State) : State :=
  {| messages := messages s; currentTranscript := currentTranscript s;
     isListening := isListening s; isProcessing := isProcessing s;
     emotionState := emotionState s; error := error s; provider := provider s;
     isInitialized := isInitialized s; isCameraActive := isCameraActive s;
     isMicActive := isMicActive s;
     isFaceDetectionActive := isFaceDetectionActive s;
     faceServiceRef := faceServiceRef s; voiceServiceRef := voiceServiceRef s;
     latestEmotionRef := emotionState s |}.

(** *** Sending a message *)

(** What a [sendMessage] closure captured from the render that made it. *)
Record Closure : Type := {
  cl_messages : list Message;
  cl_provider : AIProvider;
  cl_systemPrompt : option Str.jsstring
}.

Definition closure (o : Options) (s : State) : Closure :=
  {| cl_messages := messages s; cl_provider := provider s;
     cl_systemPrompt := systemPrompt o |}.

(** [l.slice(-n)] *)
Definition slice_last {A : Type} (n : nat) (l : list A) : list A :=
  skipn (length l - n) l.

(** [sendMessage] up to its await: the user message is appended and the
    chat function is invoked. *)
Definition sendMessage (cl : Closure) (text : Str.jsstring) (env : Env)
    (y : System) : System :=
  if negb (Str.truthy (Str.trim text)) then y
  else
    let y := update (setIsProcessing true) y in
    let y := update (setError None) y in
    let latest := latestEmotionRef (hook y) in
    let t := Voice.now (v_env env) in
    let userMessage :=
      {| id := {| id_time := t; id_suffix := rand env |};
         role := user; content := Str.trim text; m_timestamp := t;
         emotionContext := Some {| ctx_facial := facial latest;
                                   ctx_voice := voice latest |} |} in
    let y := update (setMessages (fun prev => prev ++ [userMessage])) y in
    say (Invoke
           {| message := Str.trim text;
              req_facial :=
                option_map (fun f => (dominant f, f_confidence f)) (facial latest);
              req_voice :=
                option_map (fun v => (emotion v, confidence v, metrics v))
                           (voice latest);
              conversationHistory :=
                map (fun m => (role m, content m))
                    (slice_last 10 (cl_messages cl));
              req_provider := cl_provider cl;
              req_systemPrompt := cl_systemPrompt cl |}) y.

(** [sendMessage] from its await on: the chat function has settled. *)
Definition sendMessage_settled (r : Reply) (env : Env) (y : System) : System :=
  let y :=
    match r with
    | Data response =>
        let t := Voice.now (v_env env) in
        let assistantMessage :=
          {| id := {| id_time := t; id_suffix := rand env |};
             role := assistant; content := response; m_timestamp := t;
             emotionContext := None |} in
        update (setMessages (fun prev => prev ++ [assistantMessage])) y
    | FnError m => update (setError (Some (ErrorMessage m))) y
    | Rejected (Some m) => update (setError (Some (ErrorMessage m))) y
    | Rejected None => update (setError (Some FailedToSend)) y
    end in
  update (setIsProcessing false) y.

(** *** The callbacks [initialize] registers with the services *)

Definition onFaceEmotion (o : Options) (result : EmotionResult)
    (y : System) : System :=
  let prev := emotionState (hook y) in
  let newState :=
    {| facial := Some result; voice := voice prev;
       combined := combineEmotions (Some result) (voice prev) |} in
  let y := update (setEmotionState (fun _ => newState)) y in
  if onEmotionChange o then say (EmotionChange newState) y else y.

Definition onVoiceEmotion (o : Options) (result : VoiceEmotionResult)
    (y : System) : System :=
  let prev := emotionState (hook y) in
  let newState :=
    {| facial := facial prev; voice := Some result;
       combined := combineEmotions (facial prev) (Some result) |} in
  let y := update (setEmotionState (fun _ => newState)) y in
  if onEmotionChange o then say (EmotionChange newState) y else y.

(** The transcription callback; [cl] is the [sendMessage] it closes over. *)
Definition handleTranscription (o : Options) (cl : Closure)
    (result : TranscriptionResult) (env : Env) (y : System) : System :=
  let y := update (setCurrentTranscript (text result)) y in
  let y := if onTranscription o
           then say (Transcription (text result) (isFinal result)) y else y in
  if isFinal result && Str.truthy (Str.trim (text result)) then
    let y := sendMessage cl (Str.trim (text result)) env y in
    update (setCurrentTranscript []) y
  else y.

(** *** Actions *)

Inductive Completion : Type := Returned | Threw.

Definition initialize (o : Options) (env : Env) (y : System)
  : Completion * System :=
  let y := update (setError None) y in
  let (c, fw) := Face.initialize (modelsLoad env) (faceService y) in
  let y := on_face (fun _ => fw) y in
  match c with
  | Face.Threw => (Threw, update (setError (Some ModelsUnavailable)) y)
  | Face.Returned =>
      let y := on_face Face.setVideoElement y in
      let y := on_face Face.onEmotion y in
      let y := update (fun s => set_refs true (voiceServiceRef s) s) y in
      let y := update (setIsCameraActive true) y in
      let y := on_voice (Voice.initialize (speechSupported env)) y in
      let y := on_voice (Voice.setLanguage (language o)) y in
      let y := on_voice Voice.onVoiceEmotion y in
      let y := on_voice Voice.onTranscription y in
      let y := update (fun s => set_refs (faceServiceRef s) true s) y in
      let y := update (setIsMicActive true) y in
      let y := update (setIsInitialized true) y in
      let y := on_face (fun w => snd (Face.startDetection (modelsLoad env) w)) y in
      (Returned, update (setIsFaceDetectionActive true) y)
  end.

Definition startFaceDetection (env : Env) (y : System) : System :=
  if negb (isInitialized (hook y)) then
    update (setError (Some NotInitialized)) y
  else
    let y := if faceServiceRef (hook y)
             then on_face (fun w => snd (Face.startDetection (modelsLoad env) w)) y
             else y in
    update (setIsFaceDetectionActive true) y.

Definition stopFaceDetection (y : System) : System :=
  let y := if faceServiceRef (hook y) then on_face Face.stopDetection y else y in
  update (setIsFaceDetectionActive false) y.

Definition startListening (env : Env) (y : System) : System :=
  if negb (isInitialized (hook y)) then
    update (setError (Some NotInitialized)) y
  else
    let y := if voiceServiceRef (hook y)
             then on_voice (Voice.startListening (v_env env)) y else y in
    let y := if voiceServiceRef (hook y)
             then on_voice (fun w => snd (Voice.startTranscription (v_env env) w)) y
             else y in
    update (setIsListening true) y.

Definition stopListening (env : Env) (y : System) : System :=
  let y := if voiceServiceRef (hook y)
           then on_voice Voice.stopListening y else y in
  let y := if voiceServiceRef (hook y)
           then on_voice (Voice.stopTranscription (v_env env)) y else y in
  update (setIsListening false) y.

Definition clearMessages (y : System) : System :=
  let y := update (setMessages (fun _ => [])) y in
  let y := update (setCurrentTranscript []) y in
  update (setError None) y.

Definition setProvider (p : AIProvider) (y : System) : System :=
  update (setProviderState p) y.

Definition dispose (env : Env) (y : System) : System :=
  let y := stopListening env y in
  let y := stopFaceDetection y in
  let y := if faceServiceRef (hook y)
           then update (fun s => set_refs false (voiceServiceRef s) s)
                  (on_face Face.dispose y)
           else y in
  let y := if voiceServiceRef (hook y)
           then update (fun s => set_refs (faceServiceRef s) false s)
                  (on_voice (Voice.dispose (v_env env)) y)
           else y in
  let y := update (setIsInitialized false) y in
  let y := update (setIsCameraActive false) y in
  let y := update (setIsMicActive false) y in
  update (setIsFaceDetectionActive false) y.

(** The four controls of the two detection loops, and a run of them. *)
Inductive Control : Type :=
  | StartListening | StopListening | StartFaceDetection | StopFaceDetection.

Definition control (c : Control) (env : Env) (y : System) : System :=
  match c with
  | StartListening => startListening env y
  | StopListening => stopListening env y
  | StartFaceDetection => startFaceDetection env y
  | StopFaceDetection => stopFaceDetection y
  end.

Definition controls (cs : list (Control * Env)) (y : System) : System :=
  fold_left (fun y ce => control (fst ce) (snd ce) y) cs y.

Definition isVoiceControl (c : Control) : bool :=
  match c with StartListening | StopListening => true | _ => false end.

Definition isFaceControl (c : Control) : bool := negb (isVoiceControl c).

(** The requests sent to the chat function, read off the trace. *)
Definition invoked (y : System) : list ChatRequest :=
  flat_map (fun e => match e with Invoke r => [r] | _ => [] end) (trace y).

End Hook.

(* ================================================================== *)
(** ** Concrete inputs *)
(* ================================================================== *)

Module Sample.
Import Num.
Import String.
Local Open Scope num_scope.

(** The classifier input of the design's worked example. *)
Definition example_metrics : VoiceMetrics :=
  {| pitch := of_Z 300; pitchVariation := of_Z 10; volume := 2#10;
     volumeVariation := zero; speechRate := zero; energy := 5#10 |}.

(** The pitch the detector reports at its smallest lag, 44100/88 Hz. *)
Definition pitch_at_lag_88 : number := of_Z 44100 / of_Z 88.

Definition config : Voice.Config :=
  {| Voice.sampleRate := of_Z 44100; Voice.fftSize := 2048;
     Voice.language := "en-US"%string |}.

(** Eight bins of silence. *)
Definition silence : Voice.AudioFrame :=
  {| Voice.frequencyData := repeat 0%Z 8; Voice.timeData := repeat 128%Z 8 |}.

Definition quiet : Voice.Env :=
  {| Voice.frame := silence; Voice.now := 0;
     Voice.start_outcome := None; Voice.stop_outcome := None |}.

(** An environment in which [recognition.start()] throws. *)
Definition refusing : Voice.Env :=
  {| Voice.frame := silence; Voice.now := 0;
     Voice.start_outcome := Some (Voice.DOMException 11);
     Voice.stop_outcome := None |}.

(** The service after [initialize], then listening, then transcribing. *)
Definition ready : Voice.World :=
  Voice.onVoiceEmotion (Voice.initialize true (Voice.boot config)).

Definition listening : Voice.World :=
  Voice.step Voice.CallStartListening quiet
    (Voice.step Voice.CallOnVoiceEmotion quiet
       (Voice.step (Voice.CallInitialize true) quiet (Voice.boot config))).

Definition transcribing : Voice.World :=
  Voice.step Voice.CallStartTranscription quiet
    (Voice.step (Voice.CallInitialize true) quiet (Voice.boot config)).

Definition face_happy : EmotionResult :=
  {| dominant := happy; f_confidence := 8#10; all := []; f_timestamp := 0 |}.

Definition voice_sad : VoiceEmotionResult :=
  {| emotion := v_sad; confidence := 6#10; metrics := example_metrics;
     timestamp := 0 |}.

Definition voice_happy : VoiceEmotionResult :=
  {| emotion := v_happy; confidence := 6#10; metrics := example_metrics;
     timestamp := 0 |}.

(** Eight bins at full scale over a flat waveform: energy 1. *)
Definition loud_frame : Voice.AudioFrame :=
  {| Voice.frequencyData := repeat 255%Z 8; Voice.timeData := repeat 128%Z 8 |}.

Definition loud : Voice.Env :=
  {| Voice.frame := loud_frame; Voice.now := 0;
     Voice.start_outcome := None; Voice.stop_outcome := None |}.

(** The listening service after its pending tick ran on the loud frame. *)
Definition speaking : Voice.World :=
  Voice.step (Voice.TimerFires 1) loud listening.

(** The expressions of a smiling face. *)
Definition smile : Face.Expressions :=
  {| Face.x_happy := 9#10; Face.x_sad := 1#100; Face.x_angry := 1#100;
     Face.x_fearful := 1#100; Face.x_neutral := 5#100;
     Face.x_surprised := 1#100; Face.x_disgusted := 1#100 |}.

Definition options : Hook.Options :=
  {| Hook.systemPrompt := None; Hook.language := "en-US"%string;
     Hook.onEmotionChange := true; Hook.onTranscription := true |}.

Definition host : Hook.Env :=
  {| Hook.v_env := quiet; Hook.modelsLoad := true;
     Hook.speechSupported := true; Hook.rand := [] |}.

(** The hook as mounted, before [initialize]. *)
Definition idle : Hook.System := Hook.mount Hook.claude config.

(** The hook after an [initialize] that succeeded. *)
Definition initialised : Hook.System := snd (Hook.initialize options host idle).

End Sample.

(* ================================================================== *)
(** ** The primary emotions *)
(* ================================================================== *)

(** [PRIMARY_EMOTIONS] and [mapToPrimaryEmotion], exported beside the face
    service. *)
Definition PRIMARY_EMOTIONS : list Emotion := [happy; sad; angry; fearful].

Definition mapToPrimaryEmotion (e : Emotion) : Emotion :=
  if existsb (Emotion_eqb e) PRIMARY_EMOTIONS then e
  else match e with
       | surprised => fearful
       | disgusted => angry
       | _ => happy
       end.

(* ================================================================== *)
(** ** Observations on runs *)
(* ================================================================== *)

Module Observed.
Import Num.
Local Open Scope num_scope.

(** The step shared by the two scans for a maximum, [detectEmotion]'s and
    [processExpressions]'s: a strictly larger score replaces the best so
    far. *)
Definition pick {K : Type} (acc : number * K) (e : K * number) : number * K :=
  if snd e >? fst acc then (snd e, fst e) else acc.

(** The host's pending timers that are ticks of the analysis loop. *)
Definition isTick (t : Voice.Timer) : bool :=
  match Voice.task t with Voice.AnalysisTick => true | _ => false end.

Definition ticks (p : list Voice.Timer) : list Voice.Timer := filter isTick p.

(** What the service's runs keep of the host's timers: handles are fresh
    and distinct, and a pending tick is the one [analysisInterval] holds,
    on a service that is listening. *)
Definition timers_wf (w : Voice.World) : Prop :=
  (forall t, In t (Voice.pending w) -> (Voice.timer_id t < Voice.fresh w)%positive)
  /\ NoDup (map Voice.timer_id (Voice.pending w))
  /\ (forall t, In t (Voice.pending w) -> isTick t = true ->
        Voice.analysisInterval (Voice.this w) = Some (Voice.timer_id t)
        /\ Voice.isListening (Voice.this w) = true).

(** One accepted sample entering a history. *)
Definition accept (h : list number) (x : number) : list number :=
  Voice.push_capped x h.

(** A frame of silence: the waveform at its midpoint, every bin empty. *)
Definition silent (f : Voice.AudioFrame) : Prop :=
  Forall (fun b => b = 128%Z) (Voice.timeData f)
  /\ Forall (fun b => b = 0%Z) (Voice.frequencyData f).

(** An estimate above the energy threshold that carries the classifier's
    answer on its own metrics. *)
Definition classified (r : VoiceEmotionResult) : Prop :=
  (energy (metrics r) >? 1#10) = true
  /\ emotion r = Voice.d_emotion (Voice.detectEmotion (metrics r))
  /\ confidence r = Voice.d_confidence (Voice.detectEmotion (metrics r)).

(** The estimates the face service handed to its callback, read off a
    trace. *)
Definition emissions (t : list Face.Effect) : list EmotionResult :=
  flat_map (fun e => match e with Face.EmotionCb r => [r] | _ => [] end) t.

(** The estimates the two services hand to the hook, the latest of each
    modality, and a state whose fused estimate agrees with the two it
    holds. *)
Inductive Estimate : Type :=
  | FromFace (r : EmotionResult)
  | FromVoice (r : VoiceEmotionResult).

Definition observe (o : Hook.Options) (y : Hook.System) (e : Estimate) : Hook.System :=
  match e with
  | FromFace r => Hook.onFaceEmotion o r y
  | FromVoice r => Hook.onVoiceEmotion o r y
  end.

Definition latestFace (init : option EmotionResult) (es : list Estimate)
  : option EmotionResult :=
  fold_left (fun acc e => match e with FromFace r => Some r | FromVoice _ => acc end)
            es init.

Definition latestVoice (init : option VoiceEmotionResult) (es : list Estimate)
  : option VoiceEmotionResult :=
  fold_left (fun acc e => match e with FromVoice r => Some r | FromFace _ => acc end)
            es init.

Definition fused (s : Hook.EmotionState) : Prop :=
  Hook.combined s = Hook.combineEmotions (Hook.facial s) (Hook.voice s).

(** The detections the face service asked for, counted on a trace. *)
Definition isRequest (e : Face.Effect) : bool :=
  match e with Face.DetectRequest => true | _ => false end.

Definition requests (t : list Face.Effect) : nat := length (filter isRequest t).

End Observed.

(* ================================================================== *)
(** ** Facts about numbers *)
(* ================================================================== *)

Module NumFacts.
Import Num.
Local Open Scope Z_scope.

(** *** Rounding keeps the sign *)

Lemma shr_1_nonneg r : 0 <= shr_m r -> 0 <= shr_m (shr_1 r).
Proof.
  destruct r as [m rb sb]; simpl.
  destruct m as [|p|p]; simpl; try lia; destruct p; simpl; lia.
Qed.

Lemma iter_shr_1_nonneg p : forall r, 0 <= shr_m r -> 0 <= shr_m (iter_pos shr_1 p r).
Proof.
  induction p as [p IH|p IH|]; simpl; intros r H.
  - apply IH, IH, shr_1_nonneg, H.
  - apply IH, IH, H.
  - apply shr_1_nonneg, H.
Qed.

Lemma shr_nonneg r e n : 0 <= shr_m r -> 0 <= shr_m (fst (shr r e n)).
Proof.
  intros H. destruct n; simpl; trivial. now apply iter_shr_1_nonneg.
Qed.

Lemma shr_record_of_loc_m m l : shr_m (shr_record_of_loc m l) = m.
Proof. destruct l as [|[]]; reflexivity. Qed.

Lemma shr_fexp_nonneg m e l : 0 <= m -> 0 <= shr_m (fst (shr_fexp prec emax m e l)).
Proof.
  intros H. unfold shr_fexp. apply shr_nonneg. now rewrite shr_record_of_loc_m.
Qed.

Lemma round_nearest_even_nonneg m l : 0 <= m -> 0 <= round_nearest_even m l.
Proof.
  intros H. destruct l as [|[]]; simpl; try lia. destruct (Z.even m); lia.
Qed.

Lemma binary_round_aux_signed s m e l :
  0 <= m -> signed s (binary_round_aux prec emax s m e l).
Proof.
  intros H. unfold binary_round_aux.
  pose proof (shr_fexp_nonneg m e l H) as H1.
  destruct (shr_fexp prec emax m e l) as [r1 e1]. simpl in H1.
  pose proof (round_nearest_even_nonneg _ (loc_of_shr_record r1) H1) as H2.
  pose proof (shr_fexp_nonneg _ e1 loc_Exact H2) as H3.
  destruct (shr_fexp prec emax _ e1 loc_Exact) as [r2 e2]. simpl in H3.
  destruct (shr_m r2) as [|p|p].
  - constructor.
  - destruct (e2 <=? emax - prec); constructor.
  - lia.
Qed.

Lemma binary_round_signed s m e : signed s (binary_round prec emax s m e).
Proof.
  unfold binary_round. destruct (shl_align _ _ _) as [mz ez].
  apply binary_round_aux_signed. lia.
Qed.

Lemma signed_nonneg a : signed false a -> nonneg a = true.
Proof. destruct 1; reflexivity. Qed.

(** *** Order *)

Lemma compare_antisym a b c :
  SFcompare a b = Some c -> SFcompare b a = Some (CompOpp c).
Proof.
  destruct a as [sa|sa| |sa ma ea], b as [sb|sb| |sb mb eb]; simpl;
    try discriminate; intros [= <-]; try (destruct sa; reflexivity);
    try (destruct sb; reflexivity); try (destruct sa, sb; reflexivity).
  destruct sa, sb; simpl; try reflexivity;
    rewrite (Z.compare_antisym ea eb); destruct (ea ?= eb); simpl; try reflexivity;
    rewrite (Pos.compare_cont_antisym ma mb Eq); simpl;
    destruct (Pos.compare_cont Eq ma mb); reflexivity.
Qed.

Lemma compare_total a b :
  is_nan a = false -> is_nan b = false -> exists c, SFcompare a b = Some c.
Proof.
  destruct a, b; simpl; try discriminate; intros _ _; eexists; reflexivity.
Qed.

Lemma compare_refl a : is_nan a = false -> SFcompare a a = Some Eq.
Proof.
  destruct a as [s|s| |s m e]; simpl; try discriminate; intros _;
    try (destruct s; reflexivity).
  destruct s; rewrite Z.compare_refl;
    change (Pos.compare_cont Eq m m) with (Pos.compare m m);
    rewrite Pos.compare_refl; reflexivity.
Qed.

Lemma nonneg_not_nan a : nonneg a = true -> is_nan a = false.
Proof. destruct a as [| | |[]]; simpl; congruence. Qed.

Lemma le_refl a : is_nan a = false -> le a a = true.
Proof. intros H. unfold le, SFleb. now rewrite compare_refl. Qed.

Lemma not_le_lt a b :
  is_nan a = false -> is_nan b = false -> le b a = false -> lt a b = true.
Proof.
  intros Ha Hb. unfold le, lt, SFleb, SFltb.
  destruct (compare_total b a Hb Ha) as [c Hc]. rewrite Hc.
  rewrite (compare_antisym _ _ _ Hc). destruct c; simpl; congruence.
Qed.

Lemma lt_le a b : lt a b = true -> le a b = true.
Proof. unfold le, lt, SFleb, SFltb. destruct (SFcompare a b) as [[]|]; congruence. Qed.

(** *** Signs of products and sums *)

Lemma mul_comm a b : mul a b = mul b a.
Proof.
  destruct a as [sa|sa| |sa ma ea], b as [sb|sb| |sb mb eb]; simpl;
    try reflexivity; try (now rewrite xorb_comm).
  unfold mul; simpl. now rewrite xorb_comm, Pos.mul_comm, Z.add_comm.
Qed.

Lemma mul_nonneg a m e :
  nonneg a = true -> nonneg (mul a (S754_finite false m e)) = true.
Proof.
  destruct a as [s|[]| |[] ma ea]; simpl; try discriminate; intros _; trivial.
  apply signed_nonneg. unfold mul, SFmul. apply binary_round_aux_signed. lia.
Qed.

Lemma add_nonneg a b :
  nonneg a = true -> nonneg b = true -> nonneg (add a b) = true.
Proof.
  destruct a as [sa|[]| |[] ma ea], b as [sb|[]| |[] mb eb]; simpl;
    try discriminate; intros _ _; trivial.
  - destruct sa, sb; reflexivity.
  - apply signed_nonneg. unfold add, SFadd, binary_normalize. simpl.
    apply binary_round_signed.
Qed.

Lemma in01_nonneg a : in01 a = true -> nonneg a = true.
Proof.
  unfold in01. intros H. apply andb_prop in H. destruct H as [H _].
  unfold le, SFleb, zero in H.
  destruct a as [s|[]| |[] m e]; cbn [SFcompare] in H; trivial; discriminate.
Qed.

Lemma min_one_in01 a : nonneg a = true -> in01 (Math_min one a) = true.
Proof.
  intros H. unfold Math_min.
  destruct (compare_total one a eq_refl (nonneg_not_nan _ H)) as [c Hc].
  rewrite Hc. pose proof (compare_antisym _ _ _ Hc) as Hc'.
  assert (H0 : le zero a = true) by (destruct a as [s|[]| |[] m e]; try discriminate; reflexivity).
  destruct c; simpl in *; try reflexivity;
    unfold in01; rewrite H0; unfold le, SFleb; now rewrite Hc'.
Qed.


(** *** Exact results *)

Lemma sub_diag s m e : sub (S754_finite s m e) (S754_finite s m e) = zero.
Proof.
  unfold sub, SFsub. rewrite Z.sub_diag. reflexivity.
Qed.

Lemma canonical_cases m e :
  bounded prec emax m e = true ->
  e <= 971 /\
  ((Zpos (digits2_pos m) = 53 /\ -1074 < e) \/ (e = -1074 /\ Zpos (digits2_pos m) <= 53)).
Proof.
  unfold bounded, canonical_mantissa, fexp, emin, prec, emax.
  intros H. apply andb_prop in H. destruct H as [C B].
  apply Z.eqb_eq in C. apply Z.leb_le in B. lia.
Qed.

Lemma round_exact_canonical s m e :
  bounded prec emax m e = true ->
  binary_round_aux prec emax s (Zpos m) e loc_Exact = S754_finite s m e.
Proof.
  intros H. pose proof H as H'. unfold bounded, canonical_mantissa in H'.
  apply andb_prop in H'. destruct H' as [C B]. apply Z.eqb_eq in C.
  unfold binary_round_aux, shr_fexp. cbn [Zdigits2 shr_record_of_loc].
  rewrite C, Z.sub_diag. cbn [shr shr_m loc_of_shr_record round_nearest_even Zdigits2 shr_record_of_loc].
  rewrite C, Z.sub_diag. cbn [shr shr_m]. now rewrite B.
Qed.

Lemma round_exact_double s m e :
  bounded prec emax m e = true -> Zpos (digits2_pos m) = 53 -> -1074 < e ->
  binary_round_aux prec emax s (Zpos m~0) (e - 1) loc_Exact = S754_finite s m e.
Proof.
  intros H D E. pose proof H as H'. unfold bounded, canonical_mantissa in H'.
  apply andb_prop in H'. destruct H' as [C B]. apply Z.eqb_eq in C.
  unfold binary_round_aux, shr_fexp. cbn [Zdigits2 shr_record_of_loc digits2_pos].
  rewrite Pos2Z.inj_succ, D.
  replace (fexp prec emax (Z.succ 53 + (e - 1)) - (e - 1)) with 1
    by (unfold fexp, emin, prec, emax; lia).
  cbn [shr iter_pos shr_1 shr_m loc_of_shr_record round_nearest_even Zdigits2 shr_record_of_loc orb].
  replace (e - 1 + 1) with e by lia.
  rewrite C, Z.sub_diag. cbn [shr shr_m]. now rewrite B.
Qed.

Lemma one_eq : one = S754_finite false 4503599627370496 (-52).
Proof. reflexivity. Qed.

Lemma div_eucl_pow2 m k j :
  0 <= j <= k -> Z.div_eucl (Zpos m * 2 ^ k) (2 ^ j) = (Zpos m * 2 ^ (k - j), 0).
Proof.
  intros H.
  assert (E : Zpos m * 2 ^ k = Zpos m * 2 ^ (k - j) * 2 ^ j).
  { rewrite <- Z.mul_assoc, <- Z.pow_add_r by lia. f_equal. f_equal. lia. }
  pose proof (Z.pow_pos_nonneg 2 j ltac:(lia) ltac:(lia)) as P.
  assert (Q : (Zpos m * 2 ^ k) / 2 ^ j = Zpos m * 2 ^ (k - j)).
  { rewrite E. apply Z.div_mul. lia. }
  assert (R : (Zpos m * 2 ^ k) mod 2 ^ j = 0).
  { rewrite E. apply Z.mod_mul. lia. }
  unfold Z.div, Z.modulo in Q, R.
  destruct (Z.div_eucl (Zpos m * 2 ^ k) (2 ^ j)) as [q r]. simpl in *. congruence.
Qed.

Lemma div_one s m e :
  bounded prec emax m e = true ->
  div (S754_finite s m e) one = S754_finite s m e.
Proof.
  intros H. destruct (canonical_cases m e H) as [B [[D E]|[E D]]].
  - rewrite one_eq. unfold div, SFdiv, SFdiv_core_binary.
    cbn [Zdigits2 digits2_pos Pos.succ].
    rewrite D.
    replace (Z.min _ _) with (e - 1) by (unfold fexp, emin, prec, emax; lia).
    replace (e - -52 - (e - 1)) with 53 by lia.
    cbv iota. rewrite Z.shiftl_mul_pow2 by lia.
    change 4503599627370496 with (2 ^ 52).
    rewrite (div_eucl_pow2 m 53 52) by lia.
    change (2 ^ (53 - 52)) with 2. 
    replace (Zpos m * 2) with (Zpos m~0) by lia.
    change (new_location (2 ^ 52) 0) with loc_Exact.
    rewrite xorb_false_r. now apply round_exact_double.
  - subst e. rewrite one_eq. unfold div, SFdiv, SFdiv_core_binary.
    cbn [Zdigits2 digits2_pos Pos.succ].
    replace (Z.min _ _) with (-1074) by (unfold fexp, emin, prec, emax; lia).
    change (-1074 - -52 - -1074) with 52.
    cbv iota. rewrite Z.shiftl_mul_pow2 by lia.
    change 4503599627370496 with (2 ^ 52).
    rewrite (div_eucl_pow2 m 52 52) by lia.
    change (2 ^ (52 - 52)) with 1. rewrite Z.mul_1_r.
    change (new_location (2 ^ 52) 0) with loc_Exact.
    rewrite xorb_false_r. now apply round_exact_canonical.
Qed.


Lemma compare_eq_finite a s m e :
  SFcompare a (S754_finite s m e) = Some Eq -> a = S754_finite s m e.
Proof.
  destruct a as [sa|sa| |sa ma ea]; simpl; try discriminate;
    try (destruct s; discriminate); try (destruct sa; discriminate).
  destruct sa, s; try discriminate;
    destruct (Z.compare_spec ea e) as [->| |]; try discriminate;
    change (Pos.compare_cont Eq ma m) with (Pos.compare ma m);
    destruct (Pos.compare_spec ma m) as [->| |]; simpl; try discriminate; reflexivity.
Qed.

Lemma compare_eq_zero a s :
  SFcompare a (S754_zero s) = Some Eq -> exists s', a = S754_zero s'.
Proof.
  destruct a as [sa|sa| |sa ma ea]; simpl; try discriminate;
    try (destruct sa; discriminate). intros _. now exists sa.
Qed.

Lemma square_deviation_zero x mu :
  finite x = true -> eq mu x = true -> ((x - mu) * (x - mu))%num = zero.
Proof.
  unfold eq, SFeqb. intros F E.
  destruct (SFcompare mu x) as [[]|] eqn:C; try discriminate.
  destruct x as [s|s| |s m e]; try discriminate.
  - destruct (compare_eq_zero _ _ C) as [s' ->]. destruct s, s'; reflexivity.
  - rewrite (compare_eq_finite _ _ _ _ C), sub_diag. reflexivity.
Qed.


End NumFacts.

(* ================================================================== *)
(** ** Facts about strings *)
(* ================================================================== *)

Module StrFacts.
Import Str.

Lemma trimStart_head s :
  trimStart s = [] \/ exists c r, trimStart s = c :: r /\ isWhiteSpace c = false.
Proof.
  induction s as [|c r IH]; simpl; [now left|].
  destruct (isWhiteSpace c) eqn:E; [exact IH|]. right. now exists c, r.
Qed.

Lemma trimEnd_cons c r :
  isWhiteSpace c = false -> exists r', trimEnd (c :: r) = c :: r'.
Proof.
  intros E. simpl. destruct (trimEnd r) as [|x r']; rewrite ?E; eexists; reflexivity.
Qed.

Lemma trimEnd_idem s : trimEnd (trimEnd s) = trimEnd s.
Proof.
  induction s as [|c r IH]; simpl; trivial.
  destruct (trimEnd r) as [|x r'] eqn:E.
  - destruct (isWhiteSpace c) eqn:W; simpl; now rewrite ?W.
  - change (trimEnd (c :: x :: r')) with
      (match trimEnd (x :: r') with
       | [] => if isWhiteSpace c then [] else [c]
       | y :: r'' => c :: y :: r''
       end).
    now rewrite IH.
Qed.

Lemma trimStart_fixed c r : isWhiteSpace c = false -> trimStart (c :: r) = c :: r.
Proof. intros E. simpl. now rewrite E. Qed.

(** [text.trim().trim()] is [text.trim()]. *)
Lemma trim_idem s : trim (trim s) = trim s.
Proof.
  unfold trim. destruct (trimStart_head s) as [E|(c & r & E & W)]; rewrite E.
  - reflexivity.
  - destruct (trimEnd_cons c r W) as [r' E']. rewrite E'.
    rewrite (trimStart_fixed _ _ W). rewrite <- E'. apply trimEnd_idem.
Qed.

End StrFacts.

(* ================================================================== *)
(** ** Facts about the voice service *)
(* ================================================================== *)

Module VoiceFacts.
Import Num NumFacts Voice.
Local Open Scope num_scope.

(** *** The deviation of a constant window *)

Lemma sum_zeros n : sum (repeat zero n) = zero.
Proof.
  unfold sum. induction n as [|n IH]; simpl; trivial.
Qed.

Lemma zero_div_len n :
  (1 <= n <= 20)%nat -> (zero / of_Z (Z.of_nat n))%num = zero.
Proof.
  intros H.
  do 21 (destruct n as [|n]; [try lia; vm_compute; reflexivity|]). lia.
Qed.

Lemma stddev_constant x n :
  finite x = true -> (1 <= n <= 20)%nat -> eq (mean (repeat x n)) x = true ->
  calculateStdDev (repeat x n) = zero.
Proof.
  intros F N E. unfold calculateStdDev.
  destruct n as [|n]; [lia|]. cbn [repeat].
  change (x :: repeat x n) with (repeat x (S n)).
  fold (mean (repeat x (S n))).
  rewrite map_repeat, (square_deviation_zero _ _ F E), sum_zeros.
  unfold len. rewrite repeat_length, zero_div_len by lia. reflexivity.
Qed.

Lemma mean_single x : finite x = true -> eq (mean [x]) x = true.
Proof.
  intros F. unfold mean, sum, len. cbn [fold_left length].
  change (of_Z (Z.of_nat 1)) with one.
  destruct x as [s|s| |s m e]; try discriminate.
  - destruct s; reflexivity.
  - change (zero + S754_finite s m e) with (S754_finite s m e).
    rewrite div_one by exact F.
    unfold eq, SFeqb. now rewrite compare_refl.
Qed.

(** *** What every run preserves *)

Ltac voice_simpl :=
  cbn [this pending fresh trace assign say setTimeout clearTimeout fst snd
       set_isListening set_isTranscribing set_analysisInterval set_histories
       set_callbacks set_language set_devices
       audioContext analyser mediaStreamSource recognition isListening
       isTranscribing analysisInterval config onVoiceEmotionCallback
       onTranscriptionCallback pitchHistory volumeHistory negb orb andb
       option_map length] in *.

Lemma push_capped_length x h :
  (length h <= 20)%nat -> (length (push_capped x h) <= 20)%nat.
Proof.
  intros H. unfold push_capped.
  destruct (20 <? length (h ++ [x]))%nat eqn:E.
  - destruct h as [|y h]; simpl in *; [lia|]. rewrite length_app. simpl. lia.
  - apply Nat.ltb_ge in E. exact E.
Qed.

Lemma runAnalysisLoop_invariant env w : invariant w -> invariant (runAnalysisLoop env w).
Proof.
  intros (T & P & V). unfold runAnalysisLoop.
  destruct (negb (isListening (this w)) || negb _); [now repeat split|].
  destruct (energy _ >? 1#10).
  - destruct (onVoiceEmotionCallback (this w)); unfold invariant; voice_simpl;
      (split; [exact T|]); split; now apply push_capped_length.
  - unfold invariant; voice_simpl. now repeat split.
Qed.

Lemma step_invariant c env w : invariant w -> invariant (step c env w).
Proof.
  intros I. pose proof I as (T & P & V).
  destruct c; cbn [step].
  - unfold initialize. destruct speechSupported; unfold invariant; voice_simpl;
      repeat split; trivial; congruence.
  - unfold invariant, setLanguage; voice_simpl. repeat split; trivial.
    intros H. specialize (T H). destruct (recognition (this w)); simpl; congruence.
  - unfold invariant, onVoiceEmotion; voice_simpl. now repeat split.
  - unfold invariant, onTranscription; voice_simpl. now repeat split.
  - unfold startListening. destruct (isListening (this w)); [exact I|].
    set (w1 := assign (set_histories [] []) _).
    assert (I1 : invariant w1) by (unfold invariant, w1; voice_simpl; repeat split; trivial; lia).
    pose proof (runAnalysisLoop_invariant env w1 I1) as I2.
    unfold invariant in *; voice_simpl; exact I2.
  - unfold startTranscription. destruct (isTranscribing (this w)) eqn:E; [exact I|].
    destruct (recognition (this w)) eqn:R; [|unfold invariant; voice_simpl; rewrite E; now repeat split].
    destruct (start_outcome env); unfold invariant; voice_simpl; rewrite ?R;
      repeat split; trivial; congruence.
  - unfold stopListening. voice_simpl.
    destruct (analysisInterval (this w)); unfold invariant; voice_simpl; now repeat split.
  - unfold stopTranscription. voice_simpl.
    destruct (recognition (this w)); unfold invariant; voice_simpl; repeat split; trivial; congruence.
  - unfold dispose, stopTranscription, stopListening. voice_simpl.
    destruct (analysisInterval (this w)); voice_simpl;
      destruct (recognition (this w)); unfold invariant; voice_simpl;
      repeat split; trivial; congruence.
  - unfold onresult. voice_simpl. destruct (onTranscriptionCallback (this w)); exact I.
  - unfold onend. voice_simpl.
    destruct (isTranscribing (this w) && _); exact I.
  - unfold fire. destruct (find _ _) as [t|]; [|exact I].
    assert (I1 : invariant (clearTimeout id w)) by exact I.
    destruct (task t); cbn [run]; [now apply runAnalysisLoop_invariant|].
    unfold restart. destruct (isTranscribing _); [|exact I1].
    destruct (recognition _); [|exact I1].
    destruct (start_outcome env); exact I1.
Qed.

Lemma reachable_invariant w : reachable w -> invariant w.
Proof.
  induction 1 as [c|c env w _ IH]; [|now apply step_invariant].
  unfold invariant; simpl. repeat split; try lia; discriminate.
Qed.

End VoiceFacts.

(* ================================================================== *)
(** ** Facts about the hook *)
(* ================================================================== *)

Module HookFacts.
Import Num NumFacts Hook.
Local Open Scope num_scope.

(** *** Fusion *)

Lemma Emotion_eqb_eq a b : Emotion_eqb a b = true <-> a = b.
Proof. destruct a, b; simpl; split; congruence. Qed.

Lemma weights_shape :
  (exists m e, facialWeight = S754_finite false m e) /\
  (exists m e, voiceWeight = S754_finite false m e) /\
  (exists m e, 12#10 = S754_finite false m e).
Proof. repeat split; eexists; eexists; vm_compute; reflexivity. Qed.

Lemma weighted_nonneg a w :
  in01 a = true -> (exists m e, w = S754_finite false m e) -> nonneg (a * w) = true.
Proof.
  intros Ha (m & e & ->). apply mul_nonneg, in01_nonneg, Ha.
Qed.

(** *** Sending *)

Lemma invoked_say e y :
  invoked (say e y) = invoked y ++ match e with Invoke r => [r] | _ => [] end.
Proof.
  unfold invoked, say; simpl. rewrite flat_map_app. simpl. now rewrite app_nil_r.
Qed.

Lemma invoked_update f y : invoked (update f y) = invoked y.
Proof. reflexivity. Qed.

Lemma sendMessage_sends cl t env y :
  Str.truthy (Str.trim t) = true ->
  exists m r,
    role m = user /\ content m = Str.trim t /\ message r = Str.trim t /\
    messages (hook (sendMessage cl t env y)) = messages (hook y) ++ [m] /\
    invoked (sendMessage cl t env y) = invoked y ++ [r].
Proof.
  intros G. unfold sendMessage. rewrite G. cbn [negb].
  eexists. eexists. rewrite invoked_say, invoked_update.
  cbn. repeat split; reflexivity.
Qed.

Lemma sendMessage_silent cl t env y :
  Str.truthy (Str.trim t) = false -> sendMessage cl t env y = y.
Proof. intros G. unfold sendMessage. now rewrite G. Qed.

(** *** The controls *)

Ltac hook_simpl :=
  cbn [hook faceService voiceService on_voice on_face update
       isInitialized isListening isFaceDetectionActive faceServiceRef voiceServiceRef
       setIsListening setIsFaceDetectionActive setError negb].

Ltac hook_cases :=
  repeat (hook_simpl;
          match goal with
          | |- context [if ?b then _ else _] => destruct b eqn:?
          end);
  hook_simpl.

Lemma control_frame c env y :
  isInitialized (hook (control c env y)) = isInitialized (hook y) /\
  if isVoiceControl c
  then isFaceDetectionActive (hook (control c env y)) = isFaceDetectionActive (hook y)
       /\ faceService (control c env y) = faceService y
  else isListening (hook (control c env y)) = isListening (hook y)
       /\ voiceService (control c env y) = voiceService y.
Proof.
  destruct c; cbn [control isVoiceControl];
    unfold startListening, stopListening, startFaceDetection, stopFaceDetection;
    hook_cases; auto.
Qed.

Lemma controls_snoc cs c env y :
  controls (cs ++ [(c, env)]) y = control c env (controls cs y).
Proof. unfold controls. now rewrite fold_left_app. Qed.

(** The face flag after a run depends on the face controls alone *)
Lemma face_flag_projection cs : forall y1 y2,
  isInitialized (hook y1) = isInitialized (hook y2) ->
  isFaceDetectionActive (hook y1) = isFaceDetectionActive (hook y2) ->
  isFaceDetectionActive (hook (controls cs y1))
  = isFaceDetectionActive
      (hook (controls (filter (fun ce => isFaceControl (fst ce)) cs) y2)).
Proof.
  induction cs as [|[c env] cs IH]; intros y1 y2 HI HF; [exact HF|].
  cbn [filter fst]. unfold isFaceControl.
  destruct (control_frame c env y1) as [I1 F1].
  destruct (isVoiceControl c) eqn:V; cbn [negb].
  - change (controls ((c, env) :: cs) y1) with (controls cs (control c env y1)).
    apply IH; [congruence | destruct F1; congruence].
  - change (controls ((c, env) :: cs) y1) with (controls cs (control c env y1)).
    change (controls ((c, env) :: ?l) y2) with (controls l (control c env y2)).
    destruct (control_frame c env y2) as [I2 _].
    apply IH; [congruence|].
    destruct c; try discriminate; cbn [control];
      unfold startFaceDetection, stopFaceDetection; rewrite <- ?HI;
      hook_cases; auto.
Qed.

Lemma listening_flag_projection cs : forall y1 y2,
  isInitialized (hook y1) = isInitialized (hook y2) ->
  isListening (hook y1) = isListening (hook y2) ->
  isListening (hook (controls cs y1))
  = isListening
      (hook (controls (filter (fun ce => isVoiceControl (fst ce)) cs) y2)).
Proof.
  induction cs as [|[c env] cs IH]; intros y1 y2 HI HF; [exact HF|].
  cbn [filter fst].
  destruct (control_frame c env y1) as [I1 F1].
  change (controls ((c, env) :: cs) y1) with (controls cs (control c env y1)).
  destruct (isVoiceControl c) eqn:V.
  - change (controls ((c, env) :: ?l) y2) with (controls l (control c env y2)).
    destruct (control_frame c env y2) as [I2 _].
    apply IH; [congruence|].
    destruct c; try discriminate; cbn [control];
      unfold startListening, stopListening; rewrite <- ?HI;
      hook_cases; auto.
  - apply IH; [congruence | destruct F1; congruence].
Qed.

End HookFacts.

(* ================================================================== *)
(** ** The claims *)
(* ================================================================== *)

Import Num NumFacts.
Local Open Scope num_scope.

(** *** Fusion *)

(** C1. When the facial and the vocal estimate carry confidences in [0,1]
    and different labels, [combineEmotions] returns the label of the
    modality with the higher weighted score (0.55 times the facial
    confidence against 0.38 times the vocal one), the facial one on a tie,
    and the returned confidence is that weighted score: it is one of the two
    scores and no smaller than either, that is, their maximum. *)
Theorem fusion_disagreement (f : EmotionResult) (v : VoiceEmotionResult) :
  in01 (f_confidence f) = true ->
  in01 (confidence v) = true ->
  dominant f <> label_of (emotion v) ->
  let facialScore := f_confidence f * 55#100 in
  let voiceScore := confidence v * 38#100 in
  exists r,
    Hook.combineEmotions (Some f) (Some v) = Some r /\
    (((voiceScore <=? facialScore) = true /\
      Hook.c_emotion r = dominant f /\ Hook.c_confidence r = facialScore) \/
     ((facialScore <? voiceScore) = true /\
      Hook.c_emotion r = label_of (emotion v) /\ Hook.c_confidence r = voiceScore)) /\
    (facialScore <=? Hook.c_confidence r) = true /\
    (voiceScore <=? Hook.c_confidence r) = true.
Proof.
  intros Hf Hv Hne facialScore voiceScore.
  destruct HookFacts.weights_shape as (Wf & Wv & _).
  assert (Nf : is_nan facialScore = false).
  { unfold facialScore. change (55#100) with Hook.facialWeight.
    now apply nonneg_not_nan, HookFacts.weighted_nonneg. }
  assert (Nv : is_nan voiceScore = false).
  { unfold voiceScore. change (38#100) with Hook.voiceWeight.
    now apply nonneg_not_nan, HookFacts.weighted_nonneg. }
  unfold Hook.combineEmotions.
  destruct (Emotion_eqb (dominant f) (label_of (emotion v))) eqn:E.
  { apply HookFacts.Emotion_eqb_eq in E. contradiction. }
  change (f_confidence f * Hook.facialWeight) with facialScore.
  change (confidence v * Hook.voiceWeight) with voiceScore.
  unfold ge.
  change (SFleb voiceScore facialScore) with (voiceScore <=? facialScore).
  destruct (voiceScore <=? facialScore) eqn:L; eexists; (split; [reflexivity|]); simpl.
  - split; [left; auto|]. split; [now apply le_refl | exact L].
  - pose proof (not_le_lt _ _ Nf Nv L) as Hlt.
    split; [right; auto|]. split; [now apply lt_le | now apply le_refl].
Qed.

(** C1 at a happy face of confidence 0.8 and a sad voice of confidence 0.6. *)
Lemma fusion_disagreement_witness :
  in01 (f_confidence Sample.face_happy) = true /\
  in01 (confidence Sample.voice_sad) = true /\
  dominant Sample.face_happy <> label_of (emotion Sample.voice_sad) /\
  exists r,
    Hook.combineEmotions (Some Sample.face_happy) (Some Sample.voice_sad) = Some r /\
    ((((6#10 * 38#100) <=? (8#10 * 55#100)) = true /\
      Hook.c_emotion r = happy /\
      Hook.c_confidence r = 8#10 * 55#100) \/
     (((8#10 * 55#100) <? (6#10 * 38#100)) = true /\
      Hook.c_emotion r = sad /\
      Hook.c_confidence r = 6#10 * 38#100)) /\
    ((8#10 * 55#100) <=? Hook.c_confidence r) = true /\
    ((6#10 * 38#100) <=? Hook.c_confidence r) = true.
Proof.
  split; [vm_compute; reflexivity|].
  split; [vm_compute; reflexivity|].
  split; [discriminate|].
  apply (fusion_disagreement Sample.face_happy Sample.voice_sad).
  - vm_compute; reflexivity.
  - vm_compute; reflexivity.
  - discriminate.
Defined.

(** C2. When the two estimates carry confidences in [0,1] and the same
    label, [combineEmotions] returns that label with the confidence
    min(1, (0.55 f + 0.38 v) * 1.2), and this confidence lies in [0,1]. *)
Theorem fusion_agreement (f : EmotionResult) (v : VoiceEmotionResult) :
  in01 (f_confidence f) = true ->
  in01 (confidence v) = true ->
  dominant f = label_of (emotion v) ->
  let boosted :=
    Math_min one
      ((f_confidence f * 55#100 + confidence v * 38#100) * 12#10) in
  Hook.combineEmotions (Some f) (Some v)
    = Some {| Hook.c_emotion := dominant f; Hook.c_confidence := boosted |}
  /\ in01 boosted = true.
Proof.
  intros Hf Hv He boosted.
  destruct HookFacts.weights_shape as (Wf & Wv & m & e & W).
  split.
  - unfold Hook.combineEmotions.
    apply HookFacts.Emotion_eqb_eq in He. rewrite He.
    reflexivity.
  - unfold boosted. apply min_one_in01. rewrite W. apply mul_nonneg.
    change (55#100) with Hook.facialWeight. change (38#100) with Hook.voiceWeight.
    apply add_nonneg; now apply HookFacts.weighted_nonneg.
Qed.

(** C2 at a happy face of confidence 0.8 and a happy voice of confidence 0.6. *)
Lemma fusion_agreement_witness :
  in01 (f_confidence Sample.face_happy) = true /\
  in01 (confidence Sample.voice_happy) = true /\
  dominant Sample.face_happy = label_of (emotion Sample.voice_happy) /\
  Hook.combineEmotions (Some Sample.face_happy) (Some Sample.voice_happy)
    = Some {| Hook.c_emotion := happy;
              Hook.c_confidence :=
                Math_min one ((8#10 * 55#100 + 6#10 * 38#100) * 12#10) |}
  /\ in01 (Math_min one ((8#10 * 55#100 + 6#10 * 38#100) * 12#10)) = true.
Proof.
  split; [vm_compute; reflexivity|].
  split; [vm_compute; reflexivity|].
  split; [reflexivity|].
  apply (fusion_agreement Sample.face_happy Sample.voice_happy).
  - vm_compute; reflexivity.
  - vm_compute; reflexivity.
  - reflexivity.
Defined.

(** *** The classifier *)

(** C3, as the design states it, fails: on the worked example (pitch 300,
    loudness 0.2, energy 0.5, pitch variation 10) the classifier does not
    answer "happy". *)
Lemma example_is_not_happy :
  label_of (Voice.d_emotion (Voice.detectEmotion Sample.example_metrics)) <> happy.
Proof. vm_compute. discriminate. Qed.

(** C3, amended. On the worked example the rules score happy 0.3, sad
    0.3 + 0.2 = 0.5, angry 0, fearful 0.2 + 0.1 and neutral 0.3 + 0.1; the
    classifier answers "sad", with the winning score 0.5 as its confidence. *)
Theorem example_is_sad :
  Voice.score Sample.example_metrics
    = {| Voice.s_happy := zero + 3#10;
         Voice.s_sad := zero + 3#10 + 2#10;
         Voice.s_angry := zero;
         Voice.s_fearful := zero + 2#10 + 1#10;
         Voice.s_neutral := 3#10 + 1#10 |}
  /\ Voice.detectEmotion Sample.example_metrics
     = {| Voice.d_emotion := v_sad; Voice.d_confidence := 5#10 |}
  /\ zero + 3#10 + 2#10 = 5#10.
Proof. vm_compute. repeat split; reflexivity. Qed.

(** C10. Whatever the metrics, the confidence the classifier reports lies
    between 0.3 and 1: the neutral score starts at 0.3 and only grows, the
    scan returns a score no smaller than it, and the result is capped at 1. *)
Theorem classifier_confidence_bounds (m : VoiceMetrics) :
  (3#10 <=? Voice.d_confidence (Voice.detectEmotion m)) = true /\
  (Voice.d_confidence (Voice.detectEmotion m) <=? one) = true.
Proof.
  unfold Voice.detectEmotion, Voice.score, Voice.energyRules, Voice.variationRules,
    Voice.volumeRules, Voice.pitchRules.
  generalize ((pitch m >=? of_Z 200) && (pitch m <=? of_Z 400)).
  generalize ((pitch m >=? of_Z 150) && (pitch m <=? of_Z 350)).
  generalize ((pitch m >=? of_Z 100) && (pitch m <=? of_Z 200)).
  generalize ((pitch m >=? of_Z 180) && (pitch m <=? of_Z 350)).
  generalize (volume m >? 7#10). generalize (volume m <? 3#10).
  generalize (pitchVariation m >? of_Z 40).
  generalize (pitchVariation m >? of_Z 25).
  generalize (pitchVariation m <? of_Z 15).
  generalize (energy m >? 6#10). generalize (energy m <? 3#10).
  clear m.
  intros c1 c2 c3 c4 c5 c6 c7 c8 c9 c10 c11.
  destruct c1, c2, c3, c4, c5, c6, c7, c8, c9, c10, c11;
    vm_compute; split; reflexivity.
Qed.

(** *** The transcription handler *)

(** C4. The hook's transcription callback, on a final segment whose trimmed
    text is not empty, appends exactly one message, of role "user" and with
    the trimmed text as content, sends exactly one request carrying that
    text to the chat function, and leaves the in-progress transcript empty.
    On any other segment (not final, or nothing but white space) it appends
    no message and sends no request. *)
Theorem final_transcript_sends_once
    (o : Hook.Options) (cl : Hook.Closure) (result : TranscriptionResult)
    (env : Hook.Env) (y : Hook.System) :
  let y' := Hook.handleTranscription o cl result env y in
  let t := Str.trim (text result) in
  if isFinal result && Str.truthy t then
    (exists m, Hook.messages (Hook.hook y') = Hook.messages (Hook.hook y) ++ [m]
               /\ Hook.role m = Hook.user /\ Hook.content m = t)
    /\ (exists r, Hook.invoked y' = Hook.invoked y ++ [r] /\ Hook.message r = t)
    /\ Hook.currentTranscript (Hook.hook y') = []
  else
    Hook.messages (Hook.hook y') = Hook.messages (Hook.hook y)
    /\ Hook.invoked y' = Hook.invoked y
    /\ Hook.currentTranscript (Hook.hook y') = text result.
Proof.
  intros y' t. subst y'. unfold Hook.handleTranscription. fold t.
  set (y1 := Hook.update (Hook.setCurrentTranscript (text result)) y).
  set (y2 := if Hook.onTranscription o then Hook.say _ y1 else y1).
  assert (H2 : Hook.messages (Hook.hook y2) = Hook.messages (Hook.hook y)
               /\ Hook.invoked y2 = Hook.invoked y
               /\ Hook.currentTranscript (Hook.hook y2) = text result).
  { subst y2. destruct (Hook.onTranscription o); repeat split; trivial.
    rewrite HookFacts.invoked_say. apply app_nil_r. }
  destruct H2 as (M2 & I2 & T2).
  destruct (isFinal result && Str.truthy t) eqn:G; [|now repeat split].
  apply andb_prop in G. destruct G as [_ G].
  assert (G' : Str.truthy (Str.trim t) = true)
    by (unfold t; now rewrite StrFacts.trim_idem).
  destruct (HookFacts.sendMessage_sends cl t env y2 G')
    as (m & r & Hr & Hc & Hm & HM & HI).
  rewrite HookFacts.invoked_update.
  cbn [Hook.hook Hook.update Hook.messages Hook.setCurrentTranscript
       Hook.currentTranscript].
  unfold t in Hc, Hm. rewrite StrFacts.trim_idem in Hc, Hm. fold t in Hc, Hm.
  rewrite HM, HI, M2, I2. repeat split; eauto.
Qed.

(** *** The two control pairs *)

(** C6. Over every run of the four controls, from any state of the hook:
    [startListening] and [stopListening] never change
    [isFaceDetectionActive], [startFaceDetection] and [stopFaceDetection]
    never change [isListening]; so each flag after the run is what the
    controls of its own pair alone would have left. *)
Theorem control_pairs_independent
    (cs : list (Hook.Control * Hook.Env)) (y : Hook.System) :
  (forall c env,
     let y' := Hook.controls cs y in
     if Hook.isVoiceControl c
     then Hook.isFaceDetectionActive (Hook.hook (Hook.control c env y'))
          = Hook.isFaceDetectionActive (Hook.hook y')
     else Hook.isListening (Hook.hook (Hook.control c env y'))
          = Hook.isListening (Hook.hook y'))
  /\ Hook.isFaceDetectionActive (Hook.hook (Hook.controls cs y))
     = Hook.isFaceDetectionActive
         (Hook.hook (Hook.controls
                       (filter (fun ce => Hook.isFaceControl (fst ce)) cs) y))
  /\ Hook.isListening (Hook.hook (Hook.controls cs y))
     = Hook.isListening
         (Hook.hook (Hook.controls
                       (filter (fun ce => Hook.isVoiceControl (fst ce)) cs) y)).
Proof.
  split; [|split].
  - intros c env y'. destruct (HookFacts.control_frame c env y') as [_ F].
    destruct (Hook.isVoiceControl c); tauto.
  - now apply HookFacts.face_flag_projection.
  - now apply HookFacts.listening_flag_projection.
Qed.

(** *** The service's loops and lifecycle *)

Lemma starts_app t u : Voice.starts (t ++ u) = Voice.starts t ++ Voice.starts u.
Proof. unfold Voice.starts. apply flat_map_app. Qed.

Lemma le_not_gt a b : (a <=? b) = true -> (a >? b) = false.
Proof.
  unfold le, gt, SFleb, SFltb. destruct (SFcompare a b) as [c|] eqn:C; [|discriminate].
  rewrite (compare_antisym _ _ _ C). destruct c; simpl; congruence.
Qed.

(** C5. On an "ended" event of the recognition object, in any state the
    service can reach: the handler itself changes no field and calls
    [start] on nothing; if the transcribing flag is set it schedules exactly
    one timer, with the delay 100 and the restart as its task, and if the
    flag is clear it schedules none.  The restart task, whenever it runs,
    schedules nothing and changes no field; it calls [start] once if the
    flag is still set and not at all otherwise, and when that call throws
    it only writes a warning. *)
Theorem ended_restart_policy (w : Voice.World) (env : Voice.Env) :
  Voice.reachable w ->
  let w1 := Voice.onend w in
  Voice.this w1 = Voice.this w
  /\ Voice.starts (Voice.trace w1) = Voice.starts (Voice.trace w)
  /\ (if Voice.isTranscribing (Voice.this w)
      then Voice.pending w1
           = Voice.pending w
               ++ [{| Voice.timer_id := Voice.fresh w; Voice.delay := 100;
                      Voice.task := Voice.RestartRecognition |}]
      else Voice.pending w1 = Voice.pending w)
  /\ (forall w2, Voice.reachable w2 ->
        let w3 := Voice.run Voice.RestartRecognition env w2 in
        Voice.this w3 = Voice.this w2
        /\ Voice.pending w3 = Voice.pending w2
        /\ Voice.starts (Voice.trace w3)
           = Voice.starts (Voice.trace w2)
               ++ (if Voice.isTranscribing (Voice.this w2)
                   then [Voice.start_outcome env] else [])
        /\ (forall e, Voice.isTranscribing (Voice.this w2) = true ->
                      Voice.start_outcome env = Some e ->
                      Voice.trace w3
                      = Voice.trace w2
                          ++ [Voice.RecognitionStart (Some e);
                              Voice.Console Voice.warn Voice.MsgCouldNotRestart])).
Proof.
  intros R w1. subst w1.
  destruct (VoiceFacts.reachable_invariant w R) as (T & _ & _).
  repeat split.
  - unfold Voice.onend. cbn [Voice.this Voice.say].
    destruct (Voice.isTranscribing (Voice.this w) && _); reflexivity.
  - unfold Voice.onend. cbn [Voice.this Voice.say].
    destruct (Voice.isTranscribing (Voice.this w) && _);
      cbn [Voice.setTimeout Voice.say Voice.trace snd];
      rewrite ?starts_app; cbn; now rewrite ?app_nil_r.
  - unfold Voice.onend. cbn [Voice.this Voice.say].
    destruct (Voice.isTranscribing (Voice.this w)) eqn:E; [|reflexivity].
    specialize (T eq_refl). destruct (Voice.recognition (Voice.this w)); [|congruence].
    reflexivity.
  - cbn [Voice.run]. unfold Voice.restart.
    destruct (Voice.isTranscribing (Voice.this w2)); [|reflexivity].
    destruct (Voice.recognition (Voice.this w2)); [|reflexivity].
    destruct (Voice.start_outcome env); reflexivity.
  - cbn [Voice.run]. unfold Voice.restart.
    destruct (Voice.isTranscribing (Voice.this w2)); [|reflexivity].
    destruct (Voice.recognition (Voice.this w2)); [|reflexivity].
    destruct (Voice.start_outcome env); reflexivity.
  - destruct (VoiceFacts.reachable_invariant w2 H) as (T2 & _ & _).
    cbn [Voice.run]. unfold Voice.restart.
    destruct (Voice.isTranscribing (Voice.this w2)); [|now rewrite app_nil_r].
    specialize (T2 eq_refl).
    destruct (Voice.recognition (Voice.this w2)); [|congruence].
    destruct (Voice.start_outcome env);
      cbn [Voice.say Voice.trace]; rewrite ?starts_app; cbn; now rewrite ?app_nil_r.
  - intros e E S.
    destruct (VoiceFacts.reachable_invariant w2 H) as (T2 & _ & _).
    cbn [Voice.run]. unfold Voice.restart. rewrite E, S.
    specialize (T2 E).
    destruct (Voice.recognition (Voice.this w2)); [|congruence].
    cbn [Voice.say Voice.trace]. now rewrite <- app_assoc.
Qed.

Lemma sample_transcribing_reachable : Voice.reachable Sample.transcribing.
Proof. unfold Sample.transcribing. repeat constructor. Qed.

(** C5 on the sample service, initialised and transcribing, with a
    [start] that throws. *)
Lemma ended_restart_policy_witness :
  Voice.reachable Sample.transcribing
  /\ Voice.isTranscribing (Voice.this Sample.transcribing) = true
  /\ Voice.pending (Voice.onend Sample.transcribing)
     = [{| Voice.timer_id := 1%positive; Voice.delay := 100;
           Voice.task := Voice.RestartRecognition |}]
  /\ Voice.starts (Voice.trace (Voice.run Voice.RestartRecognition Sample.refusing
                                  (Voice.onend Sample.transcribing)))
     = [None; Some (Voice.DOMException 11)].
Proof.
  pose proof (ended_restart_policy Sample.transcribing Sample.refusing
                sample_transcribing_reachable) as (_ & _ & P & Q).
  split; [exact sample_transcribing_reachable|].
  split; [reflexivity|].
  split; [exact P|].
  destruct (Q (Voice.onend Sample.transcribing)) as (_ & _ & S & _).
  - apply (Voice.reachable_step Voice.EventEnd Sample.quiet).
    exact sample_transcribing_reachable.
  - exact S.
Defined.

(** C7. A tick of the analysis loop whose extracted energy is at most 0.1
    hands no estimate to the callback (it leaves the trace as it is) and
    leaves both histories as they are.  While the loop is running, that is
    listening with an analyser, every tick schedules the next one, with the
    delay 100, whatever the energy. *)
Theorem silent_tick_and_rescheduling (env : Voice.Env) (w : Voice.World) :
  let m := Voice.analyzeAudio (Voice.this w) (Voice.frame env) in
  let w' := Voice.runAnalysisLoop env w in
  ((energy m <=? 1#10) = true ->
     Voice.trace w' = Voice.trace w
     /\ Voice.pitchHistory (Voice.this w') = Voice.pitchHistory (Voice.this w)
     /\ Voice.volumeHistory (Voice.this w') = Voice.volumeHistory (Voice.this w))
  /\ (Voice.isListening (Voice.this w) = true ->
      Voice.analyser (Voice.this w) <> None ->
      Voice.pending w'
      = Voice.pending w
          ++ [{| Voice.timer_id := Voice.fresh w; Voice.delay := 100;
                 Voice.task := Voice.AnalysisTick |}]
      /\ Voice.analysisInterval (Voice.this w') = Some (Voice.fresh w)).
Proof.
  intros m w'. subst w'. unfold Voice.runAnalysisLoop. fold m. split.
  - intros E. apply le_not_gt in E. rewrite E.
    destruct (negb (Voice.isListening (Voice.this w)) || _); now repeat split.
  - intros L A. rewrite L.
    destruct (Voice.analyser (Voice.this w)); [|congruence]. cbn [negb orb].
    destruct (energy m >? 1#10); [|now split].
    destruct (Voice.onVoiceEmotionCallback (Voice.this w)); now split.
Qed.

(** C7 on the sample service, listening, at a frame of silence. *)
Lemma silent_tick_and_rescheduling_witness :
  (energy (Voice.analyzeAudio (Voice.this Sample.listening) Sample.silence)
     <=? 1#10) = true
  /\ Voice.isListening (Voice.this Sample.listening) = true
  /\ Voice.analyser (Voice.this Sample.listening) <> None
  /\ Voice.trace (Voice.runAnalysisLoop Sample.quiet Sample.listening)
     = Voice.trace Sample.listening
  /\ Voice.pending (Voice.runAnalysisLoop Sample.quiet Sample.listening)
     = Voice.pending Sample.listening
         ++ [{| Voice.timer_id := Voice.fresh Sample.listening; Voice.delay := 100;
                Voice.task := Voice.AnalysisTick |}].
Proof.
  destruct (silent_tick_and_rescheduling Sample.quiet Sample.listening) as [A B].
  assert (E : (energy (Voice.analyzeAudio (Voice.this Sample.listening) Sample.silence)
                <=? 1#10) = true) by (vm_compute; reflexivity).
  assert (L : Voice.isListening (Voice.this Sample.listening) = true)
    by (vm_compute; reflexivity).
  assert (N : Voice.analyser (Voice.this Sample.listening) <> None)
    by (vm_compute; discriminate).
  split; [exact E|]. split; [exact L|]. split; [exact N|].
  split; [exact (proj1 (A E)) | exact (proj1 (B L N))].
Defined.

(** C9, as the design states it, fails: on the initialised sample service,
    with a [start] that throws, [startTranscription] returns to its caller
    and hands it no error. *)
Lemma failed_start_returns_normally :
  Voice.start_outcome Sample.refusing = Some (Voice.DOMException 11)
  /\ fst (Voice.startTranscription Sample.refusing Sample.ready) = Voice.Returned
  /\ fst (Voice.startTranscription Sample.refusing Sample.ready)
     <> Voice.Threw (Voice.DOMException 11).
Proof. vm_compute. repeat split; discriminate. Qed.

(** C9, amended. When [startTranscription] reaches [recognition.start()]
    and that call throws, the transcribing flag is cleared again and the
    error is written to the console; the call returns normally, so nothing
    is surfaced to the caller.  Nothing is retried: no timer is scheduled,
    and a later "ended" event schedules none either. *)
Theorem failed_start_clears_flag_and_logs
    (w : Voice.World) (env : Voice.Env) (e : Voice.Exn) :
  Voice.isTranscribing (Voice.this w) = false ->
  Voice.recognition (Voice.this w) <> None ->
  Voice.start_outcome env = Some e ->
  let r := Voice.startTranscription env w in
  fst r = Voice.Returned
  /\ Voice.isTranscribing (Voice.this (snd r)) = false
  /\ Voice.trace (snd r)
     = Voice.trace w
         ++ [Voice.Console Voice.log Voice.MsgStartingTranscription;
             Voice.RecognitionStart (Some e);
             Voice.Console Voice.error Voice.MsgCouldNotStart]
  /\ Voice.pending (snd r) = Voice.pending w
  /\ Voice.pending (Voice.onend (snd r)) = Voice.pending w.
Proof.
  intros T R S r. subst r. unfold Voice.startTranscription. rewrite T, S.
  destruct (Voice.recognition (Voice.this w)); [|congruence].
  cbn [fst snd]. repeat split.
  cbn [Voice.trace Voice.assign Voice.say]. now rewrite <- !app_assoc.
Qed.

(** C9, amended, on the initialised sample service. *)
Lemma failed_start_clears_flag_and_logs_witness :
  Voice.isTranscribing (Voice.this Sample.ready) = false
  /\ Voice.recognition (Voice.this Sample.ready) <> None
  /\ Voice.start_outcome Sample.refusing = Some (Voice.DOMException 11)
  /\ fst (Voice.startTranscription Sample.refusing Sample.ready) = Voice.Returned
  /\ Voice.isTranscribing
       (Voice.this (snd (Voice.startTranscription Sample.refusing Sample.ready)))
     = false.
Proof.
  assert (T : Voice.isTranscribing (Voice.this Sample.ready) = false)
    by (vm_compute; reflexivity).
  assert (R : Voice.recognition (Voice.this Sample.ready) <> None)
    by (vm_compute; discriminate).
  assert (S : Voice.start_outcome Sample.refusing = Some (Voice.DOMException 11))
    by reflexivity.
  destruct (failed_start_clears_flag_and_logs Sample.ready Sample.refusing
              (Voice.DOMException 11) T R S) as (A & B & _).
  repeat split; trivial.
Defined.

(** *** The rolling histories *)

(** C8, as the design states it, fails: a window of three equal samples,
    each the pitch 44100/88 the detector reports at its smallest lag, has a
    deviation that is not zero.  The sum of the three rounds, the mean
    computed from it is not the sample, and the result is 2^-44. *)
Lemma constant_window_deviation_nonzero :
  Voice.calculateStdDev (repeat Sample.pitch_at_lag_88 3)
    = S754_finite false 4503599627370496 (-96)
  /\ eq (Voice.calculateStdDev (repeat Sample.pitch_at_lag_88 3)) zero = false
  /\ eq (Voice.mean (repeat Sample.pitch_at_lag_88 3)) Sample.pitch_at_lag_88 = false.
Proof. vm_compute. repeat split; reflexivity. Qed.

(** C8, amended. In every state the service can reach, neither history
    holds more than 20 samples.  [calculateStdDev] is 0 on the empty window
    and the population standard deviation (the square root of the mean
    squared deviation from the mean, in binary64 arithmetic) on any other;
    it is 0 on a window of one finite sample, and on a window of up to 20
    equal finite samples whenever the mean computed for it equals the
    sample. *)
Theorem histories_capped_and_deviation :
  (forall w, Voice.reachable w ->
     (length (Voice.pitchHistory (Voice.this w)) <= 20)%nat
     /\ (length (Voice.volumeHistory (Voice.this w)) <= 20)%nat)
  /\ Voice.calculateStdDev [] = zero
  /\ (forall l, l <> [] -> Voice.calculateStdDev l = Voice.population_stddev l)
  /\ (forall x, finite x = true -> Voice.calculateStdDev [x] = zero)
  /\ (forall x n, finite x = true -> (1 <= n <= 20)%nat ->
        eq (Voice.mean (repeat x n)) x = true ->
        Voice.calculateStdDev (repeat x n) = zero).
Proof.
  split; [|split; [|split; [|split]]].
  - intros w R. now destruct (VoiceFacts.reachable_invariant w R) as (_ & P & V).
  - reflexivity.
  - intros l N. destruct l as [|x l]; [congruence|].
    unfold Voice.calculateStdDev, Voice.population_stddev, Voice.mean at 1, Voice.len.
    now rewrite length_map.
  - intros x F. apply (VoiceFacts.stddev_constant x 1 F); [lia|].
    now apply VoiceFacts.mean_single.
  - intros x n F N E. now apply VoiceFacts.stddev_constant.
Qed.

(** C8, amended, on a window of three samples of 300 Hz, the pitch at lag
    147. *)
Lemma histories_capped_and_deviation_witness :
  finite (of_Z 300) = true
  /\ eq (Voice.mean (repeat (of_Z 300) 3)) (of_Z 300) = true
  /\ Voice.calculateStdDev (repeat (of_Z 300) 3) = zero.
Proof.
  assert (F : finite (of_Z 300) = true) by (vm_compute; reflexivity).
  assert (E : eq (Voice.mean (repeat (of_Z 300) 3)) (of_Z 300) = true)
    by (vm_compute; reflexivity).
  split; [exact F|]. split; [exact E|].
  apply (proj2 (proj2 (proj2 (proj2 histories_capped_and_deviation)))
           (of_Z 300) 3%nat F); [lia | exact E].
Defined.

(* ================================================================== *)
(** ** Further properties of the services and the hook *)
(* ================================================================== *)

Import Observed.

(** *** The rolling window *)

Lemma push_capped_window x h :
  (length h <= 20)%nat ->
  Voice.push_capped x h = skipn (length (h ++ [x]) - 20) (h ++ [x]).
Proof.
  intros H. unfold Voice.push_capped.
  destruct (20 <? length (h ++ [x]))%nat eqn:E.
  - apply Nat.ltb_lt in E. rewrite length_app in *. cbn [length] in *.
    replace (length h + 1 - 20)%nat with 1%nat by lia.
    destruct h; reflexivity.
  - apply Nat.ltb_ge in E.
    replace (length (h ++ [x]) - 20)%nat with 0%nat by lia. reflexivity.
Qed.

Lemma skipn_snoc_window (xs : list number) (x : number) :
  skipn (length (skipn (length xs - 20) xs ++ [x]) - 20) (skipn (length xs - 20) xs ++ [x])
  = skipn (length (xs ++ [x]) - 20) (xs ++ [x]).
Proof.
  rewrite !length_app, length_skipn. cbn [length].
  destruct (Nat.le_gt_cases (length xs) 20) as [L|G].
  - replace (length xs - 20)%nat with 0%nat by lia. cbn [skipn].
    replace (length xs - 0 + 1 - 20)%nat with (length xs + 1 - 20)%nat by lia.
    reflexivity.
  - replace (length xs - (length xs - 20) + 1 - 20)%nat with 1%nat by lia.
    replace (length xs + 1 - 20)%nat with (S (length xs - 20)) by lia.
    rewrite (skipn_app 1 (skipn (length xs - 20) xs) [x]).
    replace (1 - length (skipn (length xs - 20) xs))%nat with 0%nat
      by (rewrite length_skipn; lia).
    rewrite skipn_skipn.
    rewrite (skipn_app (S (length xs - 20)) xs [x]).
    replace (S (length xs - 20) - length xs)%nat with 0%nat by lia.
    reflexivity.
Qed.

(** X1. A history that starts empty and takes the accepted samples one by
    one holds, after any number of them, the last 20 in their order of
    arrival (all of them while there are at most 20). *)
Theorem history_is_last_twenty (xs : list number) :
  fold_left accept xs [] = skipn (length xs - 20) xs.
Proof.
  induction xs as [|x xs IH] using rev_ind; [reflexivity|].
  rewrite fold_left_app. cbn [fold_left]. unfold accept at 1. rewrite IH.
  rewrite push_capped_window by (rewrite length_skipn; lia).
  apply skipn_snoc_window.
Qed.

Lemma le_trans a b c : (a <=? b) = true -> (b <=? c) = true -> (a <=? c) = true.
Proof.
  unfold le, SFleb.
  destruct a as [sa|sa| |sa ma ea], b as [sb|sb| |sb mb eb], c as [sc|sc| |sc mc ec];
    cbn [SFcompare]; try discriminate; try reflexivity;
    try (destruct sa; try discriminate; try reflexivity);
    try (destruct sb; try discriminate; try reflexivity);
    try (destruct sc; try discriminate; try reflexivity);
    rewrite ?Pos.compare_cont_spec; cbn [Pos.switch_Eq];
    repeat match goal with
           | |- context [Z.compare ?x ?y] => destruct (Z.compare_spec x y)
           | |- context [Pos.compare ?x ?y] => destruct (Pos.compare_spec x y)
           end; cbn [CompOpp]; intros; try discriminate; try reflexivity; lia.
Qed.

Lemma lt_le_trans a b c : (a <? b) = true -> (b <=? c) = true -> (a <? c) = true.
Proof.
  unfold le, lt, SFleb, SFltb.
  destruct a as [sa|sa| |sa ma ea], b as [sb|sb| |sb mb eb], c as [sc|sc| |sc mc ec];
    cbn [SFcompare]; try discriminate; try reflexivity;
    try (destruct sa; try discriminate; try reflexivity);
    try (destruct sb; try discriminate; try reflexivity);
    try (destruct sc; try discriminate; try reflexivity);
    rewrite ?Pos.compare_cont_spec; cbn [Pos.switch_Eq];
    repeat match goal with
           | |- context [Z.compare ?x ?y] => destruct (Z.compare_spec x y)
           | |- context [Pos.compare ?x ?y] => destruct (Pos.compare_spec x y)
           end; cbn [CompOpp]; intros; try discriminate; try reflexivity; lia.
Qed.

Lemma le_lt_trans a b c : (a <=? b) = true -> (b <? c) = true -> (a <? c) = true.
Proof.
  unfold le, lt, SFleb, SFltb.
  destruct a as [sa|sa| |sa ma ea], b as [sb|sb| |sb mb eb], c as [sc|sc| |sc mc ec];
    cbn [SFcompare]; try discriminate; try reflexivity;
    try (destruct sa; try discriminate; try reflexivity);
    try (destruct sb; try discriminate; try reflexivity);
    try (destruct sc; try discriminate; try reflexivity);
    rewrite ?Pos.compare_cont_spec; cbn [Pos.switch_Eq];
    repeat match goal with
           | |- context [Z.compare ?x ?y] => destruct (Z.compare_spec x y)
           | |- context [Pos.compare ?x ?y] => destruct (Pos.compare_spec x y)
           end; cbn [CompOpp]; intros; try discriminate; try reflexivity; lia.
Qed.

Lemma not_gt_le a b :
  is_nan a = false -> is_nan b = false -> (a >? b) = false -> (a <=? b) = true.
Proof.
  intros Ha Hb. unfold gt, le, SFltb, SFleb.
  destruct (compare_total b a Hb Ha) as [c Hc]. rewrite Hc.
  pose proof (compare_antisym _ _ _ Hc) as Hc'. rewrite Hc'.
  destruct c; simpl; congruence.
Qed.

Lemma lt_not_nan_r a b : (a <? b) = true -> is_nan b = false.
Proof.
  unfold lt, SFltb. destruct a, b; simpl; try discriminate; reflexivity.
Qed.

Lemma lt_trans a b c : (a <? b) = true -> (b <? c) = true -> (a <? c) = true.
Proof. intros H1 H2. apply (lt_le_trans a b c H1). now apply lt_le. Qed.

(** The scan for the maximum returns the first entry of maximal score, or
    the start value when no entry exceeds it. *)
Lemma pick_first_maximum (K : Type) (l : list (K * number)) :
  forall (m0 : number) (d0 : K),
  Forall (fun e => is_nan (snd e) = false) l ->
  is_nan m0 = false ->
  (fold_left pick l (m0, d0) = (m0, d0)
   /\ Forall (fun e => (snd e <=? m0) = true) l)
  \/ (exists l1 k s l2,
        l = l1 ++ (k, s) :: l2
        /\ fold_left pick l (m0, d0) = (s, k)
        /\ (m0 <? s) = true
        /\ Forall (fun e => (snd e <? s) = true) l1
        /\ Forall (fun e => (snd e <=? s) = true) l2).
Proof.
  induction l as [|[k s] l IH]; intros m0 d0 N N0.
  - left. split; [reflexivity | constructor].
  - inversion N as [|? ? Ns Nl]; subst. cbn [snd] in Ns.
    cbn [fold_left].
    change (pick (m0, d0) (k, s)) with (if s >? m0 then (s, k) else (m0, d0)).
    destruct (s >? m0) eqn:G.
    + right. destruct (IH s k Nl Ns) as [[E A]|(l1 & k' & s' & l2 & E & F & L & A1 & A2)].
      * exists [], k, s, l. repeat split; trivial.
      * exists ((k, s) :: l1), k', s', l2. subst l. repeat split; trivial.
        -- now apply (lt_trans m0 s s').
        -- constructor; trivial.
    + pose proof (not_gt_le s m0 Ns N0 G) as Le.
      destruct (IH m0 d0 Nl N0) as [[E A]|(l1 & k' & s' & l2 & E & F & L & A1 & A2)].
      * left. split; trivial. constructor; trivial.
      * right. exists ((k, s) :: l1), k', s', l2. subst l. repeat split; trivial.
        constructor; trivial. cbn [snd]. now apply (le_lt_trans s m0 s').
Qed.

Lemma score_facts (m : VoiceMetrics) :
  forallb (fun e => negb (is_nan (snd e))) (Voice.entries (Voice.score m)) = true
  /\ (zero <? Voice.s_neutral (Voice.score m)) = true
  /\ Math_min one (fst (fold_left Voice.scan (Voice.entries (Voice.score m)) (zero, v_neutral)))
     = fst (fold_left Voice.scan (Voice.entries (Voice.score m)) (zero, v_neutral)).
Proof.
  unfold Voice.score, Voice.energyRules, Voice.variationRules,
    Voice.volumeRules, Voice.pitchRules.
  generalize ((pitch m >=? of_Z 200) && (pitch m <=? of_Z 400)).
  generalize ((pitch m >=? of_Z 150) && (pitch m <=? of_Z 350)).
  generalize ((pitch m >=? of_Z 100) && (pitch m <=? of_Z 200)).
  generalize ((pitch m >=? of_Z 180) && (pitch m <=? of_Z 350)).
  generalize (volume m >? 7#10). generalize (volume m <? 3#10).
  generalize (pitchVariation m >? of_Z 40).
  generalize (pitchVariation m >? of_Z 25).
  generalize (pitchVariation m <? of_Z 15).
  generalize (energy m >? 6#10). generalize (energy m <? 3#10).
  clear m.
  intros c1 c2 c3 c4 c5 c6 c7 c8 c9 c10 c11.
  destruct c1, c2, c3, c4, c5, c6, c7, c8, c9, c10, c11;
    vm_compute; repeat split; reflexivity.
Qed.

(** X2. The classifier answers with the first label, in the order happy,
    sad, angry, fearful, neutral, whose score is maximal, and its
    confidence is that score: the cap at 1 never cuts. *)
Theorem classifier_first_maximum (m : VoiceMetrics) :
  let sc := Voice.score m in
  exists l1 s l2,
    [(v_happy, Voice.s_happy sc); (v_sad, Voice.s_sad sc);
     (v_angry, Voice.s_angry sc); (v_fearful, Voice.s_fearful sc);
     (v_neutral, Voice.s_neutral sc)]
      = l1 ++ (Voice.d_emotion (Voice.detectEmotion m), s) :: l2
    /\ Voice.d_confidence (Voice.detectEmotion m) = s
    /\ (s <=? one) = true
    /\ Forall (fun e => (snd e <? s) = true) l1
    /\ Forall (fun e => (snd e <=? s) = true) l2.
Proof.
  intros sc. subst sc.
  change [(v_happy, Voice.s_happy (Voice.score m)); (v_sad, Voice.s_sad (Voice.score m));
          (v_angry, Voice.s_angry (Voice.score m));
          (v_fearful, Voice.s_fearful (Voice.score m));
          (v_neutral, Voice.s_neutral (Voice.score m))]
    with (Voice.entries (Voice.score m)).
  destruct (score_facts m) as (N & P & C).
  assert (N' : Forall (fun e => is_nan (snd e) = false) (Voice.entries (Voice.score m))).
  { apply Forall_forall. intros e He.
    rewrite forallb_forall in N. specialize (N e He). now destruct (is_nan (snd e)). }
  destruct (pick_first_maximum _ (Voice.entries (Voice.score m)) zero v_neutral N' eq_refl)
    as [[E A]|(l1 & k & s & l2 & E & F & L & A1 & A2)].
  - exfalso. rewrite Forall_forall in A.
    specialize (A (v_neutral, Voice.s_neutral (Voice.score m))).
    cbn [snd] in A. unfold Voice.entries in A. cbn [In] in A.
    assert (H : (Voice.s_neutral (Voice.score m) <=? zero) = true) by (apply A; tauto).
    apply le_not_gt in H. unfold gt in H. unfold lt in P. congruence.
  - change (@pick VoiceEmotion) with Voice.scan in F.
    assert (Cs : Math_min one s = s) by (rewrite F in C; exact C).
    unfold Voice.detectEmotion. cbn [Voice.d_emotion Voice.d_confidence].
    rewrite F. cbn [fst snd].
    exists l1, s, l2. repeat split; trivial.
    assert (Ns : is_nan s = false) by (now apply (lt_not_nan_r zero s)).
    revert Cs. unfold Math_min.
    destruct (compare_total one s eq_refl Ns) as [c Hc]. rewrite Hc.
    unfold le, SFleb. rewrite (compare_antisym _ _ _ Hc).
    destruct c; cbn [CompOpp is_neg_zero one]; trivial.
    intros <-. vm_compute in Hc. discriminate.
Qed.

Local Open Scope Z_scope.

(** *** Rounding never flushes to zero above the smallest exponent *)

Lemma shr_1_half r : 0 <= shr_m r -> shr_m (shr_1 r) = shr_m r / 2.
Proof.
  destruct r as [m rb sb]; cbn [shr_m]. intros H.
  destruct m as [|p|p]; [reflexivity| |lia].
  destruct p as [p|p|]; cbn [shr_1 shr_m].
  - rewrite Pos2Z.inj_xI. apply Z.div_unique with (r := 1); lia.
  - rewrite Pos2Z.inj_xO. apply Z.div_unique with (r := 0); lia.
  - reflexivity.
Qed.

Lemma pow2_double p : 2 ^ Zpos p~0 = 2 ^ Zpos p * 2 ^ Zpos p.
Proof. rewrite <- Z.pow_add_r by lia. f_equal. lia. Qed.

Lemma pow2_double_succ p : 2 ^ Zpos p~1 = 2 * (2 ^ Zpos p * 2 ^ Zpos p).
Proof.
  rewrite <- Z.pow_add_r, <- Z.pow_succ_r by lia. f_equal. lia.
Qed.

Lemma iter_shr_1_div p : forall r,
  0 <= shr_m r -> shr_m (iter_pos shr_1 p r) = shr_m r / 2 ^ Zpos p.
Proof.
  assert (P : forall q, 0 < 2 ^ Zpos q) by (intros q; apply Z.pow_pos_nonneg; lia).
  induction p as [p IH|p IH|]; intros r H; cbn [iter_pos].
  - pose proof (shr_1_nonneg r H) as H1.
    pose proof (iter_shr_1_nonneg p _ H1) as H2.
    rewrite IH, IH, shr_1_half by trivial.
    pose proof (P p).
    rewrite !Z.div_div by lia. now rewrite pow2_double_succ.
  - pose proof (iter_shr_1_nonneg p _ H) as H2.
    rewrite IH, IH by trivial.
    pose proof (P p).
    rewrite !Z.div_div by lia. now rewrite pow2_double.
  - rewrite shr_1_half by trivial. reflexivity.
Qed.

Lemma digits2_pos_bound m : 2 ^ (Zpos (digits2_pos m) - 1) <= Zpos m.
Proof.
  induction m as [m IH|m IH|]; cbn [digits2_pos].
  - rewrite Pos2Z.inj_succ. replace (Z.succ (Zpos (digits2_pos m)) - 1)
      with (1 + (Zpos (digits2_pos m) - 1)) by lia.
    rewrite Z.pow_add_r by lia. lia.
  - rewrite Pos2Z.inj_succ. replace (Z.succ (Zpos (digits2_pos m)) - 1)
      with (1 + (Zpos (digits2_pos m) - 1)) by lia.
    rewrite Z.pow_add_r by lia. lia.
  - reflexivity.
Qed.

(** One shift of [shr_fexp] on a positive mantissa, at an exponent no
    smaller than the least one: the mantissa stays positive and the
    exponent does not decrease. *)
Lemma shr_fexp_positive m e l :
  0 < m -> -1074 <= e ->
  0 < shr_m (fst (shr_fexp prec emax m e l))
  /\ e <= snd (shr_fexp prec emax m e l).
Proof.
  intros Hm He. destruct m as [|p|p]; try lia.
  unfold shr_fexp. cbn [Zdigits2].
  set (d := Zpos (digits2_pos p)).
  assert (Hd : 2 ^ (d - 1) <= Zpos p) by apply digits2_pos_bound.
  assert (Hn : fexp prec emax (d + e) - e <= d - 1)
    by (unfold fexp, emin, prec, emax; lia).
  destruct (fexp prec emax (d + e) - e) as [|n|n] eqn:N; cbn [shr fst snd].
  - rewrite shr_record_of_loc_m. lia.
  - rewrite iter_shr_1_div by (rewrite shr_record_of_loc_m; lia).
    rewrite shr_record_of_loc_m. split; [|lia].
    apply Z.div_str_pos. split; [apply Z.pow_pos_nonneg; lia|].
    eapply Z.le_trans; [|exact Hd]. apply Z.pow_le_mono_r; lia.
  - rewrite shr_record_of_loc_m. lia.
Qed.

Lemma round_nearest_even_ge m l : 0 <= m -> m <= round_nearest_even m l.
Proof.
  intros H. destruct l as [|[]]; cbn; try lia. destruct (Z.even m); lia.
Qed.

Lemma binary_round_aux_positive s m e l :
  0 < m -> -1074 <= e ->
  (exists m' e', binary_round_aux prec emax s m e l = S754_finite s m' e' /\ e <= e')
  \/ binary_round_aux prec emax s m e l = S754_infinity s.
Proof.
  intros Hm He. unfold binary_round_aux.
  destruct (shr_fexp_positive m e l Hm He) as [P1 E1].
  destruct (shr_fexp prec emax m e l) as [r1 e1]. cbn [fst snd] in P1, E1.
  pose proof (round_nearest_even_ge (shr_m r1) (loc_of_shr_record r1) ltac:(lia)) as R.
  destruct (shr_fexp_positive (round_nearest_even (shr_m r1) (loc_of_shr_record r1))
              e1 loc_Exact ltac:(lia) ltac:(lia)) as [P2 E2].
  destruct (shr_fexp prec emax _ e1 loc_Exact) as [r2 e2]. cbn [fst snd] in P2, E2.
  destruct (shr_m r2) as [|p|p]; try lia.
  destruct (e2 <=? emax - prec); [left|now right].
  exists p, e2. split; [reflexivity | lia].
Qed.

(** A positive integer as a number is a positive finite number of exponent
    at least -52, or +infinity. *)
Lemma of_Z_positive p :
  (exists m e, of_Z (Zpos p) = S754_finite false m e /\ -52 <= e)
  \/ of_Z (Zpos p) = S754_infinity false.
Proof.
  unfold of_Z, binary_normalize, binary_round.
  assert (D : 0 < Zpos (digits2_pos p)) by lia.
  unfold shl_align.
  destruct (fexp prec emax (Zpos (digits2_pos p) + 0) - 0) as [|n|n] eqn:N.
  - destruct (binary_round_aux_positive false (Zpos p) 0 loc_Exact) as [(m & e & E & L)|E];
      try lia; [left; exists m, e; split; [exact E | lia] | now right].
  - destruct (binary_round_aux_positive false (Zpos p) 0 loc_Exact) as [(m & e & E & L)|E];
      try lia; [left; exists m, e; split; [exact E | lia] | now right].
  - assert (F : -52 <= fexp prec emax (Zpos (digits2_pos p) + 0))
      by (unfold fexp, emin, prec, emax; lia).
    destruct (binary_round_aux_positive false (Zpos (Pos.iter xO p n))
                (fexp prec emax (Zpos (digits2_pos p) + 0)) loc_Exact)
      as [(m & e & E & L)|E];
      try lia; [left; exists m, e; split; [exact E | lia] | now right].
Qed.

(** 0 divided by a buffer length, or by a length times 255, is 0. *)
Lemma zero_over_length (n : nat) :
  (1 <= n)%nat ->
  (zero / of_Z (Z.of_nat n))%num = zero
  /\ (zero / (of_Z (Z.of_nat n) * of_Z 255))%num = zero.
Proof.
  intros H. destruct (Z.of_nat n) as [|p|p] eqn:E; try lia.
  destruct (of_Z_positive p) as [(m & e & -> & L)| ->].
  - split; [reflexivity|].
    change (of_Z 255) with (S754_finite false 8972014882652160 (-45)).
    unfold mul, SFmul.
    destruct (binary_round_aux_positive (xorb false false)
                (Zpos (m * 8972014882652160)) (e + -45) loc_Exact)
      as [(m' & e' & -> & _)| ->]; try lia; reflexivity.
  - split; reflexivity.
Qed.

Local Close Scope Z_scope.

(** *** Feature extraction *)

Lemma lags_range lag a b n :
  In lag (Voice.lags a b n) -> (a <= lag < b /\ 2 * lag < Z.of_nat n)%Z.
Proof.
  unfold Voice.lags. intros H. apply in_map_iff in H. destruct H as (i & <- & H).
  apply in_seq in H.
  assert (D : (2 * ((Z.of_nat n + 1) / 2) <= Z.of_nat n + 1)%Z)
    by (apply Z.mul_div_le; lia).
  lia.
Qed.

Lemma best_of_fold (g : number * Z -> Z -> number * Z) (l : list Z) :
  (forall acc lag, g acc lag = acc \/ snd (g acc lag) = lag) ->
  forall acc, snd (fold_left g l acc) = snd acc \/ In (snd (fold_left g l acc)) l.
Proof.
  intros G. induction l as [|x l IH]; intros acc; [now left|].
  cbn [fold_left]. destruct (IH (g acc x)) as [E|I].
  - rewrite E. destruct (G acc x) as [Eg|Eg];
      [rewrite Eg; now left | right; left; now symmetry].
  - right. now right.
Qed.

(** X3. The pitch detector answers 0, or [sampleRate / lag] for a lag it
    searched: one from floor(sampleRate/500) up to, and not including,
    floor(sampleRate/50), and below half the buffer length. *)
Theorem pitch_within_search_range (sampleRate : number) (timeData : list Z) :
  Voice.detectPitch sampleRate timeData = zero
  \/ exists lag,
       (floor (sampleRate / of_Z 500) <= lag < floor (sampleRate / of_Z 50))%Z
       /\ (2 * lag < Z.of_nat (length timeData))%Z
       /\ Voice.detectPitch sampleRate timeData = sampleRate / of_Z lag.
Proof.
  unfold Voice.detectPitch.
  set (g := fun (acc : number * Z) (lag : Z) => _).
  set (l := Voice.lags _ _ _).
  destruct (best_of_fold g l) with (acc := (zero, 0%Z)) as [E|I].
  - intros acc lag. unfold g.
    destruct (_ >? fst acc); [now right | now left].
  - rewrite E. cbn [snd]. now left.
  - destruct (snd (fold_left g l (zero, 0%Z)) =? 0)%Z; [now left|].
    right. exists (snd (fold_left g l (zero, 0%Z))).
    apply lags_range in I. tauto.
Qed.

Lemma sum_all_zero (l : list number) :
  Forall (fun x => x = zero) l -> Voice.sum l = zero.
Proof.
  unfold Voice.sum. induction 1 as [|x l -> _ IH]; [reflexivity|exact IH].
Qed.

Lemma centred_silence (l : list Z) :
  Forall (fun b => b = 128%Z) l ->
  Forall (fun x => x = zero) (map Voice.centred l).
Proof.
  induction 1 as [|b l -> _ IH]; constructor; [vm_compute; reflexivity | exact IH].
Qed.

Lemma products_of_zeros (l l' : list number) :
  Forall (fun x => x = zero) l -> Forall (fun x => x = zero) l' ->
  Forall (fun x => x = zero) (map (fun p => fst p * snd p) (combine l l')).
Proof.
  intros H. revert l'. induction H as [|x l -> _ IH]; intros l' H'; [constructor|].
  destruct H' as [|y l' -> H']; [constructor|].
  cbn [combine map]. constructor; [reflexivity | now apply IH].
Qed.

Lemma skipn_all_zero k (l : list number) :
  Forall (fun x => x = zero) l -> Forall (fun x => x = zero) (skipn k l).
Proof.
  intros H. apply Forall_forall. intros x Hx.
  rewrite Forall_forall in H. apply H.
  rewrite <- (firstn_skipn k l). apply in_or_app. now right.
Qed.

(** The detector on silence: every byte at the midpoint 128. *)
Lemma pitch_of_silence (sampleRate : number) (timeData : list Z) :
  Forall (fun b => b = 128%Z) timeData ->
  Voice.detectPitch sampleRate timeData = zero.
Proof.
  intros S. pose proof (centred_silence _ S) as Z0.
  unfold Voice.detectPitch.
  set (l := Voice.lags _ _ _). clearbody l.
  assert (F : fold_left
                (fun (acc : number * Z) (lag : Z) =>
                   if Voice.correlation (map Voice.centred timeData) (Z.to_nat lag)
                        >? fst acc
                   then (Voice.correlation (map Voice.centred timeData) (Z.to_nat lag), lag)
                   else acc) l (zero, 0%Z) = (zero, 0%Z)).
  { induction l as [|x l IH]; [reflexivity|].
    cbn [fold_left fst].
    assert (C : Voice.correlation (map Voice.centred timeData) (Z.to_nat x) = zero).
    { unfold Voice.correlation. apply sum_all_zero.
      apply products_of_zeros; [exact Z0 | now apply skipn_all_zero]. }
    rewrite C. exact IH. }
  rewrite F. reflexivity.
Qed.

(** X4. On a frame of silence (every time-domain byte at the midpoint 128,
    every frequency bin 0) that is not empty, the extracted pitch, volume
    and energy are all 0, so the tick is gated out: nothing is handed to the
    callback and no sample enters the histories. *)
Theorem silence_is_gated_out (env : Voice.Env) (w : Voice.World) :
  silent (Voice.frame env) ->
  (1 <= length (Voice.timeData (Voice.frame env)))%nat ->
  (1 <= length (Voice.frequencyData (Voice.frame env)))%nat ->
  Voice.analyzeAudio (Voice.this w) (Voice.frame env) = Voice.zeroMetrics
  /\ Voice.trace (Voice.runAnalysisLoop env w) = Voice.trace w
  /\ Voice.pitchHistory (Voice.this (Voice.runAnalysisLoop env w))
     = Voice.pitchHistory (Voice.this w)
  /\ Voice.volumeHistory (Voice.this (Voice.runAnalysisLoop env w))
     = Voice.volumeHistory (Voice.this w).
Proof.
  intros [St Sf] Lt Lf.
  assert (A : Voice.analyzeAudio (Voice.this w) (Voice.frame env) = Voice.zeroMetrics).
  { unfold Voice.analyzeAudio. destruct (Voice.analyser (Voice.this w)); [|reflexivity].
    rewrite (pitch_of_silence _ _ St).
    assert (R : Voice.calculateRMS (Voice.timeData (Voice.frame env)) = zero).
    { unfold Voice.calculateRMS, Voice.len.
      rewrite sum_all_zero.
      - now rewrite (proj1 (zero_over_length _ Lt)).
      - pose proof (centred_silence _ St) as Z0.
        rewrite Forall_forall in Z0. apply Forall_forall. intros x Hx.
        apply in_map_iff in Hx. destruct Hx as (b & <- & Hb).
        rewrite (Z0 (Voice.centred b)) by (apply in_map_iff; eauto). reflexivity. }
    assert (E : Voice.calculateEnergy (Voice.frequencyData (Voice.frame env)) = zero).
    { unfold Voice.calculateEnergy, Voice.len.
      rewrite sum_all_zero.
      - now rewrite (proj2 (zero_over_length _ Lf)).
      - apply Forall_forall. intros x Hx.
        apply in_map_iff in Hx. destruct Hx as (b & <- & Hb).
        rewrite Forall_forall in Sf. now rewrite (Sf b Hb). }
    rewrite R, E. reflexivity. }
  split; [exact A|].
  unfold Voice.runAnalysisLoop.
  destruct (negb (Voice.isListening (Voice.this w)) || _); [now repeat split|].
  rewrite A. change (energy Voice.zeroMetrics >? 1#10) with false.
  now repeat split.
Qed.

(** X4 on the sample service, listening, at eight bins of silence. *)
Lemma silence_is_gated_out_witness :
  silent (Voice.frame Sample.quiet)
  /\ Voice.analyzeAudio (Voice.this Sample.listening) (Voice.frame Sample.quiet)
     = Voice.zeroMetrics
  /\ Voice.trace (Voice.runAnalysisLoop Sample.quiet Sample.listening)
     = Voice.trace Sample.listening.
Proof.
  assert (S : silent (Voice.frame Sample.quiet))
    by (split; vm_compute; repeat constructor).
  assert (T : (1 <= length (Voice.timeData (Voice.frame Sample.quiet)))%nat)
    by (vm_compute; lia).
  assert (F : (1 <= length (Voice.frequencyData (Voice.frame Sample.quiet)))%nat)
    by (vm_compute; lia).
  destruct (silence_is_gated_out Sample.quiet Sample.listening S T F)
    as (A & B & _).
  split; [exact S|]. split; [exact A | exact B].
Defined.

Local Open Scope Z_scope.

(** *** Results that are never NaN and never negative *)

Lemma signed_not_nan s a : signed s a -> is_nan a = false.
Proof. destruct 1; reflexivity. Qed.

Lemma div_core_nonneg m1 e1 m2 e2 :
  0 <= fst (fst (SFdiv_core_binary prec emax (Zpos m1) e1 (Zpos m2) e2)).
Proof.
  unfold SFdiv_core_binary.
  set (s := _ - _ - _).
  set (m' := match s with Z0 => Zpos m1 | Zpos _ => Z.shiftl (Zpos m1) s | Zneg _ => 0 end).
  assert (H : 0 <= m').
  { subst m'. destruct s; try lia. apply Z.shiftl_nonneg. lia. }
  pose proof (Z.div_pos m' (Zpos m2) H ltac:(lia)) as Q.
  unfold Z.div in Q. destruct (Z.div_eucl m' (Zpos m2)) as [q r]. exact Q.
Qed.

Lemma div_signed sa ma ea mb eb :
  signed sa (div (S754_finite sa ma ea) (S754_finite false mb eb)).
Proof.
  unfold div, SFdiv. pose proof (div_core_nonneg ma ea mb eb) as H.
  destruct (SFdiv_core_binary prec emax (Zpos ma) ea (Zpos mb) eb) as [[mz ez] lz].
  cbn [fst] in H. rewrite xorb_false_r. now apply binary_round_aux_signed.
Qed.

Lemma div_real a mb eb :
  is_nan a = false -> is_nan (div a (S754_finite false mb eb)) = false.
Proof.
  destruct a as [s|s| |s m e]; try discriminate; intros _; try reflexivity.
  apply (signed_not_nan s), div_signed.
Qed.

Lemma div_nonneg a mb eb :
  nonneg a = true -> nonneg (div a (S754_finite false mb eb)) = true.
Proof.
  destruct a as [s|[]| |[] m e]; try discriminate; intros _; try reflexivity.
  apply signed_nonneg, div_signed.
Qed.

Lemma sqrt_nonneg a : nonneg a = true -> nonneg (sqrt a) = true.
Proof.
  destruct a as [s|[]| |[] m e]; try discriminate; intros _; try reflexivity.
  unfold sqrt, SFsqrt, SFsqrt_core_binary.
  set (m' := match _ with Z0 => Zpos m | Zpos _ => _ | Zneg _ => 0 end).
  pose proof (Z.sqrtrem_spec m') as S.
  assert (H : 0 <= m').
  { subst m'. destruct (_ - _); try lia. apply Z.shiftl_nonneg. lia. }
  specialize (S H). destruct (Z.sqrtrem m') as [q r].
  apply signed_nonneg, binary_round_aux_signed. lia.
Qed.

Lemma binary_normalize_real m e : is_nan (binary_normalize prec emax m e false) = false.
Proof.
  unfold binary_normalize. destruct m; [reflexivity| |];
    eapply signed_not_nan, binary_round_signed.
Qed.

Lemma add_real a b : is_nan a = false -> finite b = true -> is_nan (add a b) = false.
Proof.
  destruct a as [sa|sa| |sa ma ea], b as [sb|sb| |sb mb eb]; try discriminate;
    intros _ _; try reflexivity.
  - destruct sa, sb; reflexivity.
  - apply binary_normalize_real.
Qed.

Lemma sub_real x mu : finite x = true -> is_nan mu = false -> is_nan (sub x mu) = false.
Proof.
  destruct x as [sa|sa| |sa ma ea], mu as [sb|sb| |sb mb eb]; try discriminate;
    intros _ _; try reflexivity.
  - destruct sa, sb; reflexivity.
  - apply binary_normalize_real.
Qed.

Lemma square_nonneg d : is_nan d = false -> nonneg (mul d d) = true.
Proof.
  destruct d as [s|s| |s m e]; try discriminate; intros _.
  - reflexivity.
  - cbn. now rewrite xorb_nilpotent.
  - unfold mul, SFmul. rewrite xorb_nilpotent.
    apply signed_nonneg, binary_round_aux_signed. lia.
Qed.

Local Close Scope Z_scope.
Local Open Scope num_scope.

Lemma sum_from_real (l : list number) : forall a,
  is_nan a = false -> Forall (fun x => finite x = true) l ->
  is_nan (fold_left add l a) = false.
Proof.
  induction l as [|x l IH]; intros a Ha F; [exact Ha|].
  inversion F; subst. cbn [fold_left]. apply IH; trivial. now apply add_real.
Qed.

Lemma sum_from_nonneg (l : list number) : forall a,
  nonneg a = true -> Forall (fun x => nonneg x = true) l ->
  nonneg (fold_left add l a) = true.
Proof.
  induction l as [|x l IH]; intros a Ha F; [exact Ha|].
  inversion F; subst. cbn [fold_left]. apply IH; trivial. now apply add_nonneg.
Qed.

Lemma small_length_finite (n : nat) :
  (1 <= n <= 20)%nat -> exists m e, of_Z (Z.of_nat n) = S754_finite false m e.
Proof.
  intros H.
  do 21 (destruct n as [|n]; [try lia; eexists; eexists; vm_compute; reflexivity|]).
  lia.
Qed.

(** X5. On a window of 1 to 20 finite samples [calculateStdDev] is never
    NaN and never negative: it is zero, a positive number or +infinity. *)
Theorem deviation_is_nonnegative (values : list number) :
  Forall (fun x => finite x = true) values ->
  (length values <= 20)%nat ->
  nonneg (Voice.calculateStdDev values) = true.
Proof.
  intros F L. destruct values as [|x l]; [reflexivity|].
  unfold Voice.calculateStdDev. cbv beta iota zeta.
  set (values := x :: l) in *.
  assert (N : (1 <= length values <= 20)%nat) by (subst values; cbn in *; lia).
  destruct (small_length_finite _ N) as (m & e & Hl).
  unfold Voice.len. rewrite Hl.
  set (mu := Voice.sum values / S754_finite false m e).
  assert (Hmu : is_nan mu = false).
  { apply div_real. unfold Voice.sum. now apply sum_from_real. }
  apply sqrt_nonneg, div_nonneg. unfold Voice.sum. apply sum_from_nonneg; [reflexivity|].
  apply Forall_forall. intros y Hy. apply in_map_iff in Hy.
  destruct Hy as (v & <- & Hv). apply square_nonneg, sub_real; trivial.
  rewrite Forall_forall in F. now apply F.
Qed.

(** X5 on a window of 100, 200 and 300 Hz. *)
Lemma deviation_is_nonnegative_witness :
  Forall (fun x => finite x = true) [of_Z 100; of_Z 200; of_Z 300]
  /\ (length [of_Z 100; of_Z 200; of_Z 300] <= 20)%nat
  /\ nonneg (Voice.calculateStdDev [of_Z 100; of_Z 200; of_Z 300]) = true.
Proof.
  assert (F : Forall (fun x => finite x = true) [of_Z 100; of_Z 200; of_Z 300])
    by (repeat (constructor; [vm_compute; reflexivity|]); constructor).
  assert (L : (length [of_Z 100; of_Z 200; of_Z 300] <= 20)%nat)
    by (vm_compute; lia).
  split; [exact F|]. split; [exact L|].
  exact (deviation_is_nonnegative _ F L).
Defined.

(** *** The host's timers *)

Lemma wf_boot c : timers_wf (Voice.boot c).
Proof.
  unfold timers_wf. cbn. split; [intros t []|]. split; [constructor|].
  intros t [].
Qed.

Lemma wf_schedule_restart w d :
  timers_wf w -> timers_wf (snd (Voice.setTimeout Voice.RestartRecognition d w)).
Proof.
  intros (B & U & T). unfold timers_wf.
  cbn [Voice.setTimeout snd Voice.pending Voice.fresh Voice.this].
  split; [|split].
  - intros t H. apply in_app_or in H. destruct H as [H|[<-|[]]].
    + specialize (B t H). lia.
    + cbn. lia.
  - rewrite map_app. cbn [map Voice.timer_id].
    apply NoDup_app; [exact U | repeat constructor; intros [] | ].
    intros a Ha [<-|[]]. apply in_map_iff in Ha. destruct Ha as (t & E & Ht).
    specialize (B t Ht). lia.
  - intros t H K. apply in_app_or in H. destruct H as [H|[<-|[]]];
      [now apply T | discriminate].
Qed.

Lemma wf_clear id w :
  timers_wf w ->
  (forall t, In t (Voice.pending (Voice.clearTimeout id w)) -> Voice.timer_id t <> id)
  /\ (forall t, In t (Voice.pending (Voice.clearTimeout id w)) -> In t (Voice.pending w))
  /\ NoDup (map Voice.timer_id (Voice.pending (Voice.clearTimeout id w))).
Proof.
  intros (B & U & T). cbn [Voice.clearTimeout Voice.pending]. repeat split.
  - intros t H. apply filter_In in H. destruct H as [_ H].
    apply negb_true_iff, Pos.eqb_neq in H. exact H.
  - intros t H. apply filter_In in H. tauto.
  - clear B T. induction (Voice.pending w) as [|t p IH]; cbn; [constructor|].
    inversion U; subst.
    destruct (negb (Voice.timer_id t =? id)%positive); cbn; auto.
    constructor; auto. intros H. apply in_map_iff in H. destruct H as (t' & E & H).
    apply filter_In in H. destruct H as [H _].
    apply H1. apply in_map_iff. now exists t'.
Qed.

(** After a guard that passed, a tick leaves exactly the timer it has just
    scheduled as the pending tick. *)
Lemma wf_tick env w :
  (forall t, In t (Voice.pending w) -> (Voice.timer_id t < Voice.fresh w)%positive) ->
  NoDup (map Voice.timer_id (Voice.pending w)) ->
  (forall t, In t (Voice.pending w) -> isTick t = false) ->
  Voice.isListening (Voice.this w) = true ->
  timers_wf (Voice.runAnalysisLoop env w).
Proof.
  intros B U T L. unfold Voice.runAnalysisLoop. rewrite L. cbn [negb orb].
  destruct (Voice.analyser (Voice.this w)); cbn [negb].
  2:{ split; [exact B|]. split; [exact U|].
      intros t H K. rewrite (T t H) in K. discriminate. }
  set (w1 := if energy _ >? 1#10 then _ else w).
  assert (P1 : Voice.pending w1 = Voice.pending w /\ Voice.fresh w1 = Voice.fresh w
               /\ Voice.isListening (Voice.this w1) = true).
  { subst w1. destruct (energy _ >? 1#10); [|now repeat split].
    destruct (Voice.onVoiceEmotionCallback (Voice.this w)); now repeat split. }
  destruct P1 as (Pp & Pf & Pl). clearbody w1.
  unfold timers_wf.
  cbn [Voice.setTimeout Voice.assign Voice.pending Voice.fresh Voice.this
       Voice.set_analysisInterval Voice.analysisInterval Voice.isListening].
  rewrite Pp, Pf, Pl. split; [|split].
  - intros t H. apply in_app_or in H. destruct H as [H|[<-|[]]].
    + specialize (B t H). lia.
    + cbn. lia.
  - rewrite map_app. cbn [map Voice.timer_id].
    apply NoDup_app; [exact U | repeat constructor; intros [] | ].
    intros a Ha [<-|[]]. apply in_map_iff in Ha. destruct Ha as (t & E & Ht).
    specialize (B t Ht). lia.
  - intros t H K. split; [|reflexivity].
    apply in_app_or in H. destruct H as [H|[<-|[]]]; [|reflexivity].
    rewrite (T t H) in K. discriminate.
Qed.

Lemma wf_no_ticks_when_idle w :
  timers_wf w -> Voice.isListening (Voice.this w) = false ->
  forall t, In t (Voice.pending w) -> isTick t = false.
Proof.
  intros (_ & _ & T) L t H. destruct (isTick t) eqn:K; trivial.
  destruct (T t H K) as [_ L']. congruence.
Qed.

Lemma wf_stopListening w : timers_wf w -> timers_wf (Voice.stopListening w).
Proof.
  intros W. pose proof W as (B & U & T). unfold Voice.stopListening.
  cbn [Voice.assign Voice.this Voice.set_isListening Voice.analysisInterval].
  destruct (Voice.analysisInterval (Voice.this w)) as [id|] eqn:A.
  - destruct (wf_clear id w W) as (C1 & C2 & C3).
    unfold timers_wf.
    cbn [Voice.say Voice.assign Voice.pending Voice.fresh Voice.this Voice.clearTimeout
         Voice.set_analysisInterval Voice.set_isListening Voice.analysisInterval
         Voice.isListening] in *.
    split; [|split]; auto.
    intros t H K. exfalso. destruct (T t (C2 t H) K) as [E _].
    apply (C1 t H). congruence.
  - unfold timers_wf.
    cbn [Voice.say Voice.assign Voice.pending Voice.fresh Voice.this
         Voice.set_isListening Voice.analysisInterval Voice.isListening].
    split; [|split]; auto.
    intros t H K. destruct (T t H K) as [E _]. congruence.
Qed.

Lemma wf_stopTranscription env w :
  timers_wf w -> timers_wf (Voice.stopTranscription env w).
Proof.
  intros W. unfold Voice.stopTranscription.
  cbn [Voice.assign Voice.this Voice.set_isTranscribing Voice.recognition].
  destruct (Voice.recognition (Voice.this w)); exact W.
Qed.

Lemma wf_step c env w : timers_wf w -> timers_wf (Voice.step c env w).
Proof.
  intros W. pose proof W as (B & U & T).
  destruct c; cbn [Voice.step].
  - unfold Voice.initialize. destruct speechSupported; exact W.
  - exact W.
  - exact W.
  - exact W.
  - unfold Voice.startListening.
    destruct (Voice.isListening (Voice.this w)) eqn:L; [exact W|].
    pose proof (wf_no_ticks_when_idle w W L) as N.
    assert (W' : timers_wf (Voice.runAnalysisLoop env
                   (Voice.assign (Voice.set_histories [] [])
                      (Voice.assign (Voice.set_isListening true) w))))
      by (apply wf_tick; trivial).
    exact W'.
  - unfold Voice.startTranscription.
    destruct (Voice.isTranscribing (Voice.this w)); [exact W|].
    destruct (Voice.recognition (Voice.this w)); [|exact W].
    destruct (Voice.start_outcome env); exact W.
  - now apply wf_stopListening.
  - now apply wf_stopTranscription.
  - unfold Voice.dispose.
    pose proof (wf_stopTranscription env _ (wf_stopListening w W)) as W'.
    exact W'.
  - unfold Voice.onresult. cbn [Voice.say Voice.this].
    destruct (Voice.onTranscriptionCallback (Voice.this w)); exact W.
  - unfold Voice.onend. cbn [Voice.say Voice.this].
    destruct (Voice.isTranscribing (Voice.this w) && _); [|exact W].
    apply (wf_schedule_restart _ 100) in W. exact W.
  - unfold Voice.fire.
    destruct (find _ (Voice.pending w)) as [t|] eqn:F; [|exact W].
    apply find_some in F. destruct F as [Ht Hid]. apply Pos.eqb_eq in Hid.
    destruct (wf_clear id w W) as (C1 & C2 & C3).
    destruct (Voice.task t) eqn:K; cbn [Voice.run].
    + assert (Kt : isTick t = true) by (unfold isTick; now rewrite K).
      destruct (T t Ht Kt) as [A L].
      apply wf_tick; trivial.
      * intros t' H'. apply B. now apply C2.
      * intros t' H'. destruct (isTick t') eqn:K'; trivial. exfalso.
        destruct (T t' (C2 t' H') K') as [A' _].
        apply (C1 t' H'). congruence.
    + assert (W1 : timers_wf (Voice.clearTimeout id w)).
      { unfold timers_wf.
        split; [intros t' H'; apply B; now apply C2|]. split; [exact C3|].
        intros t' H' K'. apply (T t' (C2 t' H') K'). }
      unfold Voice.restart.
      destruct (Voice.isTranscribing _); [|exact W1].
      destruct (Voice.recognition _); [|exact W1].
      destruct (Voice.start_outcome env); exact W1.
Qed.

Lemma reachable_wf w : Voice.reachable w -> timers_wf w.
Proof. induction 1; [apply wf_boot | now apply wf_step]. Qed.

Lemma same_id_at_most_one (p : list Voice.Timer) (i : positive) :
  NoDup (map Voice.timer_id p) ->
  (forall t, In t p -> isTick t = true -> Voice.timer_id t = i) ->
  (length (ticks p) <= 1)%nat.
Proof.
  induction p as [|t p IH]; intros U S; [cbn; lia|].
  inversion U as [|? ? Hn U']; subst.
  unfold ticks in *. cbn [filter].
  destruct (isTick t) eqn:K.
  - assert (E : filter isTick p = []).
    { destruct (filter isTick p) as [|t' q] eqn:F; trivial. exfalso.
      assert (Ht' : In t' (filter isTick p)) by (rewrite F; now left).
      apply filter_In in Ht'. destruct Ht' as [I' K'].
      apply Hn. apply in_map_iff. exists t'. split; trivial.
      rewrite (S t' (or_intror I') K'), (S t (or_introl eq_refl) K). reflexivity. }
    rewrite E. cbn. lia.
  - apply IH; trivial. intros t' H'. apply S. now right.
Qed.

(** X6. In every state the service can reach, the handles of the pending
    timers are distinct, at most one analysis tick is pending, and none is
    pending while the service is not listening: ticks never overlap, and
    [stopListening] leaves none behind. *)
Theorem ticks_never_overlap (w : Voice.World) :
  Voice.reachable w ->
  NoDup (map Voice.timer_id (Voice.pending w))
  /\ (length (ticks (Voice.pending w)) <= 1)%nat
  /\ (Voice.isListening (Voice.this w) = false -> ticks (Voice.pending w) = []).
Proof.
  intros R. pose proof (reachable_wf w R) as W. pose proof W as (B & U & T).
  split; [exact U|]. split.
  - destruct (Voice.analysisInterval (Voice.this w)) as [i|] eqn:A.
    + apply (same_id_at_most_one _ i U). intros t H K.
      destruct (T t H K) as [E _]. congruence.
    + apply (same_id_at_most_one _ 1%positive U). intros t H K.
      destruct (T t H K) as [E _]. congruence.
  - intros L. unfold ticks.
    destruct (filter isTick (Voice.pending w)) as [|t q] eqn:F; trivial. exfalso.
    assert (Ht : In t (filter isTick (Voice.pending w))) by (rewrite F; now left).
    apply filter_In in Ht. destruct Ht as [I K].
    rewrite (wf_no_ticks_when_idle w W L t I) in K. discriminate.
Qed.

Lemma sample_speaking_reachable : Voice.reachable Sample.speaking.
Proof.
  unfold Sample.speaking, Sample.listening.
  repeat apply Voice.reachable_step. apply Voice.reachable_boot.
Qed.

(** X6 on the sample service after a tick on a loud frame. *)
Lemma ticks_never_overlap_witness :
  Voice.reachable Sample.speaking
  /\ NoDup (map Voice.timer_id (Voice.pending Sample.speaking))
  /\ (length (ticks (Voice.pending Sample.speaking)) <= 1)%nat.
Proof.
  destruct (ticks_never_overlap Sample.speaking sample_speaking_reachable)
    as (A & B & _).
  split; [exact sample_speaking_reachable|]. split; [exact A | exact B].
Defined.

(** *** What the service emits *)

Lemma emitted_app t u : Voice.emitted (t ++ u) = Voice.emitted t ++ Voice.emitted u.
Proof. unfold Voice.emitted. apply flat_map_app. Qed.

Ltac quiet_trace :=
  repeat match goal with
         | |- context [match ?b with _ => _ end] => destruct b
         end;
  cbn [Voice.trace Voice.say Voice.assign Voice.setTimeout Voice.clearTimeout snd];
  rewrite ?emitted_app; cbn [Voice.emitted flat_map app]; rewrite ?app_nil_r;
  reflexivity.

Lemma tick_emits env w :
  exists l, Voice.emitted (Voice.trace (Voice.runAnalysisLoop env w))
            = Voice.emitted (Voice.trace w) ++ l
            /\ Forall classified l.
Proof.
  unfold Voice.runAnalysisLoop.
  destruct (negb (Voice.isListening (Voice.this w)) || _).
  { exists []. rewrite app_nil_r. split; [reflexivity | constructor]. }
  destruct (energy (Voice.analyzeAudio (Voice.this w) (Voice.frame env)) >? 1#10) eqn:G.
  - destruct (Voice.onVoiceEmotionCallback (Voice.this w)).
    + eexists. split.
      * cbn [Voice.trace Voice.say Voice.assign Voice.setTimeout snd].
        rewrite emitted_app. reflexivity.
      * cbn [Voice.emitted flat_map app]. constructor; [|constructor].
        unfold classified.
        cbn [metrics emotion confidence Voice.with_variations energy].
        split; [exact G|]. split; reflexivity.
    + exists []. rewrite app_nil_r. split; [reflexivity | constructor].
  - exists []. rewrite app_nil_r. split; [reflexivity | constructor].
Qed.

Lemma step_emits c env w :
  exists l, Voice.emitted (Voice.trace (Voice.step c env w))
            = Voice.emitted (Voice.trace w) ++ l
            /\ Forall classified l.
Proof.
  destruct c; cbn [Voice.step];
    try (exists []; rewrite app_nil_r; split; [|constructor];
         unfold Voice.initialize, Voice.setLanguage, Voice.onVoiceEmotion,
           Voice.onTranscription, Voice.startTranscription, Voice.stopListening,
           Voice.stopTranscription, Voice.dispose, Voice.onresult, Voice.onend,
           Voice.stopTranscription, Voice.stopListening;
         cbn [Voice.this Voice.assign Voice.say Voice.set_isListening
              Voice.set_isTranscribing Voice.analysisInterval Voice.recognition
              Voice.isTranscribing Voice.isListening Voice.onTranscriptionCallback
              Voice.clearTimeout Voice.set_analysisInterval];
         quiet_trace).
  - unfold Voice.startListening.
    destruct (Voice.isListening (Voice.this w)).
    { exists []. rewrite app_nil_r. split; [reflexivity | constructor]. }
    destruct (tick_emits env (Voice.assign (Voice.set_histories [] [])
                                (Voice.assign (Voice.set_isListening true) w)))
      as (l & E & F).
    exists l. split; [|exact F].
    cbn [Voice.trace Voice.say]. rewrite emitted_app, E. cbn. now rewrite app_nil_r.
  - unfold Voice.fire. destruct (find _ _) as [t|].
    2:{ exists []. rewrite app_nil_r. split; [reflexivity | constructor]. }
    destruct (Voice.task t); cbn [Voice.run].
    + apply (tick_emits env (Voice.clearTimeout id w)).
    + exists []. rewrite app_nil_r. split; [|constructor].
      unfold Voice.restart. cbn [Voice.this Voice.clearTimeout]. quiet_trace.
Qed.

(** X7. Every estimate the service has ever handed to its callback came
    from a tick whose energy was above 0.1, and its label and confidence
    are the classifier's answer on the very metrics it carries. *)
Theorem emitted_estimates_are_classified (w : Voice.World) :
  Voice.reachable w -> Forall classified (Voice.emitted (Voice.trace w)).
Proof.
  induction 1 as [c|c env w R IH]; [constructor|].
  destruct (step_emits c env w) as (l & E & F). rewrite E.
  apply Forall_app. now split.
Qed.

(** X7 on the sample service after a tick on a loud frame, which emitted
    one estimate. *)
Lemma emitted_estimates_are_classified_witness :
  Voice.reachable Sample.speaking
  /\ length (Voice.emitted (Voice.trace Sample.speaking)) = 1%nat
  /\ Forall classified (Voice.emitted (Voice.trace Sample.speaking)).
Proof.
  split; [exact sample_speaking_reachable|].
  split; [vm_compute; reflexivity|].
  exact (emitted_estimates_are_classified Sample.speaking sample_speaking_reachable).
Defined.

(** *** Transcription and disposal *)

Lemma starts_say e w :
  Voice.starts (Voice.trace (Voice.say e w))
  = Voice.starts (Voice.trace w)
      ++ match e with Voice.RecognitionStart o => [o] | _ => [] end.
Proof. cbn [Voice.say Voice.trace]. rewrite starts_app. cbn. now rewrite app_nil_r. Qed.

(** X8. [startTranscription] never throws and schedules nothing.  It calls
    [recognition.start()] at most once, and only when the service is not
    yet transcribing and holds a recognition object; afterwards the flag is
    set exactly if it was set before or that call succeeded. *)
Theorem startTranscription_guards (env : Voice.Env) (w : Voice.World) :
  let r := Voice.startTranscription env w in
  let idle := negb (Voice.isTranscribing (Voice.this w)) in
  let equipped := match Voice.recognition (Voice.this w) with
                  | Some _ => true | None => false end in
  fst r = Voice.Returned
  /\ Voice.pending (snd r) = Voice.pending w
  /\ Voice.starts (Voice.trace (snd r))
     = Voice.starts (Voice.trace w)
         ++ (if idle && equipped then [Voice.start_outcome env] else [])
  /\ Voice.isTranscribing (Voice.this (snd r))
     = (Voice.isTranscribing (Voice.this w)
        || equipped && match Voice.start_outcome env with
                       | None => true | Some _ => false end).
Proof.
  intros r idle equipped. subst r idle equipped. unfold Voice.startTranscription.
  destruct (Voice.isTranscribing (Voice.this w)) eqn:T; cbn [negb andb orb fst snd].
  - rewrite starts_say, app_nil_r. cbn. rewrite T. now repeat split.
  - destruct (Voice.recognition (Voice.this w)) eqn:R; cbn [andb fst snd].
    + destruct (Voice.start_outcome env) eqn:S; cbn [fst snd];
        repeat split; trivial;
        cbn [Voice.assign Voice.say Voice.trace]; rewrite !starts_app; cbn;
        now rewrite ?app_nil_r.
    + rewrite starts_say, app_nil_r. cbn. rewrite T. now repeat split.
Qed.

(** X9. [stopTranscription] clears the flag whatever [recognition.stop()]
    does, and calls it exactly when a recognition object exists.  From then
    on recognition is not restarted behind the caller's back: an "ended"
    event schedules no timer, and a restart timer scheduled earlier calls
    [start] on nothing when it runs. *)
Theorem stopTranscription_defuses_restart
    (env env' : Voice.Env) (w : Voice.World) :
  let w1 := Voice.stopTranscription env w in
  Voice.isTranscribing (Voice.this w1) = false
  /\ Voice.trace w1
     = Voice.trace w
         ++ (match Voice.recognition (Voice.this w) with
             | Some _ => [Voice.RecognitionStop (Voice.stop_outcome env)]
             | None => [] end)
         ++ [Voice.Console Voice.log Voice.MsgStoppedTranscription]
  /\ Voice.pending (Voice.onend w1) = Voice.pending w
  /\ Voice.starts (Voice.trace (Voice.onend w1)) = Voice.starts (Voice.trace w)
  /\ Voice.run Voice.RestartRecognition env' w1 = w1.
Proof.
  intros w1. subst w1. unfold Voice.stopTranscription.
  cbn [Voice.assign Voice.this Voice.set_isTranscribing Voice.recognition].
  destruct (Voice.recognition (Voice.this w));
    (split; [reflexivity|]);
    (split; [cbn [Voice.say Voice.trace]; now rewrite <- ?app_assoc|]);
    (split; [reflexivity|]);
    (split; [|reflexivity]);
    unfold Voice.onend;
    cbn [Voice.say Voice.trace Voice.this Voice.assign
         Voice.set_isTranscribing Voice.isTranscribing andb];
    unfold Voice.starts; rewrite !flat_map_app; cbn; now rewrite !app_nil_r.
Qed.

Lemma dispose_fields (env : Voice.Env) (w : Voice.World) :
  Voice.isListening (Voice.this (Voice.dispose env w)) = false
  /\ Voice.isTranscribing (Voice.this (Voice.dispose env w)) = false
  /\ Voice.analyser (Voice.this (Voice.dispose env w)) = None
  /\ Voice.audioContext (Voice.this (Voice.dispose env w)) = None
  /\ Voice.recognition (Voice.this (Voice.dispose env w)) = None
  /\ Voice.analysisInterval (Voice.this (Voice.dispose env w)) = None.
Proof.
  destruct w as [s p f t]. destruct s.
  unfold Voice.dispose, Voice.stopTranscription, Voice.stopListening. cbn.
  destruct analysisInterval; cbn; destruct recognition; cbn; now repeat split.
Qed.

(** X10. After [dispose] the service is neither listening nor transcribing
    and holds no audio graph and no recognition object; whatever timer
    fires afterwards, and whatever "ended" event arrives, nothing is
    emitted, nothing is started and no field changes; and a second
    [dispose] changes no field and no timer. *)
Theorem dispose_is_final (env env' : Voice.Env) (w : Voice.World) :
  let w1 := Voice.dispose env w in
  Voice.isListening (Voice.this w1) = false
  /\ Voice.isTranscribing (Voice.this w1) = false
  /\ Voice.analyser (Voice.this w1) = None
  /\ Voice.audioContext (Voice.this w1) = None
  /\ Voice.recognition (Voice.this w1) = None
  /\ Voice.analysisInterval (Voice.this w1) = None
  /\ (forall id,
        let w2 := Voice.fire id env' w1 in
        Voice.this w2 = Voice.this w1 /\ Voice.trace w2 = Voice.trace w1)
  /\ Voice.pending (Voice.onend w1) = Voice.pending w1
  /\ Voice.this (Voice.dispose env' w1) = Voice.this w1
  /\ Voice.pending (Voice.dispose env' w1) = Voice.pending w1.
Proof.
  intros w1.
  pose proof (dispose_fields env w) as F. fold w1 in F.
  destruct F as (L & T & A & C & R & I).
  repeat split; trivial.
  - unfold Voice.fire. destruct (find _ _) as [t|]; [|reflexivity].
    destruct (Voice.task t); cbn [Voice.run].
    + unfold Voice.runAnalysisLoop.
      cbn [Voice.clearTimeout Voice.this]. now rewrite L.
    + unfold Voice.restart. cbn [Voice.clearTimeout Voice.this]. now rewrite T.
  - unfold Voice.fire. destruct (find _ _) as [t|]; [|reflexivity].
    destruct (Voice.task t); cbn [Voice.run].
    + unfold Voice.runAnalysisLoop.
      cbn [Voice.clearTimeout Voice.this]. now rewrite L.
    + unfold Voice.restart. cbn [Voice.clearTimeout Voice.this]. now rewrite T.
  - unfold Voice.onend. cbn [Voice.say Voice.this]. now rewrite T.
  - subst w1. destruct w as [s p f t]. destruct s.
    unfold Voice.dispose, Voice.stopTranscription, Voice.stopListening. cbn.
    destruct analysisInterval; cbn; destruct recognition; reflexivity.
  - subst w1. destruct w as [s p f t]. destruct s.
    unfold Voice.dispose, Voice.stopTranscription, Voice.stopListening. cbn.
    destruct analysisInterval; cbn; destruct recognition; reflexivity.
Qed.

(** *** The face service *)

(** X11. [mapToPrimaryEmotion] always answers one of the four primary
    emotions, leaves a primary emotion as it is, and is idempotent; the
    primary emotions are happy, sad, angry and fearful. *)
Theorem primary_mapping (e : Emotion) :
  In (mapToPrimaryEmotion e) PRIMARY_EMOTIONS
  /\ (In e PRIMARY_EMOTIONS -> mapToPrimaryEmotion e = e)
  /\ mapToPrimaryEmotion (mapToPrimaryEmotion e) = mapToPrimaryEmotion e
  /\ In (mapToPrimaryEmotion e) [happy; sad; angry; fearful]
  /\ (In e [happy; sad; angry; fearful] -> mapToPrimaryEmotion e = e).
Proof.
  destruct e; cbn; repeat split; try tauto;
    intros H; repeat (destruct H as [H|H]; try discriminate); tauto.
Qed.

(** X12. When none of the seven expression scores is NaN,
    [processExpressions] reports as dominant the first emotion, in the
    order happy, sad, angry, fearful, neutral, surprised, disgusted, whose
    score is maximal, with that score as confidence; when no score is above
    0 it reports neutral with confidence 0. *)
Theorem expressions_first_maximum (x : Face.Expressions) (now : Z) :
  Forall (fun s => is_nan s = false)
         [Face.x_happy x; Face.x_sad x; Face.x_angry x; Face.x_fearful x;
          Face.x_neutral x; Face.x_surprised x; Face.x_disgusted x] ->
  let scores :=
    [(happy, Face.x_happy x); (sad, Face.x_sad x); (angry, Face.x_angry x);
     (fearful, Face.x_fearful x); (neutral, Face.x_neutral x);
     (surprised, Face.x_surprised x); (disgusted, Face.x_disgusted x)] in
  let r := Face.processExpressions x now in
  (dominant r = neutral /\ f_confidence r = zero
   /\ Forall (fun e => (snd e <=? zero) = true) scores)
  \/ (exists l1 l2,
        scores = l1 ++ (dominant r, f_confidence r) :: l2
        /\ (zero <? f_confidence r) = true
        /\ Forall (fun e => (snd e <? f_confidence r) = true) l1
        /\ Forall (fun e => (snd e <=? f_confidence r) = true) l2).
Proof.
  intros N scores r.
  assert (N' : Forall (fun e : Emotion * number => is_nan (snd e) = false) scores).
  { rewrite Forall_forall in N. apply Forall_forall. intros e He.
    apply N. unfold scores in He. cbn [In] in *.
    repeat (destruct He as [<-|He]; [cbn [snd]; tauto|]). contradiction. }
  subst r. unfold Face.processExpressions.
  cbn [all dominant f_confidence].
  change [(happy, Face.x_happy x); (sad, Face.x_sad x); (angry, Face.x_angry x);
          (fearful, Face.x_fearful x); (neutral, Face.x_neutral x);
          (surprised, Face.x_surprised x); (disgusted, Face.x_disgusted x)]
    with scores.
  change Face.scan with (@pick Emotion).
  destruct (pick_first_maximum _ scores zero neutral N' eq_refl)
    as [[E A]|(l1 & k & s & l2 & E & F & L & A1 & A2)].
  - left. rewrite E. now repeat split.
  - right. rewrite F. cbn [fst snd]. exists l1, l2. now repeat split.
Qed.

(** X12 on the expressions of a smiling face. *)
Lemma expressions_first_maximum_witness :
  Forall (fun s => is_nan s = false)
         [Face.x_happy Sample.smile; Face.x_sad Sample.smile;
          Face.x_angry Sample.smile; Face.x_fearful Sample.smile;
          Face.x_neutral Sample.smile; Face.x_surprised Sample.smile;
          Face.x_disgusted Sample.smile]
  /\ dominant (Face.processExpressions Sample.smile 0) = happy
  /\ f_confidence (Face.processExpressions Sample.smile 0) = 9#10
  /\ ((dominant (Face.processExpressions Sample.smile 0) = neutral
       /\ f_confidence (Face.processExpressions Sample.smile 0) = zero
       /\ Forall (fun e => (snd e <=? zero) = true)
            [(happy, Face.x_happy Sample.smile); (sad, Face.x_sad Sample.smile);
             (angry, Face.x_angry Sample.smile);
             (fearful, Face.x_fearful Sample.smile);
             (neutral, Face.x_neutral Sample.smile);
             (surprised, Face.x_surprised Sample.smile);
             (disgusted, Face.x_disgusted Sample.smile)])
      \/ (exists l1 l2,
            [(happy, Face.x_happy Sample.smile); (sad, Face.x_sad Sample.smile);
             (angry, Face.x_angry Sample.smile);
             (fearful, Face.x_fearful Sample.smile);
             (neutral, Face.x_neutral Sample.smile);
             (surprised, Face.x_surprised Sample.smile);
             (disgusted, Face.x_disgusted Sample.smile)]
            = l1 ++ (dominant (Face.processExpressions Sample.smile 0),
                     f_confidence (Face.processExpressions Sample.smile 0)) :: l2
            /\ (zero <? f_confidence (Face.processExpressions Sample.smile 0)) = true
            /\ Forall (fun e => (snd e <? f_confidence
                                   (Face.processExpressions Sample.smile 0)) = true) l1
            /\ Forall (fun e => (snd e <=? f_confidence
                                    (Face.processExpressions Sample.smile 0)) = true) l2)).
Proof.
  assert (N : Forall (fun s => is_nan s = false)
                [Face.x_happy Sample.smile; Face.x_sad Sample.smile;
                 Face.x_angry Sample.smile; Face.x_fearful Sample.smile;
                 Face.x_neutral Sample.smile; Face.x_surprised Sample.smile;
                 Face.x_disgusted Sample.smile])
    by (repeat (constructor; [vm_compute; reflexivity|]); constructor).
  split; [exact N|].
  split; [vm_compute; reflexivity|].
  split; [vm_compute; reflexivity|].
  exact (expressions_first_maximum Sample.smile 0 N).
Defined.

Lemma emissions_app t u : emissions (t ++ u) = emissions t ++ emissions u.
Proof. unfold emissions. apply flat_map_app. Qed.

(** X13. When a detection settles, the face service hands at most one
    estimate to the callback, and only one whose confidence reaches the
    configured minimum; a detection without a face hands over none, and a
    failed one is only logged.  In every case exactly one timer for the next
    detection is scheduled, whether or not detection has been stopped in
    the meantime. *)
Theorem detection_result_handling (d : Face.Detection) (now : Z) (w : Face.World) :
  let w' := Face.resumeDetectionLoop d now w in
  Face.pending w' = Face.pending w ++ [Face.fresh w]
  /\ Face.detectionInterval (Face.this w') = Some (Face.fresh w)
  /\ Face.isDetecting (Face.this w') = Face.isDetecting (Face.this w)
  /\ emissions (Face.trace w')
     = emissions (Face.trace w)
         ++ match d with
            | Face.Face x =>
                if (f_confidence (Face.processExpressions x now)
                      >=? Face.cfg_minConfidence (Face.this w))
                   && Face.onEmotionCallback (Face.this w)
                then [Face.processExpressions x now] else []
            | _ => []
            end
  /\ (forall r, In r (emissions (Face.trace w')) ->
        In r (emissions (Face.trace w))
        \/ (f_confidence r >=? Face.cfg_minConfidence (Face.this w)) = true).
Proof.
  intros w'. subst w'. unfold Face.resumeDetectionLoop.
  assert (E : forall w1 : Face.World,
             Face.pending
               (Face.assign (Face.set_detectionInterval (Some (Face.fresh w1)))
                  {| Face.this := Face.this w1;
                     Face.pending := Face.pending w1 ++ [Face.fresh w1];
                     Face.fresh := Pos.succ (Face.fresh w1);
                     Face.trace := Face.trace w1 |})
             = Face.pending w1 ++ [Face.fresh w1]) by reflexivity.
  destruct d as [x| |].
  - destruct ((f_confidence (Face.processExpressions x now)
                 >=? Face.cfg_minConfidence (Face.this w))
              && Face.onEmotionCallback (Face.this w)) eqn:G.
    + repeat split.
      * cbn [Face.trace Face.assign Face.say]. rewrite emissions_app. reflexivity.
      * cbn [Face.trace Face.assign Face.say]. rewrite emissions_app.
        intros r H. apply in_app_or in H. destruct H as [H|[<-|[]]]; [now left|].
        right. apply andb_prop in G. tauto.
    + repeat split.
      * cbn [Face.trace Face.assign]. now rewrite app_nil_r.
      * intros r H. now left.
  - repeat split.
    + cbn [Face.trace Face.assign]. now rewrite app_nil_r.
    + intros r H. now left.
  - repeat split.
    + cbn [Face.trace Face.assign Face.say]. rewrite emissions_app. reflexivity.
    + cbn [Face.trace Face.assign Face.say]. rewrite emissions_app.
      cbn. rewrite app_nil_r. intros r H. now left.
Qed.

(** *** Starting and stopping face detection *)

Lemma requests_snoc t e :
  requests (t ++ [e]) = (requests t + if isRequest e then 1 else 0)%nat.
Proof.
  unfold requests. rewrite filter_app, length_app. cbn [filter].
  destruct (isRequest e); reflexivity.
Qed.

(** X14. [startDetection] returns normally exactly when the models are
    loaded, or load now, and a video element is set; otherwise it throws
    and starts nothing.  When it returns, the service is detecting, and it
    has asked for a detection exactly when it was not detecting before: a
    second start opens no second loop. *)
Theorem startDetection_outcomes (modelsLoad : bool) (w : Face.World) :
  let r := Face.startDetection modelsLoad w in
  let ready := (Face.isInitialized (Face.this w) || modelsLoad)
               && Face.videoElement (Face.this w) in
  fst r = (if ready then Face.Returned else Face.Threw)
  /\ Face.isDetecting (Face.this (snd r))
     = (Face.isDetecting (Face.this w) || ready)
  /\ requests (Face.trace (snd r))
     = (requests (Face.trace w)
        + if ready && negb (Face.isDetecting (Face.this w)) then 1 else 0)%nat
  /\ Face.pending (snd r) = Face.pending w.
Proof.
  destruct w as [s p f t]. destruct s.
  unfold Face.startDetection, Face.initialize, Face.runDetectionLoop.
  cbn [Face.this Face.isInitialized Face.videoElement Face.isDetecting].
  destruct isInitialized, modelsLoad, videoElement, isDetecting; cbn -[requests];
    rewrite ?requests_snoc; cbn -[requests]; rewrite ?Nat.add_0_r;
    repeat split; reflexivity.
Qed.

(** X15. [stopDetection] clears the flag and cancels the timer the service
    holds, so that a loop that runs afterwards asks for nothing.  After
    [dispose] a detection still in flight hands nothing to the callback
    when it settles, and the service cannot be started again until a video
    element is set: [startDetection] throws. *)
Theorem stopped_face_service_is_quiet
    (d : Face.Detection) (now : Z) (modelsLoad : bool) (w : Face.World) :
  let w1 := Face.stopDetection w in
  Face.isDetecting (Face.this w1) = false
  /\ Face.detectionInterval (Face.this w1) = None
  /\ (forall id, Face.detectionInterval (Face.this w) = Some id ->
        ~ In id (Face.pending w1))
  /\ Face.runDetectionLoop w1 = w1
  /\ emissions (Face.trace (Face.resumeDetectionLoop d now (Face.dispose w)))
     = emissions (Face.trace w)
  /\ fst (Face.startDetection modelsLoad (Face.dispose w)) = Face.Threw
  /\ Face.isDetecting
       (Face.this (snd (Face.startDetection modelsLoad (Face.dispose w)))) = false.
Proof.
  destruct w as [s p f t]. destruct s.
  unfold Face.dispose, Face.stopDetection, Face.startDetection, Face.initialize,
    Face.resumeDetectionLoop, Face.runDetectionLoop.
  cbn [Face.this Face.isInitialized Face.videoElement Face.isDetecting
       Face.detectionInterval Face.assign Face.set_isDetecting].
  split; [destruct detectionInterval; reflexivity|].
  split; [destruct detectionInterval; reflexivity|].
  split.
  { intros id E. rewrite E. cbn. intros I. apply filter_In in I.
    destruct I as [_ I]. now rewrite Pos.eqb_refl in I. }
  split; [destruct detectionInterval; reflexivity|].
  split.
  { destruct detectionInterval, d; cbn; rewrite ?andb_false_r; cbn;
      unfold emissions; rewrite ?flat_map_app; cbn; now rewrite ?app_nil_r. }
  destruct detectionInterval, isInitialized, modelsLoad; cbn; split; reflexivity.
Qed.

(** *** The hook *)

(** X16. [combineEmotions] answers null exactly when both estimates are
    missing.  With one estimate missing it passes the other through, label
    and confidence unchanged; and whatever the confidences are, the label
    it answers is the label of one of the estimates it was given. *)
Theorem fusion_presence_and_label
    (f : option EmotionResult) (v : option VoiceEmotionResult) :
  (Hook.combineEmotions f v = None <-> f = None /\ v = None)
  /\ (forall x, f = Some x -> v = None ->
        Hook.combineEmotions f v
        = Some {| Hook.c_emotion := dominant x; Hook.c_confidence := f_confidence x |})
  /\ (forall x, f = None -> v = Some x ->
        Hook.combineEmotions f v
        = Some {| Hook.c_emotion := label_of (emotion x);
                  Hook.c_confidence := confidence x |})
  /\ (forall r, Hook.combineEmotions f v = Some r ->
        (exists x, f = Some x /\ Hook.c_emotion r = dominant x)
        \/ (exists x, v = Some x /\ Hook.c_emotion r = label_of (emotion x))).
Proof.
  split; [|split; [|split]].
  - destruct f as [x|], v as [z|]; unfold Hook.combineEmotions;
      try destruct (Emotion_eqb _ _); try destruct (_ >=? _);
      split; try discriminate; try tauto; intros [? ?]; discriminate.
  - intros x -> ->. reflexivity.
  - intros x -> ->. reflexivity.
  - intros r. destruct f as [x|], v as [z|]; unfold Hook.combineEmotions;
      try destruct (Emotion_eqb _ _); try destruct (_ >=? _);
      intros [= <-]; cbn; eauto.
Qed.

Lemma observe_state o y e :
  Hook.emotionState (Hook.hook (observe o y e))
  = match e with
    | FromFace r =>
        {| Hook.facial := Some r;
           Hook.voice := Hook.voice (Hook.emotionState (Hook.hook y));
           Hook.combined :=
             Hook.combineEmotions (Some r)
               (Hook.voice (Hook.emotionState (Hook.hook y))) |}
    | FromVoice r =>
        {| Hook.facial := Hook.facial (Hook.emotionState (Hook.hook y));
           Hook.voice := Some r;
           Hook.combined :=
             Hook.combineEmotions
               (Hook.facial (Hook.emotionState (Hook.hook y))) (Some r) |}
    end.
Proof.
  destruct e; cbn [observe]; unfold Hook.onFaceEmotion, Hook.onVoiceEmotion;
    destruct (Hook.onEmotionChange o); reflexivity.
Qed.

(** X17. The hook keeps only the latest estimate of each modality, and the
    fused estimate is always computed from the two it holds: after any
    sequence of facial and vocal estimates, [facial] is the last facial one,
    [voice] the last vocal one, and [combined] is [combineEmotions] of the
    two. *)
Theorem fused_from_latest (o : Hook.Options) (es : list Estimate) (y : Hook.System) :
  fused (Hook.emotionState (Hook.hook y)) ->
  let s := Hook.emotionState (Hook.hook (fold_left (observe o) es y)) in
  Hook.facial s = latestFace (Hook.facial (Hook.emotionState (Hook.hook y))) es
  /\ Hook.voice s = latestVoice (Hook.voice (Hook.emotionState (Hook.hook y))) es
  /\ fused s.
Proof.
  revert y. induction es as [|e es IH]; intros y F s; subst s.
  - cbn. now repeat split.
  - cbn [fold_left]. unfold latestFace, latestVoice. cbn [fold_left].
    assert (F' : fused (Hook.emotionState (Hook.hook (observe o y e))))
      by (rewrite observe_state; destruct e; reflexivity).
    destruct (IH (observe o y e) F') as (A & B & C).
    rewrite A, B, observe_state. destruct e; now repeat split.
Qed.

(** X17 on the mounted hook, at a happy face followed by a sad voice. *)
Lemma fused_from_latest_witness :
  fused (Hook.emotionState (Hook.hook Sample.idle))
  /\ Hook.facial (Hook.emotionState (Hook.hook
       (fold_left (observe Sample.options)
          [FromFace Sample.face_happy; FromVoice Sample.voice_sad] Sample.idle)))
     = Some Sample.face_happy
  /\ fused (Hook.emotionState (Hook.hook
       (fold_left (observe Sample.options)
          [FromFace Sample.face_happy; FromVoice Sample.voice_sad] Sample.idle))).
Proof.
  assert (F : fused (Hook.emotionState (Hook.hook Sample.idle)))
    by (vm_compute; reflexivity).
  destruct (fused_from_latest Sample.options
              [FromFace Sample.face_happy; FromVoice Sample.voice_sad]
              Sample.idle F) as (A & _ & C).
  split; [exact F|]. split; [exact A | exact C].
Defined.

(** X18. A message whose trimmed text is empty is not sent: the call
    changes nothing.  Otherwise the user message is appended at once and
    the request carries the trimmed text and at most ten history entries,
    the most recent messages the closure saw; when the chat function
    answers, the assistant message is appended after it, and when it fails
    the user message stays, the error is set and nothing else is appended.
    In both cases the processing flag, set while the call is pending, is
    cleared. *)
Theorem message_exchange
    (cl : Hook.Closure) (t : Str.jsstring) (env env' : Hook.Env)
    (reply : Hook.Reply) (y : Hook.System) :
  let y1 := Hook.sendMessage cl t env y in
  let y2 := Hook.sendMessage_settled reply env' y1 in
  if Str.truthy (Str.trim t) then
    exists m r,
      Hook.role m = Hook.user /\ Hook.content m = Str.trim t
      /\ Hook.messages (Hook.hook y1) = Hook.messages (Hook.hook y) ++ [m]
      /\ Hook.isProcessing (Hook.hook y1) = true
      /\ Hook.invoked y1 = Hook.invoked y ++ [r]
      /\ Hook.message r = Str.trim t
      /\ (length (Hook.conversationHistory r) <= 10)%nat
      /\ Hook.conversationHistory r
         = map (fun m => (Hook.role m, Hook.content m))
               (Hook.slice_last 10 (Hook.cl_messages cl))
      /\ Hook.isProcessing (Hook.hook y2) = false
      /\ Hook.invoked y2 = Hook.invoked y1
      /\ match reply with
         | Hook.Data response =>
             exists a, Hook.role a = Hook.assistant /\ Hook.content a = response
                       /\ Hook.emotionContext a = None
                       /\ Hook.messages (Hook.hook y2)
                          = Hook.messages (Hook.hook y) ++ [m; a]
                       /\ Hook.error (Hook.hook y2) = None
         | _ => Hook.messages (Hook.hook y2) = Hook.messages (Hook.hook y) ++ [m]
                /\ Hook.error (Hook.hook y2) <> None
         end
  else y1 = y.
Proof.
  intros y1 y2. destruct (Str.truthy (Str.trim t)) eqn:G.
  2:{ subst y1. now apply HookFacts.sendMessage_silent. }
  set (m := {| Hook.id := {| Hook.id_time := Voice.now (Hook.v_env env);
                             Hook.id_suffix := Hook.rand env |};
               Hook.role := Hook.user; Hook.content := Str.trim t;
               Hook.m_timestamp := Voice.now (Hook.v_env env);
               Hook.emotionContext :=
                 Some {| Hook.ctx_facial :=
                           Hook.facial (Hook.latestEmotionRef (Hook.hook y));
                         Hook.ctx_voice :=
                           Hook.voice (Hook.latestEmotionRef (Hook.hook y)) |} |}).
  set (r := {| Hook.message := Str.trim t;
               Hook.req_facial :=
                 option_map (fun f => (dominant f, f_confidence f))
                   (Hook.facial (Hook.latestEmotionRef (Hook.hook y)));
               Hook.req_voice :=
                 option_map (fun v => (emotion v, confidence v, metrics v))
                   (Hook.voice (Hook.latestEmotionRef (Hook.hook y)));
               Hook.conversationHistory :=
                 map (fun m => (Hook.role m, Hook.content m))
                   (Hook.slice_last 10 (Hook.cl_messages cl));
               Hook.req_provider := Hook.cl_provider cl;
               Hook.req_systemPrompt := Hook.cl_systemPrompt cl |}).
  assert (M1 : Hook.messages (Hook.hook y1) = Hook.messages (Hook.hook y) ++ [m])
    by (subst y1; unfold Hook.sendMessage; rewrite G; reflexivity).
  assert (P1 : Hook.isProcessing (Hook.hook y1) = true)
    by (subst y1; unfold Hook.sendMessage; rewrite G; reflexivity).
  assert (E1 : Hook.error (Hook.hook y1) = None)
    by (subst y1; unfold Hook.sendMessage; rewrite G; reflexivity).
  assert (I1 : Hook.invoked y1 = Hook.invoked y ++ [r]).
  { subst y1. unfold Hook.sendMessage. rewrite G. cbn [negb].
    now rewrite HookFacts.invoked_say, !HookFacts.invoked_update. }
  clearbody y1.
  exists m, r.
  split; [reflexivity|]. split; [reflexivity|]. split; [exact M1|].
  split; [exact P1|]. split; [exact I1|]. split; [reflexivity|].
  split.
  { cbn [Hook.conversationHistory r]. rewrite length_map. unfold Hook.slice_last.
    rewrite length_skipn. lia. }
  split; [reflexivity|].
  split; [subst y2; destruct reply as [?|?|[?|]]; reflexivity|].
  split; [subst y2; destruct reply as [?|?|[?|]]; reflexivity|].
  subst y2. destruct reply as [response|e|[e|]]; unfold Hook.sendMessage_settled;
    cbn [Hook.hook Hook.update Hook.messages Hook.error Hook.setMessages
         Hook.setError Hook.setIsProcessing]; rewrite ?M1, ?E1.
  - eexists. rewrite <- app_assoc. repeat split; reflexivity.
  - split; [reflexivity | discriminate].
  - split; [reflexivity | discriminate].
  - split; [reflexivity | discriminate].
Qed.

Ltac sys_cases :=
  repeat (cbn [Hook.hook Hook.faceService Hook.voiceService Hook.trace
               Hook.on_voice Hook.on_face Hook.update Hook.say
               Hook.isInitialized Hook.isListening Hook.isFaceDetectionActive
               Hook.isCameraActive Hook.isMicActive
               Hook.faceServiceRef Hook.voiceServiceRef
               Hook.setIsListening Hook.setIsFaceDetectionActive Hook.setError
               Hook.setIsInitialized Hook.setIsCameraActive Hook.setIsMicActive
               Hook.set_refs negb] in *;
          match goal with
          | |- context [if ?b then _ else _] => destruct b eqn:?
          end);
  cbn [Hook.hook Hook.faceService Hook.voiceService Hook.trace
       Hook.on_voice Hook.on_face Hook.update Hook.say
       Hook.isInitialized Hook.isListening Hook.isFaceDetectionActive
       Hook.isCameraActive Hook.isMicActive
       Hook.faceServiceRef Hook.voiceServiceRef
       Hook.setIsListening Hook.setIsFaceDetectionActive Hook.setError
       Hook.setIsInitialized Hook.setIsCameraActive Hook.setIsMicActive
       Hook.set_refs negb] in *.

(** X19. While the hook is not initialised and its refs are empty (before
    [initialize], and again after [dispose]), no run of the four controls
    starts anything: both services stay exactly as they are, both flags end
    false if they were false, and each start control only reports the
    error. *)
Theorem controls_before_initialize
    (cs : list (Hook.Control * Hook.Env)) (y : Hook.System) :
  Hook.isInitialized (Hook.hook y) = false ->
  Hook.faceServiceRef (Hook.hook y) = false ->
  Hook.voiceServiceRef (Hook.hook y) = false ->
  Hook.isListening (Hook.hook y) = false ->
  Hook.isFaceDetectionActive (Hook.hook y) = false ->
  let y' := Hook.controls cs y in
  Hook.faceService y' = Hook.faceService y
  /\ Hook.voiceService y' = Hook.voiceService y
  /\ Hook.isListening (Hook.hook y') = false
  /\ Hook.isFaceDetectionActive (Hook.hook y') = false
  /\ (forall env, Hook.error (Hook.hook (Hook.startListening env y'))
                  = Some Hook.NotInitialized
                  /\ Hook.error (Hook.hook (Hook.startFaceDetection env y'))
                     = Some Hook.NotInitialized).
Proof.
  revert y. induction cs as [|[c env] cs IH]; intros y I F V L D y'; subst y'.
  - unfold Hook.controls. cbn [fold_left]. repeat split; trivial;
      unfold Hook.startListening, Hook.startFaceDetection; rewrite I; reflexivity.
  - change (Hook.controls ((c, env) :: cs) y)
      with (Hook.controls cs (Hook.control c env y)).
    assert (S : Hook.isInitialized (Hook.hook (Hook.control c env y)) = false
                /\ Hook.faceServiceRef (Hook.hook (Hook.control c env y)) = false
                /\ Hook.voiceServiceRef (Hook.hook (Hook.control c env y)) = false
                /\ Hook.isListening (Hook.hook (Hook.control c env y)) = false
                /\ Hook.isFaceDetectionActive (Hook.hook (Hook.control c env y)) = false
                /\ Hook.faceService (Hook.control c env y) = Hook.faceService y
                /\ Hook.voiceService (Hook.control c env y) = Hook.voiceService y).
    { destruct c; cbn [Hook.control];
        unfold Hook.startListening, Hook.stopListening,
          Hook.startFaceDetection, Hook.stopFaceDetection;
        rewrite ?I, ?F, ?V; cbn [negb];
        cbn [Hook.hook Hook.update Hook.on_voice Hook.voiceServiceRef];
        rewrite ?F, ?V; sys_cases; repeat split; congruence. }
    destruct S as (I' & F' & V' & L' & D' & SF & SV).
    destruct (IH (Hook.control c env y) I' F' V' L' D') as (A & B & C & E & G).
    rewrite A, B, SF, SV.
    split; [reflexivity|]. split; [reflexivity|]. split; [exact C|].
    split; [exact E | exact G].
Qed.

(** X19 on the mounted hook, at a start of listening followed by a start
    of face detection. *)
Lemma controls_before_initialize_witness :
  Hook.isInitialized (Hook.hook Sample.idle) = false
  /\ Hook.voiceService
       (Hook.controls [(Hook.StartListening, Sample.host);
                       (Hook.StartFaceDetection, Sample.host)] Sample.idle)
     = Hook.voiceService Sample.idle
  /\ Hook.isListening (Hook.hook
       (Hook.controls [(Hook.StartListening, Sample.host);
                       (Hook.StartFaceDetection, Sample.host)] Sample.idle))
     = false.
Proof.
  destruct (controls_before_initialize
              [(Hook.StartListening, Sample.host);
               (Hook.StartFaceDetection, Sample.host)] Sample.idle
              eq_refl eq_refl eq_refl eq_refl eq_refl) as (_ & B & C & _).
  split; [reflexivity|]. split; [exact B | exact C].
Defined.

(** X20. After the hook's [dispose] every status flag is false and both refs
    are empty; a service the hook held is stopped (the voice service neither
    listening nor transcribing, the face service not detecting); and a
    second [dispose] leaves the hook's state and both services' fields as
    the first left them. *)
Theorem hook_dispose_is_idempotent (env env' : Hook.Env) (y : Hook.System) :
  let y1 := Hook.dispose env y in
  Hook.isListening (Hook.hook y1) = false
  /\ Hook.isFaceDetectionActive (Hook.hook y1) = false
  /\ Hook.isInitialized (Hook.hook y1) = false
  /\ Hook.isCameraActive (Hook.hook y1) = false
  /\ Hook.isMicActive (Hook.hook y1) = false
  /\ Hook.faceServiceRef (Hook.hook y1) = false
  /\ Hook.voiceServiceRef (Hook.hook y1) = false
  /\ (Hook.voiceServiceRef (Hook.hook y) = true ->
        Voice.isListening (Voice.this (Hook.voiceService y1)) = false
        /\ Voice.isTranscribing (Voice.this (Hook.voiceService y1)) = false)
  /\ (Hook.faceServiceRef (Hook.hook y) = true ->
        Face.isDetecting (Face.this (Hook.faceService y1)) = false)
  /\ Hook.hook (Hook.dispose env' y1) = Hook.hook y1
  /\ Hook.faceService (Hook.dispose env' y1) = Hook.faceService y1
  /\ Hook.voiceService (Hook.dispose env' y1) = Hook.voiceService y1.
Proof.
  intros y1.
  assert (H1 : Hook.isListening (Hook.hook y1) = false
               /\ Hook.isFaceDetectionActive (Hook.hook y1) = false
               /\ Hook.isInitialized (Hook.hook y1) = false
               /\ Hook.isCameraActive (Hook.hook y1) = false
               /\ Hook.isMicActive (Hook.hook y1) = false
               /\ Hook.faceServiceRef (Hook.hook y1) = false
               /\ Hook.voiceServiceRef (Hook.hook y1) = false).
  { subst y1. unfold Hook.dispose, Hook.stopFaceDetection, Hook.stopListening.
    sys_cases; repeat split; congruence. }
  destruct H1 as (A1 & A2 & A3 & A4 & A5 & A6 & A7).
  repeat split; trivial.
  - subst y1. unfold Hook.dispose, Hook.stopFaceDetection, Hook.stopListening.
    sys_cases; try congruence;
      match goal with
      | |- Voice.isListening (Voice.this (Voice.dispose ?e ?w)) = false =>
          exact (proj1 (dispose_fields e w))
      end.
  - subst y1. unfold Hook.dispose, Hook.stopFaceDetection, Hook.stopListening.
    sys_cases; try congruence;
      match goal with
      | |- Voice.isTranscribing (Voice.this (Voice.dispose ?e ?w)) = false =>
          exact (proj1 (proj2 (dispose_fields e w)))
      end.
  - subst y1. unfold Hook.dispose, Hook.stopFaceDetection, Hook.stopListening.
    sys_cases; try congruence; unfold Face.dispose, Face.stopDetection;
      cbn [Face.assign Face.this Face.set_isDetecting Face.detectionInterval];
      destruct (Face.detectionInterval _); reflexivity.
  - clearbody y1. destruct y1 as [h f v t]. destruct h. cbn in *. subst.
    reflexivity.
  - clearbody y1. destruct y1 as [h f v t]. destruct h. cbn in *. subst.
    reflexivity.
  - clearbody y1. destruct y1 as [h f v t]. destruct h. cbn in *. subst.
    reflexivity.
Qed.

(** X21. With the construction of the audio graph taken as not throwing,
    [initialize] succeeds exactly when the face models are loaded already
    or load now.  Then the hook is initialised with camera and
    microphone marked active, face detection is started (the face service
    is detecting and the flag is set) while listening is left as it was;
    otherwise the call throws, the error is set, nothing is marked
    initialised and the voice service is not touched. *)
Theorem initialize_outcomes (o : Hook.Options) (env : Hook.Env) (y : Hook.System) :
  let r := Hook.initialize o env y in
  if Face.isInitialized (Face.this (Hook.faceService y)) || Hook.modelsLoad env then
    fst r = Hook.Returned
    /\ Hook.isInitialized (Hook.hook (snd r)) = true
    /\ Hook.isCameraActive (Hook.hook (snd r)) = true
    /\ Hook.isMicActive (Hook.hook (snd r)) = true
    /\ Hook.isFaceDetectionActive (Hook.hook (snd r)) = true
    /\ Hook.error (Hook.hook (snd r)) = None
    /\ Face.isDetecting (Face.this (Hook.faceService (snd r))) = true
    /\ Hook.isListening (Hook.hook (snd r)) = Hook.isListening (Hook.hook y)
    /\ Voice.isListening (Voice.this (Hook.voiceService (snd r)))
       = Voice.isListening (Voice.this (Hook.voiceService y))
    /\ Voice.isTranscribing (Voice.this (Hook.voiceService (snd r)))
       = Voice.isTranscribing (Voice.this (Hook.voiceService y))
    /\ Voice.onVoiceEmotionCallback (Voice.this (Hook.voiceService (snd r))) = true
    /\ Voice.onTranscriptionCallback (Voice.this (Hook.voiceService (snd r))) = true
  else
    fst r = Hook.Threw
    /\ Hook.error (Hook.hook (snd r)) = Some Hook.ModelsUnavailable
    /\ Hook.isInitialized (Hook.hook (snd r)) = Hook.isInitialized (Hook.hook y)
    /\ Hook.isFaceDetectionActive (Hook.hook (snd r))
       = Hook.isFaceDetectionActive (Hook.hook y)
    /\ Hook.voiceService (snd r) = Hook.voiceService y.
Proof.
  intros r. subst r.
  destruct y as [h f v t]. destruct f as [fs fp ff ft]. destruct fs.
  unfold Hook.initialize, Face.initialize, Face.startDetection, Face.initialize,
    Face.setVideoElement, Face.onEmotion, Voice.initialize.
  cbn [Hook.update Hook.faceService Face.this Face.isInitialized orb].
  destruct isInitialized; cbn [orb].
  - destruct isDetecting, (Hook.speechSupported env); cbn; repeat split; reflexivity.
  - destruct (Hook.modelsLoad env).
    + destruct isDetecting, (Hook.speechSupported env); cbn; repeat split; reflexivity.
    + cbn. repeat split; reflexivity.
Qed.

(** *** Listening, from the hook down to the service *)

Lemma runAnalysisLoop_flags env w :
  Voice.isListening (Voice.this (Voice.runAnalysisLoop env w))
  = Voice.isListening (Voice.this w)
  /\ Voice.isTranscribing (Voice.this (Voice.runAnalysisLoop env w))
     = Voice.isTranscribing (Voice.this w)
  /\ Voice.recognition (Voice.this (Voice.runAnalysisLoop env w))
     = Voice.recognition (Voice.this w).
Proof.
  unfold Voice.runAnalysisLoop.
  destruct (negb (Voice.isListening (Voice.this w)) || negb _); [now repeat split|].
  destruct (energy _ >? 1#10).
  - destruct (Voice.onVoiceEmotionCallback (Voice.this w));
      VoiceFacts.voice_simpl; now repeat split.
  - VoiceFacts.voice_simpl. now repeat split.
Qed.

Lemma startListening_flags env w :
  Voice.isListening (Voice.this (Voice.startListening env w)) = true
  /\ Voice.isTranscribing (Voice.this (Voice.startListening env w))
     = Voice.isTranscribing (Voice.this w)
  /\ Voice.recognition (Voice.this (Voice.startListening env w))
     = Voice.recognition (Voice.this w).
Proof.
  unfold Voice.startListening.
  destruct (Voice.isListening (Voice.this w)) eqn:L; [now repeat split|].
  cbn [Voice.say Voice.this].
  destruct (runAnalysisLoop_flags env
              (Voice.assign (Voice.set_histories [] [])
                 (Voice.assign (Voice.set_isListening true) w))) as (A & B & C).
  rewrite A, B, C. VoiceFacts.voice_simpl. now repeat split.
Qed.

Lemma startTranscription_flags env w :
  Voice.isListening (Voice.this (snd (Voice.startTranscription env w)))
  = Voice.isListening (Voice.this w)
  /\ Voice.isTranscribing (Voice.this (snd (Voice.startTranscription env w)))
     = (Voice.isTranscribing (Voice.this w)
        || match Voice.recognition (Voice.this w) with
           | Some _ => true | None => false end
           && match Voice.start_outcome env with
              | None => true | Some _ => false end).
Proof.
  unfold Voice.startTranscription.
  destruct (Voice.isTranscribing (Voice.this w)) eqn:T; [now split|].
  destruct (Voice.recognition (Voice.this w)) eqn:R; [|now split; cbn; rewrite ?T].
  destruct (Voice.start_outcome env); VoiceFacts.voice_simpl; now split.
Qed.

Lemma stop_flags env w :
  Voice.isListening (Voice.this (Voice.stopTranscription env (Voice.stopListening w)))
  = false
  /\ Voice.isTranscribing
       (Voice.this (Voice.stopTranscription env (Voice.stopListening w))) = false.
Proof.
  unfold Voice.stopTranscription, Voice.stopListening. VoiceFacts.voice_simpl.
  destruct (Voice.analysisInterval (Voice.this w)); VoiceFacts.voice_simpl;
    destruct (Voice.recognition (Voice.this w)); VoiceFacts.voice_simpl;
    now split.
Qed.

(** X22. On an initialised hook that holds the voice service,
    [startListening] sets the hook's flag and starts the analysis loop
    whatever becomes of the transcription, which runs afterwards exactly if
    it ran before or the service holds a recognition object and
    [recognition.start()] did not throw.  A [stopListening] that follows
    clears the hook's flag and both flags of the service, and leaves no
    analysis tick pending. *)
Theorem listening_round_trip (env env' : Hook.Env) (y : Hook.System) :
  Hook.isInitialized (Hook.hook y) = true ->
  Hook.voiceServiceRef (Hook.hook y) = true ->
  Voice.reachable (Hook.voiceService y) ->
  let y1 := Hook.startListening env y in
  let y2 := Hook.stopListening env' y1 in
  Hook.isListening (Hook.hook y1) = true
  /\ Voice.isListening (Voice.this (Hook.voiceService y1)) = true
  /\ Voice.isTranscribing (Voice.this (Hook.voiceService y1))
     = (Voice.isTranscribing (Voice.this (Hook.voiceService y))
        || match Voice.recognition (Voice.this (Hook.voiceService y)) with
           | Some _ => true | None => false end
           && match Voice.start_outcome (Hook.v_env env) with
              | None => true | Some _ => false end)
  /\ Hook.isListening (Hook.hook y2) = false
  /\ Voice.isListening (Voice.this (Hook.voiceService y2)) = false
  /\ Voice.isTranscribing (Voice.this (Hook.voiceService y2)) = false
  /\ ticks (Voice.pending (Hook.voiceService y2)) = []
  /\ Hook.faceService y2 = Hook.faceService y.
Proof.
  intros I V R y1 y2.
  destruct y as [h fw vw tr]. cbn [Hook.hook Hook.voiceService Hook.faceService] in *.
  assert (E1 : y1 = Hook.update (Hook.setIsListening true)
                  {| Hook.hook := h; Hook.faceService := fw;
                     Hook.voiceService :=
                       snd (Voice.startTranscription (Hook.v_env env)
                              (Voice.startListening (Hook.v_env env) vw));
                     Hook.trace := tr |}).
  { subst y1. unfold Hook.startListening. cbn [Hook.hook]. rewrite I. cbn [negb].
    rewrite V. unfold Hook.on_voice. cbn [Hook.hook Hook.voiceService Hook.faceService Hook.trace].
    rewrite V. reflexivity. }
  set (v1 := snd (Voice.startTranscription (Hook.v_env env)
                    (Voice.startListening (Hook.v_env env) vw))) in *.
  assert (V1 : Hook.voiceServiceRef (Hook.hook y1) = true)
    by (rewrite E1; destruct h; cbn in *; exact V).
  assert (E2 : Hook.voiceService y2
               = Voice.stopTranscription (Hook.v_env env') (Voice.stopListening v1)
               /\ Hook.isListening (Hook.hook y2) = false
               /\ Hook.faceService y2 = fw).
  { subst y2. unfold Hook.stopListening. rewrite V1.
    unfold Hook.on_voice. cbn [Hook.hook Hook.voiceService Hook.faceService Hook.trace].
    rewrite V1. rewrite E1. destruct h; cbn. repeat split. }
  destruct E2 as (E2 & L2 & F2).
  destruct (startListening_flags (Hook.v_env env) vw) as (A1 & A2 & A3).
  destruct (startTranscription_flags (Hook.v_env env)
              (Voice.startListening (Hook.v_env env) vw)) as (B1 & B2).
  fold v1 in B1, B2.
  destruct (stop_flags (Hook.v_env env') v1) as (C1 & C2).
  assert (R2 : Voice.reachable (Hook.voiceService y2)).
  { rewrite E2.
    apply (Voice.reachable_step Voice.CallStopTranscription (Hook.v_env env')).
    apply (Voice.reachable_step Voice.CallStopListening (Hook.v_env env')).
    apply (Voice.reachable_step Voice.CallStartTranscription (Hook.v_env env)).
    apply (Voice.reachable_step Voice.CallStartListening (Hook.v_env env)).
    exact R. }
  split; [rewrite E1; destruct h; reflexivity|].
  split; [rewrite E1; cbn; rewrite B1; exact A1|].
  split; [rewrite E1; cbn; rewrite B2, A2, A3; reflexivity|].
  split; [exact L2|].
  split; [rewrite E2; exact C1|].
  split; [rewrite E2; exact C2|].
  split; [|exact F2].
  pose proof (reachable_wf _ R2) as W.
  assert (L : Voice.isListening (Voice.this (Hook.voiceService y2)) = false)
    by (rewrite E2; exact C1).
  unfold ticks.
  destruct (filter isTick (Voice.pending (Hook.voiceService y2))) as [|t q] eqn:F;
    trivial. exfalso.
  assert (Ht : In t (filter isTick (Voice.pending (Hook.voiceService y2))))
    by (rewrite F; now left).
  apply filter_In in Ht. destruct Ht as [J K].
  rewrite (wf_no_ticks_when_idle _ W L t J) in K. discriminate.
Qed.

Lemma sample_initialised_voice_reachable :
  Voice.reachable (Hook.voiceService Sample.initialised).
Proof.
  change (Voice.reachable
            (Voice.step Voice.CallOnTranscription Sample.quiet
               (Voice.step Voice.CallOnVoiceEmotion Sample.quiet
                  (Voice.step (Voice.CallSetLanguage (Hook.language Sample.options))
                     Sample.quiet
                     (Voice.step (Voice.CallInitialize true) Sample.quiet
                        (Voice.boot Sample.config)))))).
  repeat apply Voice.reachable_step. apply Voice.reachable_boot.
Qed.

(** X22 on the sample hook, initialised. *)
Lemma listening_round_trip_witness :
  Hook.isInitialized (Hook.hook Sample.initialised) = true
  /\ Hook.voiceServiceRef (Hook.hook Sample.initialised) = true
  /\ Voice.reachable (Hook.voiceService Sample.initialised)
  /\ Hook.isListening
       (Hook.hook (Hook.startListening Sample.host Sample.initialised)) = true
  /\ ticks (Voice.pending
              (Hook.voiceService
                 (Hook.stopListening Sample.host
                    (Hook.startListening Sample.host Sample.initialised)))) = [].
Proof.
  assert (I : Hook.isInitialized (Hook.hook Sample.initialised) = true)
    by (vm_compute; reflexivity).
  assert (V : Hook.voiceServiceRef (Hook.hook Sample.initialised) = true)
    by (vm_compute; reflexivity).
  destruct (listening_round_trip Sample.host Sample.host Sample.initialised
              I V sample_initialised_voice_reachable)
    as (A & _ & _ & _ & _ & _ & T & _).
  split; [exact I|]. split; [exact V|].
  split; [exact sample_initialised_voice_reachable|].
  split; [exact A | exact T].
Defined.
